(** * LogTide Python SDK: buffering, flush, retry and circuit-breaker core

    A shallow embedding of [logtide_sdk/enums.py], [exceptions.py],
    [models.py], [circuit_breaker.py] and the core of [client.py].

    Conventions.
    - A method of a Python object is a computation [M O A] over the
      object [O] and the outside [World]; it returns a value, raises an
      exception, or blocks for ever ([Hang]) on a lock already held.
    - [threading.Lock] is a boolean (held or free); it is not reentrant.
    - [time.time()] returns the next reading of the world's clock, in
      seconds; floats are rationals with exact arithmetic.
    - [requests.post(...).raise_for_status()] succeeds or raises according
      to the world's transport oracle; every call is recorded.
    - [time.sleep(d)] raises on a delay it does not accept (negative, or
      beyond the range of CPython's nanosecond count); an accepted delay is
      recorded and takes no time.
    - [print] under [options.debug] writes to stdout only and is left out,
      and so are [atexit.register] and [__del__], which only call [close].
    - The state that comes with [Hang] is the state at the point where the
      thread blocks.
    - The read-only HTTP calls [query], [get_by_trace_id] and
      [get_aggregated_stats] touch no state of the client and are not
      modelled. [stream] runs the caller's callbacks over their own state;
      what the server, the UTF-8 decoder and [json.loads] answer is given
      by an environment.
    - Of the framework middleware, the request hook of the Flask
      middleware is modelled; the accessors of Flask's request object are
      fields of a record. The response and error hooks format floats and
      are left out. *)

From Stdlib Require Import ZArith QArith List Bool Lia.
From stdpp Require Import gmap strings list fin_maps.

Local Open Scope Z_scope.

(** ** enums.py *)

Inductive LogLevel := DEBUG | INFO | WARN | ERROR | CRITICAL.

Inductive CircuitState := CLOSED | OPEN | HALF_OPEN.

Definition CircuitState_eqb (a b : CircuitState) : bool :=
  match a, b with
  | CLOSED, CLOSED | OPEN, OPEN | HALF_OPEN, HALF_OPEN => true
  | _, _ => false
  end.

(** ** exceptions.py, the exception of the transport, and the built-in
    exceptions that [time.sleep] raises *)

Inductive exn :=
| LogTideError (msg : string)
| CircuitBreakerOpenError (msg : string)
| BufferFullError (msg : string)
| RequestException (msg : string)
| ValueError (msg : string)
| OverflowError (msg : string).

Definition is_CircuitBreakerOpenError (e : exn) : bool :=
  match e with CircuitBreakerOpenError _ => true | _ => false end.

(** ** The outside world *)

(** Python values that occur in metadata. *)
#[local] Set Warnings "-register-all".
Inductive pyval :=
| PNone
| PBool (b : bool)
| PInt (z : Z)
| PStr (s : string)
| PDict (items : list (string * pyval)).

(** ** models.py *)

Record LogEntry := {
  service : string;
  level : LogLevel;
  message : string;
  time : option string;
  metadata : gmap string pyval;
  trace_id : option string
}.

Record ClientOptions := {
  api_url : string;
  api_key : string;
  batch_size : Z;
  flush_interval : Z;
  max_buffer_size : Z;
  max_retries : Z;
  retry_delay_ms : Z;
  circuit_breaker_threshold : Z;
  circuit_breaker_reset_ms : Z;
  enable_metrics : bool;
  debug : bool;
  global_metadata : gmap string pyval;
  auto_trace_id : bool
}.

Record ClientMetrics := {
  logs_sent : Z;
  logs_dropped : Z;
  errors : Z;
  retries : Z;
  avg_latency_ms : Q;
  circuit_breaker_trips : Z
}.

Definition ClientMetrics_init : ClientMetrics :=
  {| logs_sent := 0; logs_dropped := 0; errors := 0; retries := 0;
     avg_latency_ms := 0%Q; circuit_breaker_trips := 0 |}.

(** The world: oracles for what the environment answers, and the trace of
    what the program did to it. *)
Record World := {
  clock : nat -> Q;              (* k-th reading of time.time(), seconds *)
  ticks : nat;                   (* readings taken so far *)
  post_ok : nat -> bool;         (* does the k-th POST succeed? *)
  posts : list (list LogEntry);  (* batches handed to the transport *)
  sleeps : list Q;               (* arguments of time.sleep, in order *)
  uuid4 : nat -> string;         (* k-th str(uuid.uuid4()) *)
  uuids : nat;
  utcnow : nat -> string;        (* k-th datetime.utcnow().isoformat() *)
  utcnows : nat;
  format_exc : string            (* traceback.format_exc() *)
}.

Definition tick (w : World) : World :=
  {| clock := clock w; ticks := S (ticks w); post_ok := post_ok w;
     posts := posts w; sleeps := sleeps w; uuid4 := uuid4 w;
     uuids := uuids w; utcnow := utcnow w; utcnows := utcnows w;
     format_exc := format_exc w |}.

Definition add_post (b : list LogEntry) (w : World) : World :=
  {| clock := clock w; ticks := ticks w; post_ok := post_ok w;
     posts := posts w ++ [b]; sleeps := sleeps w; uuid4 := uuid4 w;
     uuids := uuids w; utcnow := utcnow w; utcnows := utcnows w;
     format_exc := format_exc w |}.

Definition add_sleep (d : Q) (w : World) : World :=
  {| clock := clock w; ticks := ticks w; post_ok := post_ok w;
     posts := posts w; sleeps := sleeps w ++ [d]; uuid4 := uuid4 w;
     uuids := uuids w; utcnow := utcnow w; utcnows := utcnows w;
     format_exc := format_exc w |}.

Definition next_uuid (w : World) : World :=
  {| clock := clock w; ticks := ticks w; post_ok := post_ok w;
     posts := posts w; sleeps := sleeps w; uuid4 := uuid4 w;
     uuids := S (uuids w); utcnow := utcnow w; utcnows := utcnows w;
     format_exc := format_exc w |}.

Definition next_utcnow (w : World) : World :=
  {| clock := clock w; ticks := ticks w; post_ok := post_ok w;
     posts := posts w; sleeps := sleeps w; uuid4 := uuid4 w;
     uuids := uuids w; utcnow := utcnow w; utcnows := S (utcnows w);
     format_exc := format_exc w |}.

(** ** Computations *)

Inductive result (A : Type) :=
| Ret (a : A)
| Raise (e : exn)
| Hang.
Arguments Ret {A} a.
Arguments Raise {A} e.
Arguments Hang {A}.

Definition M (O A : Type) : Type := O * World -> result A * (O * World).

Definition ret {O A} (a : A) : M O A := fun s => (Ret a, s).

Definition raise {O A} (e : exn) : M O A := fun s => (Raise e, s).

Definition bind {O A B} (m : M O A) (k : A -> M O B) : M O B :=
  fun s =>
    match m s with
    | (Ret a, s') => k a s'
    | (Raise e, s') => (Raise e, s')
    | (Hang, s') => (Hang, s')
    end.

Notation "x <- m ;; k" := (bind m (fun x => k))
  (at level 100, m at next level, right associativity).
Notation "m ;; k" := (bind m (fun _ => k))
  (at level 100, right associativity).

Definition gets {O A} (f : O -> A) : M O A := fun s => (Ret (f (fst s)), s).

Definition modify {O} (f : O -> O) : M O unit :=
  fun s => (Ret tt, (f (fst s), snd s)).

Definition getsW {O A} (f : World -> A) : M O A := fun s => (Ret (f (snd s)), s).

Definition modifyW {O} (f : World -> World) : M O unit :=
  fun s => (Ret tt, (fst s, f (snd s))).

(** [try: body finally: fin]. *)
Definition try_finally {O A} (body : M O A) (fin : M O unit) : M O A :=
  fun s =>
    match body s with
    | (Hang, s') => (Hang, s')
    | (r, s') =>
        match fin s' with
        | (Ret _, s'') => (r, s'')
        | (Raise e, s'') => (Raise e, s'')
        | (Hang, s'') => (Hang, s'')
        end
    end.

(** [try: body except Exception as e: handler e]. *)
Definition try_except {O A} (body : M O A) (handler : exn -> M O A) : M O A :=
  fun s =>
    match body s with
    | (Raise e, s') => handler e s'
    | rs => rs
    end.

(** [with lock: body] for a [threading.Lock]: acquiring a held lock blocks;
    the lock is released when the body returns or raises. *)
Definition with_lock {O A} (held : O -> bool) (set_held : bool -> O -> O)
    (body : M O A) : M O A :=
  fun s =>
    if held (fst s) then (Hang, s)
    else try_finally body (modify (set_held false)) (set_held true (fst s), snd s).

(** [time.time()]. *)
Definition time_time {O} : M O Q :=
  now <- getsW (fun w => clock w (ticks w)) ;;
  modifyW tick ;;
  ret now.

(** The range of CPython's [_PyTime_t], a signed 64-bit count of
    nanoseconds. *)
Definition PyTime_MIN : Z := - 2 ^ 63.
Definition PyTime_MAX : Z := 2 ^ 63 - 1.

(** Does a number of seconds fit a [_PyTime_t]? *)
Definition fits_PyTime (d : Q) : bool :=
  Qle_bool (inject_Z PyTime_MIN) (d * inject_Z 1000000000) &&
  Qle_bool (d * inject_Z 1000000000) (inject_Z PyTime_MAX).

(** [time.sleep(d)]: the delay is first turned into a [_PyTime_t], which
    raises OverflowError when it does not fit; a negative delay then raises
    ValueError; any other delay is slept. *)
Definition time_sleep {O} (d : Q) : M O unit :=
  if fits_PyTime d then
    if Qle_bool 0 d then modifyW (add_sleep d)
    else raise (ValueError "sleep length must be non-negative")
  else raise (OverflowError "timestamp too large to convert to C _PyTime_t").

(** ** circuit_breaker.py *)

Record CircuitBreaker := {
  threshold : Z;
  reset_timeout_ms : Z;
  _state : CircuitState;
  _failure_count : Z;
  _last_failure_time : Q;
  _lock : bool
}.

Definition set__state (v : CircuitState) (b : CircuitBreaker) : CircuitBreaker :=
  {| threshold := threshold b; reset_timeout_ms := reset_timeout_ms b;
     _state := v; _failure_count := _failure_count b;
     _last_failure_time := _last_failure_time b; _lock := _lock b |}.

Definition set__failure_count (v : Z) (b : CircuitBreaker) : CircuitBreaker :=
  {| threshold := threshold b; reset_timeout_ms := reset_timeout_ms b;
     _state := _state b; _failure_count := v;
     _last_failure_time := _last_failure_time b; _lock := _lock b |}.

Definition set__last_failure_time (v : Q) (b : CircuitBreaker) : CircuitBreaker :=
  {| threshold := threshold b; reset_timeout_ms := reset_timeout_ms b;
     _state := _state b; _failure_count := _failure_count b;
     _last_failure_time := v; _lock := _lock b |}.

Definition set__lock (v : bool) (b : CircuitBreaker) : CircuitBreaker :=
  {| threshold := threshold b; reset_timeout_ms := reset_timeout_ms b;
     _state := _state b; _failure_count := _failure_count b;
     _last_failure_time := _last_failure_time b; _lock := v |}.

Module CircuitBreaker_.

(** [__init__]. *)
Definition init (threshold reset_timeout_ms : Z) : CircuitBreaker :=
  {| threshold := threshold; reset_timeout_ms := reset_timeout_ms;
     _state := CLOSED; _failure_count := 0; _last_failure_time := 0%Q;
     _lock := false |}.

Definition _check_half_open : M CircuitBreaker unit :=
  st <- gets _state ;;
  if CircuitState_eqb st OPEN then
    now <- time_time ;;
    last <- gets _last_failure_time ;;
    let time_since_failure := ((now - last) * 1000)%Q in
    T <- gets reset_timeout_ms ;;
    if Qle_bool (inject_Z T) time_since_failure then
      modify (set__state HALF_OPEN) ;;
      modify (set__failure_count 0)
    else ret tt
  else ret tt.

(** The [state] property. *)
Definition state : M CircuitBreaker CircuitState :=
  with_lock _lock set__lock
    (_check_half_open ;;
     gets _state).

Definition record_success : M CircuitBreaker unit :=
  with_lock _lock set__lock
    (modify (set__failure_count 0) ;;
     st <- gets _state ;;
     if CircuitState_eqb st HALF_OPEN then modify (set__state CLOSED)
     else ret tt).

Definition record_failure : M CircuitBreaker unit :=
  with_lock _lock set__lock
    (modify (fun b => set__failure_count (_failure_count b + 1) b) ;;
     now <- time_time ;;
     modify (set__last_failure_time now) ;;
     fc <- gets _failure_count ;;
     t <- gets threshold ;;
     if fc >=? t then modify (set__state OPEN) else ret tt).

Definition call {T} (func : M CircuitBreaker T) : M CircuitBreaker T :=
  with_lock _lock set__lock
    (_check_half_open ;;
     st <- gets _state ;;
     if CircuitState_eqb st OPEN
     then raise (CircuitBreakerOpenError "Circuit breaker is open")
     else ret tt) ;;
  try_except
    (result <- func ;;
     record_success ;;
     ret result)
    (fun e =>
       record_failure ;;
       raise e).

Definition reset : M CircuitBreaker unit :=
  with_lock _lock set__lock
    (modify (set__state CLOSED) ;;
     modify (set__failure_count 0) ;;
     modify (set__last_failure_time 0%Q)).

End CircuitBreaker_.

(** ** models.py: [LogEntry.__init__] with [__post_init__] *)

Definition set_metadata (v : gmap string pyval) (e : LogEntry) : LogEntry :=
  {| service := service e; level := level e; message := message e;
     time := time e; metadata := v; trace_id := trace_id e |}.

Definition set_trace_id_entry (v : option string) (e : LogEntry) : LogEntry :=
  {| service := service e; level := level e; message := message e;
     time := time e; metadata := metadata e; trace_id := v |}.

Definition set_time (v : option string) (e : LogEntry) : LogEntry :=
  {| service := service e; level := level e; message := message e;
     time := v; metadata := metadata e; trace_id := trace_id e |}.

(** [datetime.utcnow().isoformat()]. *)
Definition datetime_utcnow_isoformat {O} : M O string :=
  t <- getsW (fun w => utcnow w (utcnows w)) ;;
  modifyW next_utcnow ;;
  ret t.

(** [LogEntry(service=..., level=..., message=..., metadata=...)]: the
    other fields take their defaults, then [__post_init__] runs. *)
Definition LogEntry_init {O} (service : string) (level : LogLevel)
    (message : string) (metadata : gmap string pyval) : M O LogEntry :=
  let self := {| service := service; level := level; message := message;
                 time := None; metadata := metadata; trace_id := None |} in
  match time self with
  | None =>
      t <- datetime_utcnow_isoformat ;;
      ret (set_time (Some (t +:+ "Z")) self)
  | Some _ => ret self
  end.

(** ** client.py *)

(** [threading.Timer]; the callback is always [_auto_flush]. *)
Record Timer := {
  interval : Q;
  daemon : bool;
  started : bool;
  cancelled : bool
}.

Definition Timer_cancel (t : Timer) : Timer :=
  {| interval := interval t; daemon := daemon t; started := started t;
     cancelled := true |}.

Record LogTideClient := {
  options : ClientOptions;
  _buffer : list LogEntry;
  _trace_id : option string;
  _buffer_lock : bool;
  _metrics_lock : bool;
  _metrics : ClientMetrics;
  _circuit_breaker : CircuitBreaker;
  _latency_window : list Q;
  _flush_timer : option Timer;
  _closed : bool
}.

Definition set__buffer (v : list LogEntry) (c : LogTideClient) : LogTideClient :=
  {| options := options c; _buffer := v; _trace_id := _trace_id c;
     _buffer_lock := _buffer_lock c; _metrics_lock := _metrics_lock c;
     _metrics := _metrics c; _circuit_breaker := _circuit_breaker c;
     _latency_window := _latency_window c; _flush_timer := _flush_timer c;
     _closed := _closed c |}.

Definition set__trace_id (v : option string) (c : LogTideClient) : LogTideClient :=
  {| options := options c; _buffer := _buffer c; _trace_id := v;
     _buffer_lock := _buffer_lock c; _metrics_lock := _metrics_lock c;
     _metrics := _metrics c; _circuit_breaker := _circuit_breaker c;
     _latency_window := _latency_window c; _flush_timer := _flush_timer c;
     _closed := _closed c |}.

Definition set__buffer_lock (v : bool) (c : LogTideClient) : LogTideClient :=
  {| options := options c; _buffer := _buffer c; _trace_id := _trace_id c;
     _buffer_lock := v; _metrics_lock := _metrics_lock c;
     _metrics := _metrics c; _circuit_breaker := _circuit_breaker c;
     _latency_window := _latency_window c; _flush_timer := _flush_timer c;
     _closed := _closed c |}.

Definition set__metrics_lock (v : bool) (c : LogTideClient) : LogTideClient :=
  {| options := options c; _buffer := _buffer c; _trace_id := _trace_id c;
     _buffer_lock := _buffer_lock c; _metrics_lock := v;
     _metrics := _metrics c; _circuit_breaker := _circuit_breaker c;
     _latency_window := _latency_window c; _flush_timer := _flush_timer c;
     _closed := _closed c |}.

Definition set__metrics (v : ClientMetrics) (c : LogTideClient) : LogTideClient :=
  {| options := options c; _buffer := _buffer c; _trace_id := _trace_id c;
     _buffer_lock := _buffer_lock c; _metrics_lock := _metrics_lock c;
     _metrics := v; _circuit_breaker := _circuit_breaker c;
     _latency_window := _latency_window c; _flush_timer := _flush_timer c;
     _closed := _closed c |}.

Definition set__circuit_breaker (v : CircuitBreaker) (c : LogTideClient) : LogTideClient :=
  {| options := options c; _buffer := _buffer c; _trace_id := _trace_id c;
     _buffer_lock := _buffer_lock c; _metrics_lock := _metrics_lock c;
     _metrics := _metrics c; _circuit_breaker := v;
     _latency_window := _latency_window c; _flush_timer := _flush_timer c;
     _closed := _closed c |}.

Definition set__latency_window (v : list Q) (c : LogTideClient) : LogTideClient :=
  {| options := options c; _buffer := _buffer c; _trace_id := _trace_id c;
     _buffer_lock := _buffer_lock c; _metrics_lock := _metrics_lock c;
     _metrics := _metrics c; _circuit_breaker := _circuit_breaker c;
     _latency_window := v; _flush_timer := _flush_timer c;
     _closed := _closed c |}.

Definition set__flush_timer (v : option Timer) (c : LogTideClient) : LogTideClient :=
  {| options := options c; _buffer := _buffer c; _trace_id := _trace_id c;
     _buffer_lock := _buffer_lock c; _metrics_lock := _metrics_lock c;
     _metrics := _metrics c; _circuit_breaker := _circuit_breaker c;
     _latency_window := _latency_window c; _flush_timer := v;
     _closed := _closed c |}.

Definition set__closed (v : bool) (c : LogTideClient) : LogTideClient :=
  {| options := options c; _buffer := _buffer c; _trace_id := _trace_id c;
     _buffer_lock := _buffer_lock c; _metrics_lock := _metrics_lock c;
     _metrics := _metrics c; _circuit_breaker := _circuit_breaker c;
     _latency_window := _latency_window c; _flush_timer := _flush_timer c;
     _closed := v |}.

(** Updates of [self._metrics.<counter>]. *)
Definition add_logs_sent (n : Z) (m : ClientMetrics) : ClientMetrics :=
  {| logs_sent := logs_sent m + n; logs_dropped := logs_dropped m;
     errors := errors m; retries := retries m;
     avg_latency_ms := avg_latency_ms m;
     circuit_breaker_trips := circuit_breaker_trips m |}.

Definition add_logs_dropped (n : Z) (m : ClientMetrics) : ClientMetrics :=
  {| logs_sent := logs_sent m; logs_dropped := logs_dropped m + n;
     errors := errors m; retries := retries m;
     avg_latency_ms := avg_latency_ms m;
     circuit_breaker_trips := circuit_breaker_trips m |}.

Definition add_errors (n : Z) (m : ClientMetrics) : ClientMetrics :=
  {| logs_sent := logs_sent m; logs_dropped := logs_dropped m;
     errors := errors m + n; retries := retries m;
     avg_latency_ms := avg_latency_ms m;
     circuit_breaker_trips := circuit_breaker_trips m |}.

Definition add_retries (n : Z) (m : ClientMetrics) : ClientMetrics :=
  {| logs_sent := logs_sent m; logs_dropped := logs_dropped m;
     errors := errors m; retries := retries m + n;
     avg_latency_ms := avg_latency_ms m;
     circuit_breaker_trips := circuit_breaker_trips m |}.

Definition set_avg_latency_ms (v : Q) (m : ClientMetrics) : ClientMetrics :=
  {| logs_sent := logs_sent m; logs_dropped := logs_dropped m;
     errors := errors m; retries := retries m;
     avg_latency_ms := v;
     circuit_breaker_trips := circuit_breaker_trips m |}.

Definition add_circuit_breaker_trips (n : Z) (m : ClientMetrics) : ClientMetrics :=
  {| logs_sent := logs_sent m; logs_dropped := logs_dropped m;
     errors := errors m; retries := retries m;
     avg_latency_ms := avg_latency_ms m;
     circuit_breaker_trips := circuit_breaker_trips m + n |}.

(** A method call on [self._circuit_breaker]. *)
Definition on_breaker {A} (m : M CircuitBreaker A) : M LogTideClient A :=
  fun s =>
    let rs := m (_circuit_breaker (fst s), snd s) in
    (fst rs, (set__circuit_breaker (fst (snd rs)) (fst s), snd (snd rs))).

(** [str(uuid.uuid4())]. *)
Definition uuid_uuid4 {O} : M O string :=
  u <- getsW (fun w => uuid4 w (uuids w)) ;;
  modifyW next_uuid ;;
  ret u.

(** Truth value of a dict: non-empty. *)
Definition dict_truthy (d : gmap string pyval) : bool :=
  negb (Nat.eqb (size d) 0).

(** The [metadata_or_error] argument of [error] and [critical]. *)
Inductive metadata_or_error :=
| MoeNone
| MoeDict (d : gmap string pyval)
| MoeException (name msg : string).

(** What the outcome of one turn of the [while] loop does next. *)
Inductive loop_ctl :=
| Return_
| Break_
| Continue_ (attempt : Z) (delay : Q).

Module LogTideClient_.

Definition with_buffer_lock {A} (body : M LogTideClient A) : M LogTideClient A :=
  with_lock _buffer_lock set__buffer_lock body.

Definition with_metrics_lock {A} (body : M LogTideClient A) : M LogTideClient A :=
  with_lock _metrics_lock set__metrics_lock body.

Definition update_metrics (f : ClientMetrics -> ClientMetrics) : M LogTideClient unit :=
  modify (fun c => set__metrics (f (_metrics c)) c).

Definition _normalize_trace_id (trace_id : string) : string := trace_id.

Definition set_trace_id (trace_id : option string) : M LogTideClient unit :=
  match trace_id with
  | Some t => modify (set__trace_id (Some (_normalize_trace_id t)))
  | None => modify (set__trace_id None)
  end.

Definition get_trace_id : M LogTideClient (option string) := gets _trace_id.

(** [with self.with_trace_id(trace_id): body]. *)
Definition with_trace_id {A} (trace_id : string) (body : M LogTideClient A)
    : M LogTideClient A :=
  old_trace_id <- gets _trace_id ;;
  set_trace_id (Some trace_id) ;;
  try_finally body (modify (set__trace_id old_trace_id)).

(** [with self.with_new_trace_id(): body]. *)
Definition with_new_trace_id {A} (body : M LogTideClient A) : M LogTideClient A :=
  new_trace_id <- uuid_uuid4 ;;
  with_trace_id new_trace_id body.

Definition _update_latency (latency : Q) : M LogTideClient unit :=
  with_metrics_lock
    (modify (fun c => set__latency_window (_latency_window c ++ [latency]) c) ;;
     win <- gets _latency_window ;;
     (if (100 <? length win)%nat
      then modify (fun c => set__latency_window (tl (_latency_window c)) c)
      else ret tt) ;;
     win <- gets _latency_window ;;
     match win with
     | [] => ret tt
     | _ :: _ =>
         update_metrics
           (set_avg_latency_ms
              (fold_left Qplus win 0%Q / inject_Z (Z.of_nat (length win)))%Q)
     end).

(** The POST of one batch and [raise_for_status]. *)
Definition _send_logs (logs : list LogEntry) : M LogTideClient unit :=
  ok <- getsW (fun w => post_ok w (length (posts w))) ;;
  modifyW (add_post logs) ;;
  if ok then ret tt else raise (RequestException "raise_for_status").

(** One turn of the body of [while attempt <= self.options.max_retries]. *)
Definition attempt_once (logs : list LogEntry) (attempt : Z) (delay : Q)
    : M LogTideClient loop_ctl :=
  try_except
    (st <- on_breaker CircuitBreaker_.state ;;
     (if CircuitState_eqb st OPEN then
        with_metrics_lock
          (update_metrics (add_logs_dropped (Z.of_nat (length logs)))) ;;
        raise (CircuitBreakerOpenError "Circuit breaker is open")
      else ret tt) ;;
     start_time <- time_time ;;
     _send_logs logs ;;
     end_time <- time_time ;;
     let latency := ((end_time - start_time) * 1000)%Q in
     on_breaker CircuitBreaker_.record_success ;;
     _update_latency latency ;;
     with_metrics_lock
       (update_metrics (add_logs_sent (Z.of_nat (length logs)))) ;;
     ret Return_)
    (fun e =>
       if is_CircuitBreakerOpenError e then ret Break_
       else
         let attempt := attempt + 1 in
         on_breaker CircuitBreaker_.record_failure ;;
         max_retries <- gets (max_retries ∘ options) ;;
         with_metrics_lock
           (update_metrics (add_errors 1) ;;
            if attempt <=? max_retries then update_metrics (add_retries 1)
            else ret tt) ;;
         if attempt >? max_retries then
           with_metrics_lock
             (update_metrics (add_logs_dropped (Z.of_nat (length logs)))) ;;
           ret Break_
         else
           time_sleep delay ;;
           ret (Continue_ attempt (delay * 2)%Q)).

(** The [while] loop; [true] when it left through [return], [false] when
    through [break] or a false condition.  [n] bounds the turns. *)
Fixpoint retry_loop (n : nat) (logs : list LogEntry) (attempt : Z) (delay : Q)
    : M LogTideClient bool :=
  match n with
  | O => ret false
  | S n' =>
      max_retries <- gets (max_retries ∘ options) ;;
      if attempt <=? max_retries then
        ctl <- attempt_once logs attempt delay ;;
        match ctl with
        | Return_ => ret true
        | Break_ => ret false
        | Continue_ attempt' delay' => retry_loop n' logs attempt' delay'
        end
      else ret false
  end.

(** [attempt] starts at 0 and grows by one per turn that continues, so
    [max_retries + 1] turns exhaust the condition. *)
Definition _send_logs_with_retry (logs : list LogEntry) : M LogTideClient unit :=
  let attempt := 0 in
  retry_delay_ms <- gets (retry_delay_ms ∘ options) ;;
  let delay := (inject_Z retry_delay_ms / 1000)%Q in
  max_retries <- gets (max_retries ∘ options) ;;
  returned <- retry_loop (Z.to_nat (max_retries + 1)) logs attempt delay ;;
  if returned : bool then ret tt
  else
    st <- on_breaker CircuitBreaker_.state ;;
    if CircuitState_eqb st OPEN then
      with_metrics_lock (update_metrics (add_circuit_breaker_trips 1))
    else ret tt.

Definition flush : M LogTideClient unit :=
  closed <- gets _closed ;;
  if closed : bool then ret tt
  else
    logs_to_send <-
      with_buffer_lock
        (buf <- gets _buffer ;;
         match buf with
         | [] => ret None
         | _ :: _ =>
             modify (set__buffer []) ;;
             ret (Some buf)
         end) ;;
    match logs_to_send with
    | None => ret tt
    | Some logs => _send_logs_with_retry logs
    end.

Definition log (entry : LogEntry) : M LogTideClient unit :=
  closed <- gets _closed ;;
  if closed : bool then ret tt
  else
    entry <-
      match trace_id entry with
      | None =>
          auto <- gets (auto_trace_id ∘ options) ;;
          if auto : bool then
            u <- uuid_uuid4 ;;
            ret (set_trace_id_entry (Some u) entry)
          else
            tid <- gets _trace_id ;;
            match tid with
            | Some t => ret (set_trace_id_entry (Some t) entry)
            | None => ret entry
            end
      | Some _ => ret entry
      end ;;
    global <- gets (global_metadata ∘ options) ;;
    let entry :=
      if dict_truthy global
      then set_metadata (metadata entry ∪ global) entry
      else entry in
    with_buffer_lock
      (buf <- gets _buffer ;;
       max_buffer_size <- gets (max_buffer_size ∘ options) ;;
       if Z.of_nat (length buf) >=? max_buffer_size then
         with_metrics_lock (update_metrics (add_logs_dropped 1)) ;;
         raise (BufferFullError "Log buffer is full")
       else
         modify (fun c => set__buffer (_buffer c ++ [entry]) c) ;;
         buf <- gets _buffer ;;
         batch_size <- gets (batch_size ∘ options) ;;
         if Z.of_nat (length buf) >=? batch_size then flush else ret tt).

Definition _process_metadata_or_error (moe : metadata_or_error)
    : M LogTideClient (gmap string pyval) :=
  match moe with
  | MoeNone => ret ∅
  | MoeDict d => ret d
  | MoeException name msg =>
      stack <- getsW format_exc ;;
      ret {[ "error" :=
               PDict [("name", PStr name); ("message", PStr msg);
                      ("stack", PStr stack)] ]}
  end.

(** [metadata or {}]. *)
Definition or_empty (metadata : option (gmap string pyval)) : gmap string pyval :=
  match metadata with
  | Some d => if dict_truthy d then d else ∅
  | None => ∅
  end.

Definition debug (service message : string)
    (metadata : option (gmap string pyval)) : M LogTideClient unit :=
  e <- LogEntry_init service DEBUG message (or_empty metadata) ;;
  log e.

Definition info (service message : string)
    (metadata : option (gmap string pyval)) : M LogTideClient unit :=
  e <- LogEntry_init service INFO message (or_empty metadata) ;;
  log e.

Definition warn (service message : string)
    (metadata : option (gmap string pyval)) : M LogTideClient unit :=
  e <- LogEntry_init service WARN message (or_empty metadata) ;;
  log e.

Definition error (service message : string)
    (metadata_or_error : metadata_or_error) : M LogTideClient unit :=
  metadata <- _process_metadata_or_error metadata_or_error ;;
  e <- LogEntry_init service ERROR message metadata ;;
  log e.

Definition critical (service message : string)
    (metadata_or_error : metadata_or_error) : M LogTideClient unit :=
  metadata <- _process_metadata_or_error metadata_or_error ;;
  e <- LogEntry_init service CRITICAL message metadata ;;
  log e.

Definition get_metrics : M LogTideClient ClientMetrics :=
  with_metrics_lock (gets _metrics).

Definition reset_metrics : M LogTideClient unit :=
  with_metrics_lock
    (modify (set__metrics ClientMetrics_init) ;;
     modify (set__latency_window [])).

Definition get_circuit_breaker_state : M LogTideClient CircuitState :=
  on_breaker CircuitBreaker_.state.

Definition close : M LogTideClient unit :=
  closed <- gets _closed ;;
  if closed : bool then ret tt
  else
    modify (set__closed true) ;;
    timer <- gets _flush_timer ;;
    match timer with
    | Some t => modify (set__flush_timer (Some (Timer_cancel t)))
    | None => ret tt
    end ;;
    flush.

Definition _schedule_flush : M LogTideClient unit :=
  closed <- gets _closed ;;
  if closed : bool then ret tt
  else
    flush_interval <- gets (flush_interval ∘ options) ;;
    let interval := (inject_Z flush_interval / 1000)%Q in
    modify (set__flush_timer
              (Some {| interval := interval; daemon := true;
                       started := true; cancelled := false |})).

(** The timer's callback. *)
Definition _auto_flush : M LogTideClient unit :=
  closed <- gets _closed ;;
  if negb closed then
    flush ;;
    _schedule_flush
  else ret tt.

(** [LogTideClient(options)]. *)
Definition init (options : ClientOptions) (w : World) : LogTideClient * World :=
  let self :=
    {| options := options; _buffer := []; _trace_id := None;
       _buffer_lock := false; _metrics_lock := false;
       _metrics := ClientMetrics_init;
       _circuit_breaker :=
         CircuitBreaker_.init (circuit_breaker_threshold options)
                              (circuit_breaker_reset_ms options);
       _latency_window := []; _flush_timer := None; _closed := false |} in
  if flush_interval options >? 0
  then snd (_schedule_flush (self, w))
  else (self, w).

End LogTideClient_.

(** ** client.py: [stream] *)

(** What [requests.get(..., stream=True)] hands back: [raise_for_status]
    raises or not; [iter_lines] yields lines of bytes and, when the
    connection breaks, ends with an exception. *)
Record Response := {
  raise_for_status : option exn;
  iter_lines : list string;
  iter_lines_error : option exn
}.

(** The environment of [stream]: the answer to the GET for a url, headers
    and query parameters, [bytes.decode("utf-8")], and [json.loads], whose
    values have type [J]. *)
Record Http (J : Type) := {
  requests_get :
    string -> gmap string string -> gmap string string -> exn + Response;
  decode_utf8 : string -> exn + string;
  json_loads : string -> exn + J
}.
Arguments requests_get {J} h url headers params.
Arguments decode_utf8 {J} h line.
Arguments json_loads {J} h s.

(** A call of the environment: the value, or the exception raised. *)
Definition of_sum {O A} (r : exn + A) : M O A :=
  match r with
  | inl e => raise e
  | inr a => ret a
  end.

(** [s[n:]]. *)
Fixpoint str_drop (n : nat) (s : string) : string :=
  match n, s with
  | O, _ => s
  | S n', String _ s' => str_drop n' s'
  | S _, EmptyString => EmptyString
  end.

Definition _get_headers (self : LogTideClient) : gmap string string :=
  {[ "Authorization" := "Bearer " +:+ api_key (options self);
     "Content-Type" := "application/json" ]}.

(** The body of the [for line in response.iter_lines()] loop. *)
Definition stream_line {S J} (http : Http J) (on_log : J -> M S unit)
    (on_error : option (exn -> M S unit)) (line : string) : M S unit :=
  match line with
  | EmptyString => ret tt
  | String _ _ =>
      line_str <- of_sum (decode_utf8 http line) ;;
      if String.prefix "data: " line_str then
        try_except
          (log_data <- of_sum (json_loads http (str_drop 6 line_str)) ;;
           on_log log_data)
          (fun e =>
             match on_error with
             | Some on_error => on_error e
             | None => ret tt
             end)
      else ret tt
  end.

(** [for line in response.iter_lines(): ...]; [stop] is what ends the
    iteration: the end of the response, or the exception of a broken
    connection. *)
Fixpoint for_line_in {S J} (http : Http J) (on_log : J -> M S unit)
    (on_error : option (exn -> M S unit)) (stop : option exn)
    (lines : list string) : M S unit :=
  match lines with
  | [] =>
      match stop with
      | Some e => raise e
      | None => ret tt
      end
  | line :: lines' =>
      stream_line http on_log on_error line ;;
      for_line_in http on_log on_error stop lines'
  end.

Definition stream {S J} (self : LogTideClient) (http : Http J)
    (on_log : J -> M S unit) (on_error : option (exn -> M S unit))
    (filters : option (gmap string string)) : M S unit :=
  let params := match filters with Some d => d | None => ∅ end in
  let url := api_url (options self) +:+ "/api/logs/stream" in
  try_except
    (response <- of_sum (requests_get http url (_get_headers self) params) ;;
     match raise_for_status response with
     | Some e => raise e
     | None => ret tt
     end ;;
     for_line_in http on_log on_error (iter_lines_error response)
       (iter_lines response))
    (fun e =>
       match on_error with
       | Some on_error => on_error e
       | None => raise e
       end).

(** ** middleware/flask.py: the request hook *)

Module Flask.

(** Flask's [request], as the hook reads it. *)
Record Request := {
  method : string;
  path : string;
  remote_addr : pyval;          (* a string, or None *)
  headers : pyval;              (* dict(request.headers) *)
  X_Trace_ID : option string;   (* request.headers.get("X-Trace-ID") *)
  is_json : bool;
  get_json : pyval              (* request.get_json(silent=True) *)
}.

Record LogTideFlaskMiddleware := {
  service_name : string;
  log_requests : bool;
  log_responses : bool;
  log_errors : bool;
  include_headers : bool;
  include_body : bool;
  skip_paths : list string
}.

(** What the hooks work on: the client the middleware was given, and
    [g.logtide_start_time] of Flask's request context ([None] when the
    attribute is not set). *)
Record Ctx := {
  client : LogTideClient;
  logtide_start_time : option Q
}.

Definition set_client (v : LogTideClient) (x : Ctx) : Ctx :=
  {| client := v; logtide_start_time := logtide_start_time x |}.

Definition set_logtide_start_time (v : option Q) (x : Ctx) : Ctx :=
  {| client := client x; logtide_start_time := v |}.

(** A method of [self.client] called from a hook. *)
Definition on_client {A} (m : M LogTideClient A) : M Ctx A :=
  fun s =>
    let rs := m (client (fst s), snd s) in
    (fst rs, (set_client (fst (snd rs)) (fst s), snd (snd rs))).

(** [__init__], without the registration of the hooks with the app. A
    list given by the caller is extended in place; what is modelled is the
    list as the middleware holds it. *)
Definition init (service_name : string)
    (log_requests log_responses log_errors include_headers include_body
       skip_health_check : bool)
    (skip_paths : option (list string)) : LogTideFlaskMiddleware :=
  let skip_paths :=
    match skip_paths with
    | Some (p :: l) => p :: l
    | _ => []
    end in
  {| service_name := service_name;
     log_requests := log_requests;
     log_responses := log_responses;
     log_errors := log_errors;
     include_headers := include_headers;
     include_body := include_body;
     skip_paths :=
       if skip_health_check
       then skip_paths ++ ["/health"; "/healthz"]
       else skip_paths |}.

Definition _should_skip (self : LogTideFlaskMiddleware) (path : string) : bool :=
  bool_decide (path ∈ skip_paths self).

Definition _before_request (self : LogTideFlaskMiddleware) (request : Request)
    : M Ctx unit :=
  if _should_skip self (path request) then ret tt
  else
    now <- time_time ;;
    modify (set_logtide_start_time (Some now)) ;;
    if negb (log_requests self) then ret tt
    else
      let metadata : gmap string pyval :=
        {[ "method" := PStr (method request);
           "path" := PStr (path request);
           "ip" := remote_addr request ]} in
      let metadata :=
        if include_headers self
        then <["headers" := headers request]> metadata
        else metadata in
      let metadata :=
        if include_body self && is_json request
        then <["body" := get_json request]> metadata
        else metadata in
      let trace_id := X_Trace_ID request in
      match trace_id with
      | Some t =>
          if negb (String.eqb t EmptyString)
          then on_client (LogTideClient_.set_trace_id (Some t))
          else ret tt
      | None => ret tt
      end ;;
      on_client
        (LogTideClient_.info (service_name self)
           (method request +:+ " " +:+ path request) (Some metadata)).

End Flask.

(** ** Vocabulary of the statements *)

(** The operations a client of the breaker performs on it. *)
Inductive cb_op := OpRecordSuccess | OpRecordFailure | OpState.

(** One operation; a state read answers the state it read. *)
Definition cb_step (op : cb_op) : M CircuitBreaker (option CircuitState) :=
  match op with
  | OpRecordSuccess => CircuitBreaker_.record_success ;; ret None
  | OpRecordFailure => CircuitBreaker_.record_failure ;; ret None
  | OpState => st <- CircuitBreaker_.state ;; ret (Some st)
  end.

(** [for _ in range(n): m]. *)
Fixpoint repeat_m {O} (n : nat) (m : M O unit) : M O unit :=
  match n with
  | O => ret tt
  | S n' => m ;; repeat_m n' m
  end.

(** [time_since_failure] as [_check_half_open] computes it at the next
    reading of the clock. *)
Definition time_since_failure (b : CircuitBreaker) (w : World) : Q :=
  ((clock w (ticks w) - _last_failure_time b) * 1000)%Q.

(** No thread holds a lock of the client or of its breaker: the state
    between two calls of a single-threaded caller. *)
Definition quiescent (c : LogTideClient) : Prop :=
  _buffer_lock c = false /\ _metrics_lock c = false /\
  _lock (_circuit_breaker c) = false.

(** The breaker of [c] answers OPEN to a state read taken in world [w]:
    it is OPEN and the reset timeout has not elapsed at that reading. *)
Definition reads_open (c : LogTideClient) (w : World) : Prop :=
  _state (_circuit_breaker c) = OPEN /\
  Qle_bool (inject_Z (reset_timeout_ms (_circuit_breaker c)))
           (time_since_failure (_circuit_breaker c) w) = false.

(** The delay of the k-th sleep (from 0) of a loop entered with [delay]:
    [delay *= 2] after every sleep. *)
Fixpoint backoff (delay : Q) (k : nat) : Q :=
  match k with
  | O => delay
  | S k' => backoff (delay * 2)%Q k'
  end.

(** A delay that [time.sleep] accepts. *)
Definition sleepable (d : Q) : bool := fits_PyTime d && Qle_bool 0 d.

(** [log] rejects the entry: it raises BufferFullError, the buffer is as
    it was, and logs_dropped has grown by one. *)
Definition full_buffer_rejects (e : LogEntry) (c : LogTideClient) (w : World)
    : Prop :=
  exists msg c' w',
    LogTideClient_.log e (c, w) = (Raise (BufferFullError msg), (c', w')) /\
    _buffer c' = _buffer c /\
    logs_dropped (_metrics c') = logs_dropped (_metrics c) + 1.

(** [m] leaves [self.options] as it found it. *)
Definition keeps_options {A} (m : M LogTideClient A) : Prop :=
  forall s, options (fst (snd (m s))) = options (fst s).

(** Whatever [m] returns satisfies [P]. *)
Definition returns_only {O A} (P : A -> Prop) (m : M O A) : Prop :=
  forall s, match fst (m s) with Ret a => P a | _ => True end.

(** [for x in xs: f x]. *)
Fixpoint each {O A} (f : A -> M O unit) (xs : list A) : M O unit :=
  match xs with
  | [] => ret tt
  | x :: xs' => f x ;; each f xs'
  end.

(** What [_update_latency] keeps of a window it has appended to:
    [if len(window) > 100: window.pop(0)]. *)
Definition roll (win : list Q) : list Q :=
  if (100 <? length win)%nat then tl win else win.

(** [sum(window) / len(window)]. *)
Definition mean (win : list Q) : Q :=
  (fold_left Qplus win 0 / inject_Z (Z.of_nat (length win)))%Q.

(** The last 100 elements of a list. *)
Definition last100 {A} (l : list A) : list A := drop (length l - 100) l.

(** The breaker of [c] does not answer OPEN to a state read taken in world
    [w]: it is not OPEN, or the reset timeout has elapsed at that reading. *)
Definition reads_not_open (c : LogTideClient) (w : World) : Prop :=
  _state (_circuit_breaker c) <> OPEN \/
  Qle_bool (inject_Z (reset_timeout_ms (_circuit_breaker c)))
           (time_since_failure (_circuit_breaker c) w) = true.

(** The client and the world as that state read leaves them. *)
Definition after_state_read (c : LogTideClient) (w : World) : LogTideClient * World :=
  if CircuitState_eqb (_state (_circuit_breaker c)) OPEN then
    (if Qle_bool (inject_Z (reset_timeout_ms (_circuit_breaker c)))
                 (time_since_failure (_circuit_breaker c) w)
     then set__circuit_breaker
            (set__failure_count 0 (set__state HALF_OPEN (_circuit_breaker c))) c
     else c,
     tick w)
  else (c, w).

(** Does [log] draw a uuid for [e]? *)
Definition needs_uuid (c : LogTideClient) (e : LogEntry) : bool :=
  match trace_id e with
  | None => auto_trace_id (options c)
  | Some _ => false
  end.

(** The entry as [log] has it when it takes the buffer lock: trace id
    attached, global metadata merged in. *)
Definition stamped (c : LogTideClient) (w : World) (e : LogEntry) : LogEntry :=
  {| service := service e; level := level e; message := message e;
     time := time e;
     metadata := metadata e ∪ global_metadata (options c);
     trace_id :=
       match trace_id e with
       | Some t => Some t
       | None => if auto_trace_id (options c)
                 then Some (uuid4 w (uuids w)) else _trace_id c
       end |}.

(** [e'] is [e] as a client with the options and trace id of [c] stores it:
    the entry's own trace id if it has one, else a drawn uuid under
    auto_trace_id, else the client's current trace id. *)
Definition stored_like (c : LogTideClient) (w : World) (e e' : LogEntry) : Prop :=
  service e' = service e /\ level e' = level e /\ message e' = message e /\
  time e' = time e /\
  metadata e' = metadata e ∪ global_metadata (options c) /\
  match trace_id e with
  | Some t => trace_id e' = Some t
  | None =>
      if auto_trace_id (options c)
      then exists k, trace_id e' = Some (uuid4 w k)
      else trace_id e' = _trace_id c
  end.

(** The five leveled logging calls with their metadata argument. *)
Inductive leveled_call :=
| CallDebug (metadata : option (gmap string pyval))
| CallInfo (metadata : option (gmap string pyval))
| CallWarn (metadata : option (gmap string pyval))
| CallError (metadata_or_error : metadata_or_error)
| CallCritical (metadata_or_error : metadata_or_error).

Definition run_call (k : leveled_call) (service message : string)
    : M LogTideClient unit :=
  match k with
  | CallDebug md => LogTideClient_.debug service message md
  | CallInfo md => LogTideClient_.info service message md
  | CallWarn md => LogTideClient_.warn service message md
  | CallError moe => LogTideClient_.error service message moe
  | CallCritical moe => LogTideClient_.critical service message moe
  end.

Definition call_level (k : leveled_call) : LogLevel :=
  match k with
  | CallDebug _ => DEBUG
  | CallInfo _ => INFO
  | CallWarn _ => WARN
  | CallError _ => ERROR
  | CallCritical _ => CRITICAL
  end.

(** The metadata the call itself contributes: the dict passed, none for
    [None], and for an exception its name, message and traceback under
    the key error. *)
Definition call_metadata (w : World) (k : leveled_call) : gmap string pyval :=
  match k with
  | CallDebug md | CallInfo md | CallWarn md =>
      match md with Some d => d | None => ∅ end
  | CallError moe | CallCritical moe =>
      match moe with
      | MoeNone => ∅
      | MoeDict d => d
      | MoeException name msg =>
          {[ "error" := PDict [("name", PStr name); ("message", PStr msg);
                               ("stack", PStr (format_exc w))] ]}
      end
  end.

(** What a user of the breaker does to it: the three operations of the
    pipeline, [reset], and [call] on a function that returns ([ok]) or
    raises, the caller catching what [call] raises. *)
Inductive cb_action :=
| ActSuccess
| ActFailure
| ActState
| ActReset
| ActCall (ok : bool).

Definition cb_act (a : cb_action) : M CircuitBreaker unit :=
  match a with
  | ActSuccess => CircuitBreaker_.record_success
  | ActFailure => CircuitBreaker_.record_failure
  | ActState => CircuitBreaker_.state ;; ret tt
  | ActReset => CircuitBreaker_.reset
  | ActCall ok =>
      try_except
        (CircuitBreaker_.call
           (if ok then ret tt else raise (RequestException "failed")))
        (fun _ => ret tt)
  end.

(** The breaker and the world as a state read leaves them. *)
Definition breaker_after_read (b : CircuitBreaker) (w : World)
    : CircuitBreaker * World :=
  if CircuitState_eqb (_state b) OPEN then
    (if Qle_bool (inject_Z (reset_timeout_ms b)) (time_since_failure b w)
     then set__failure_count 0 (set__state HALF_OPEN b)
     else b,
     tick w)
  else (b, w).

(** The url, headers and query parameters of the GET that [stream] sends. *)
Definition stream_request {J} (self : LogTideClient) (http : Http J)
    (filters : option (gmap string string)) : exn + Response :=
  requests_get http (api_url (options self) +:+ "/api/logs/stream")
    (_get_headers self) (default ∅ filters).

(** A line that [stream] can read: empty, or valid UTF-8. *)
Definition readable {J} (http : Http J) (line : string) : Prop :=
  line = EmptyString \/ exists line_str, decode_utf8 http line = inr line_str.

(** The payloads of the lines: of each non-empty line whose text starts
    with data: , what [json.loads] makes of the rest, when it makes
    something of it. *)
Fixpoint payloads {J} (http : Http J) (lines : list string) : list J :=
  match lines with
  | [] => []
  | line :: lines' =>
      match line, decode_utf8 http line with
      | String _ _, inr line_str =>
          if String.prefix "data: " line_str then
            match json_loads http (str_drop 6 line_str) with
            | inr d => d :: payloads http lines'
            | inl _ => payloads http lines'
            end
          else payloads http lines'
      | _, _ => payloads http lines'
      end
  end.

(** A callback whose exceptions are ignored. *)
Definition ignoring_errors {S A} (f : A -> M S unit) (a : A) : M S unit :=
  try_except (f a) (fun _ => ret tt).

(** The trace id the request hook takes from a request: its X-Trace-ID
    header, when there is one and it is not empty. *)
Definition adopted_trace_id (request : Flask.Request) : option string :=
  match Flask.X_Trace_ID request with
  | Some t => if String.eqb t EmptyString then None else Some t
  | None => None
  end.

(** Does the request hook log the request? *)
Definition hook_logs (self : Flask.LogTideFlaskMiddleware)
    (request : Flask.Request) : bool :=
  negb (Flask._should_skip self (Flask.path request)) && Flask.log_requests self.

(** ** Concrete inputs of the examples *)

(** The defaults of [ClientOptions], with the fields the examples vary. *)
Definition options_with (batch_size max_buffer_size max_retries retry_delay_ms : Z)
    (global_metadata : gmap string pyval) : ClientOptions :=
  {| api_url := "http://localhost:8080"; api_key := "test_key";
     batch_size := batch_size; flush_interval := 5000;
     max_buffer_size := max_buffer_size; max_retries := max_retries;
     retry_delay_ms := retry_delay_ms; circuit_breaker_threshold := 5;
     circuit_breaker_reset_ms := 30000; enable_metrics := true;
     debug := false; global_metadata := global_metadata;
     auto_trace_id := false |}.

(** A world in which nothing has happened yet. *)
Definition world_with (clock : nat -> Q) (post_ok : nat -> bool) : World :=
  {| clock := clock; ticks := 0; post_ok := post_ok; posts := []; sleeps := [];
     uuid4 := fun _ => "6f1c1e0e-0000-4000-8000-000000000000"; uuids := 0;
     utcnow := fun _ => "2024-01-01T00:00:00"; utcnows := 0;
     format_exc := "NoneType: None" |}.

(** A clock that advances by one millisecond per reading. *)
Definition ms_clock (k : nat) : Q := (inject_Z (Z.of_nat k) / 1000)%Q.

Definition example_entry : LogEntry :=
  {| service := "svc"; level := INFO; message := "hello";
     time := Some "2024-01-01T00:00:00Z"; metadata := ∅; trace_id := None |}.

(** batch_size 3, max_buffer_size 10 and a transport that succeeds; three
    entries are logged. *)
Definition three_appends : result unit * (LogTideClient * World) :=
  (LogTideClient_.info "svc" "one" None ;;
   LogTideClient_.info "svc" "two" None ;;
   LogTideClient_.info "svc" "three" None)
    (LogTideClient_.init (options_with 3 10 3 1000 ∅)
       (world_with ms_clock (fun _ => true))).

(** Two entries buffered by a client that is still open. *)
Definition two_buffered : LogTideClient * World :=
  snd ((LogTideClient_.info "svc" "one" None ;;
        LogTideClient_.info "svc" "two" None)
         (LogTideClient_.init (options_with 100 2 3 1000 ∅)
            (world_with ms_clock (fun _ => true)))).

(** The same client after [close()]; max_buffer_size is 2. *)
Definition closed_full : LogTideClient * World :=
  snd (LogTideClient_.close two_buffered).

(** A clock that reads 0 five times, then 29.9999 s, then 30.0001 s. *)
Definition race_clock (k : nat) : Q :=
  if (k <? 5)%nat then 0%Q
  else if (k =? 5)%nat then (299999 # 10000)%Q
  else (300001 # 10000)%Q.

(** A clock that reads 0 five times and 1 s from then on. *)
Definition early_clock (k : nat) : Q :=
  if (k <? 5)%nat then 0%Q else 1%Q.

(** A client whose breaker (threshold 5, reset after 30000 ms) recorded
    five failures, at the first five readings of [clock]. *)
Definition tripped_with (clock : nat -> Q) : LogTideClient * World :=
  snd (on_breaker (repeat_m 5 CircuitBreaker_.record_failure)
         (LogTideClient_.init (options_with 100 10000 3 1000 ∅)
            (world_with clock (fun _ => true)))).

Definition tripped : LogTideClient * World := tripped_with race_clock.

(** A breaker that opened at time 0, and a clock that reads 30 s. *)
Definition open_breaker : CircuitBreaker :=
  {| threshold := 5; reset_timeout_ms := 30000; _state := OPEN;
     _failure_count := 5; _last_failure_time := 0%Q; _lock := false |}.

Definition late_world : World :=
  world_with (fun _ => 30%Q) (fun _ => true).

(** A client with global metadata env=prod, region=eu, and an entry that
    sets env=dev and user=ann itself. *)
Definition meta_client : LogTideClient * World :=
  LogTideClient_.init
    (options_with 100 10000 3 1000
       (<["env" := PStr "prod"]> (<["region" := PStr "eu"]> ∅)))
    (world_with ms_clock (fun _ => true)).

Definition meta_entry : LogEntry :=
  {| service := "svc"; level := INFO; message := "hello";
     time := Some "2024-01-01T00:00:00Z";
     metadata := <["env" := PStr "dev"]> (<["user" := PStr "ann"]> ∅);
     trace_id := None |}.

(** max_retries 2, retry_delay_ms 100 and a transport that always fails. *)
Definition always_failing : LogTideClient * World :=
  LogTideClient_.init (options_with 100 10000 2 100 ∅)
    (world_with ms_clock (fun _ => false)).

(** max_retries 3, retry_delay_ms 100 and a transport that fails twice and
    then succeeds. *)
Definition flaky : LogTideClient * World :=
  LogTideClient_.init (options_with 100 10000 3 100 ∅)
    (world_with ms_clock (fun k => (2 <=? k)%nat)).

(** max_retries 5 (the breaker's threshold), retry_delay_ms 100 and a
    transport that always fails. *)
Definition failing_to_threshold : LogTideClient * World :=
  LogTideClient_.init (options_with 100 10000 5 100 ∅)
    (world_with ms_clock (fun _ => false)).

(** A clock that reads 0 five times and 31 s from then on. *)
Definition late_clock (k : nat) : Q :=
  if (k <? 5)%nat then 0%Q else 31%Q.

(** A server that answers five lines: two good payloads, an empty line,
    a comment line and a payload that is not JSON. Lines with a byte FF
    are not UTF-8; the payloads that parse are the numerals 1, 2, 3. *)
Fixpoint has_byte_ff (s : string) : bool :=
  match s with
  | EmptyString => false
  | String a s' => Ascii.eqb a (Ascii.ascii_of_nat 255) || has_byte_ff s'
  end.

Definition sse_lines : list string :=
  ["data: 1"; EmptyString; ": ping"; "data: oops"; "data: 3"].

Definition bad_line : string := String (Ascii.ascii_of_nat 255) EmptyString.

Definition sse_http_with (lines : list string) : Http Z :=
  {| requests_get := fun _ _ _ =>
       inr {| raise_for_status := None; iter_lines := lines;
              iter_lines_error := None |};
     decode_utf8 := fun line =>
       if has_byte_ff line
       then inl (RequestException "UnicodeDecodeError") else inr line;
     json_loads := fun s =>
       if String.eqb s "1" then inr 1
       else if String.eqb s "2" then inr 2
       else if String.eqb s "3" then inr 3
       else inl (RequestException "JSONDecodeError") |}.

(** Callbacks that record what they are given. *)
Definition collect {A} (a : A) : M (list A) unit := modify (fun l => l ++ [a]).

Definition collect_left {A B} (a : A) : M (list A * list B) unit :=
  modify (fun s => (fst s ++ [a], snd s)).

Definition collect_right {A B} (b : B) : M (list A * list B) unit :=
  modify (fun s => (fst s, snd s ++ [b])).

Definition quiet_world : World := world_with ms_clock (fun _ => true).

(** A Flask middleware with the default flags, a request that carries a
    trace id and one that does not. *)
Definition flask_mw : Flask.LogTideFlaskMiddleware :=
  Flask.init "flask-api" true true true false false true None.

Definition traced_request : Flask.Request :=
  {| Flask.method := "GET"; Flask.path := "/users";
     Flask.remote_addr := PStr "10.0.0.1"; Flask.headers := PDict [];
     Flask.X_Trace_ID := Some "trace-1"; Flask.is_json := false;
     Flask.get_json := PNone |}.


(** An open client with auto_trace_id on. *)
Definition auto_client : LogTideClient * World :=
  LogTideClient_.init
    {| api_url := "http://localhost:8080"; api_key := "test_key";
       batch_size := 100; flush_interval := 5000; max_buffer_size := 10000;
       max_retries := 3; retry_delay_ms := 1000;
       circuit_breaker_threshold := 5; circuit_breaker_reset_ms := 30000;
       enable_metrics := true; debug := false; global_metadata := ∅;
       auto_trace_id := true |}
    (world_with ms_clock (fun _ => true)).

(** One entry buffered by a client with retry_delay_ms -100 and
    max_retries 2, and a transport that always fails. *)
Definition negative_delay : LogTideClient * World :=
  snd (LogTideClient_.info "svc" "one" None
         (LogTideClient_.init (options_with 100 10000 2 (-100) ∅)
            (world_with ms_clock (fun _ => false)))).

(** * Theorems *)

(** ** Running the combinators *)

Ltac unfold_m :=
  unfold with_lock, try_finally, try_except, bind, modify, gets, getsW,
    modifyW, time_time, uuid_uuid4, datetime_utcnow_isoformat,
    on_breaker, ret, raise in *.

Ltac project :=
  cbn [fst snd
       clock ticks post_ok posts sleeps uuid4 uuids utcnow utcnows format_exc
       tick add_post add_sleep next_uuid next_utcnow
       threshold reset_timeout_ms _state _failure_count _last_failure_time _lock
       set__state set__failure_count set__last_failure_time set__lock
       options _buffer _trace_id _buffer_lock _metrics_lock _metrics
       _circuit_breaker _latency_window _flush_timer _closed
       set__buffer set__trace_id set__buffer_lock set__metrics_lock
       set__metrics set__circuit_breaker set__latency_window
       set__flush_timer set__closed
       logs_sent logs_dropped errors retries avg_latency_ms
       circuit_breaker_trips
       add_logs_sent add_logs_dropped add_errors add_retries
       set_avg_latency_ms add_circuit_breaker_trips
       service level message time metadata trace_id
       set_metadata set_trace_id_entry set_time
       CircuitState_eqb is_CircuitBreakerOpenError compose] in *.

Ltac run_m := repeat progress (unfold_m; project).

(** ** The circuit breaker in closed form *)

Lemma state_eq (b : CircuitBreaker) (w : World) :
  _lock b = false ->
  CircuitBreaker_.state (b, w) =
  if CircuitState_eqb (_state b) OPEN then
    if Qle_bool (inject_Z (reset_timeout_ms b)) (time_since_failure b w)
    then (Ret HALF_OPEN, (set__failure_count 0 (set__state HALF_OPEN b), tick w))
    else (Ret OPEN, (b, tick w))
  else (Ret (_state b), (b, w)).
Proof.
  intros H. destruct b as [t T st fc last lk]. simpl in H. subst lk.
  unfold CircuitBreaker_.state, CircuitBreaker_._check_half_open,
    time_since_failure.
  run_m. simpl.
  destruct st; simpl; try reflexivity.
  destruct (Qle_bool _ _); reflexivity.
Qed.

Lemma record_success_eq (b : CircuitBreaker) (w : World) :
  _lock b = false ->
  CircuitBreaker_.record_success (b, w) =
  (Ret tt,
   (set__state (if CircuitState_eqb (_state b) HALF_OPEN then CLOSED else _state b)
      (set__failure_count 0 b), w)).
Proof.
  intros H. destruct b as [t T st fc last lk]. simpl in H. subst lk.
  unfold CircuitBreaker_.record_success. run_m. simpl.
  destruct st; reflexivity.
Qed.

Lemma record_failure_eq (b : CircuitBreaker) (w : World) :
  _lock b = false ->
  CircuitBreaker_.record_failure (b, w) =
  (Ret tt,
   (set__state (if _failure_count b + 1 >=? threshold b then OPEN else _state b)
      (set__last_failure_time (clock w (ticks w))
         (set__failure_count (_failure_count b + 1) b)), tick w)).
Proof.
  intros H. destruct b as [t T st fc last lk]. simpl in H. subst lk.
  unfold CircuitBreaker_.record_failure. run_m. simpl.
  destruct (fc + 1 >=? t); reflexivity.
Qed.

(** [n] failures in a row: the count grows by [n], and the breaker is
    open as soon as one of them reached the threshold. *)
Lemma record_failures_eq (n : nat) (b : CircuitBreaker) (w : World) :
  _lock b = false ->
  exists b' w',
    repeat_m n CircuitBreaker_.record_failure (b, w) = (Ret tt, (b', w')) /\
    _lock b' = false /\
    threshold b' = threshold b /\
    reset_timeout_ms b' = reset_timeout_ms b /\
    _failure_count b' = _failure_count b + Z.of_nat n /\
    _state b' =
      (if (0 <? Z.of_nat n) && (_failure_count b + Z.of_nat n >=? threshold b)
       then OPEN else _state b).
Proof.
  revert b w. induction n as [|n IH]; intros b w Hl.
  - exists b, w. cbn [repeat_m]. unfold ret.
    repeat split; try assumption; try lia.
  - cbn [repeat_m]. unfold bind at 1. rewrite record_failure_eq by assumption.
    match goal with
    | |- context [repeat_m n _ (?b1, ?w1)] =>
        destruct (IH b1 w1) as (b' & w' & Hrun & Hl' & Ht & HT & Hfc & Hst);
          [ destruct b; simpl in *; assumption | ]
    end.
    exists b', w'. rewrite Hrun.
    destruct b as [t T st fc last lk]; simpl in *.
    repeat split; try assumption; try lia.
    rewrite Hst, !Z.geb_leb.
    repeat match goal with
           | |- context [Z.leb ?a ?b] => destruct (Z.leb_spec a b)
           | |- context [Z.ltb ?a ?b] => destruct (Z.ltb_spec a b)
           end; simpl; try reflexivity; lia.
Qed.

Lemma Qle_bool_true (x y : Q) : Qle_bool x y = true -> (x <= y)%Q.
Proof. apply Qle_bool_iff. Qed.

Lemma Qle_bool_of_le (x y : Q) : (x <= y)%Q -> Qle_bool x y = true.
Proof. apply Qle_bool_iff. Qed.

(** C4. Over any sequence of record_success, record_failure and state
    reads (each step taken from an arbitrary breaker whose lock is free):
    the state becomes OPEN only at a record_failure that brings
    failure_count to at least the threshold; every record_success resets
    failure_count to 0, and so does the OPEN to HALF_OPEN transition, which
    happens only at a state read taken at least reset_timeout_ms after the
    last failure.  So threshold failures from CLOSED leave the breaker
    OPEN, a read of an OPEN breaker answers OPEN before the timeout and
    HALF_OPEN with failure_count 0 from the timeout on, and one
    record_success while HALF_OPEN gives CLOSED. *)
Theorem breaker_state_machine (b : CircuitBreaker) (w : World) :
  _lock b = false ->
  (forall op : cb_op, exists r b' w',
      cb_step op (b, w) = (Ret r, (b', w')) /\
      _lock b' = false /\
      threshold b' = threshold b /\
      reset_timeout_ms b' = reset_timeout_ms b /\
      (_state b <> OPEN -> _state b' = OPEN ->
       op = OpRecordFailure /\ threshold b <= _failure_count b') /\
      (op = OpRecordSuccess -> _failure_count b' = 0) /\
      (_state b <> HALF_OPEN -> _state b' = HALF_OPEN ->
       op = OpState /\ _state b = OPEN /\
       (inject_Z (reset_timeout_ms b) <= time_since_failure b w)%Q /\
       _failure_count b' = 0) /\
      (op = OpState -> r = Some (_state b'))) /\
  (_state b = CLOSED -> 0 <= _failure_count b -> 1 <= threshold b ->
   exists b' w',
     repeat_m (Z.to_nat (threshold b)) CircuitBreaker_.record_failure (b, w)
     = (Ret tt, (b', w')) /\
     _lock b' = false /\ _state b' = OPEN /\
     _failure_count b' = _failure_count b + threshold b) /\
  (_state b = OPEN ->
   CircuitBreaker_.state (b, w) =
   if Qle_bool (inject_Z (reset_timeout_ms b)) (time_since_failure b w)
   then (Ret HALF_OPEN, (set__failure_count 0 (set__state HALF_OPEN b), tick w))
   else (Ret OPEN, (b, tick w))) /\
  (_state b = HALF_OPEN ->
   CircuitBreaker_.record_success (b, w) =
   (Ret tt, (set__state CLOSED (set__failure_count 0 b), w))).
Proof.
  intros Hl. split; [ | split; [ | split ] ].
  - intros op. destruct op; cbn [cb_step]; unfold bind at 1.
    + rewrite record_success_eq by assumption.
      eexists _, _, _. split; [ reflexivity | ].
      destruct b as [t T st fc last lk]; simpl in *.
      repeat apply conj; try assumption; try reflexivity;
        intros; destruct st; simpl in *; congruence.
    + rewrite record_failure_eq by assumption.
      eexists _, _, _. split; [ reflexivity | ].
      destruct b as [t T st fc last lk]; simpl in *.
      rewrite Z.geb_leb. destruct (Z.leb_spec t (fc + 1));
        repeat apply conj; try assumption; try reflexivity;
        intros; simpl in *; try congruence; split; [ reflexivity | assumption ].
    + rewrite state_eq by assumption.
      destruct b as [t T st fc last lk]; simpl in *.
      destruct st; simpl.
      * eexists _, _, _. split; [ reflexivity | ].
        repeat apply conj; try assumption; try reflexivity;
          intros; simpl in *; congruence.
      * destruct (Qle_bool _ _) eqn:E;
          (eexists _, _, _; split; [ reflexivity | ]).
        -- apply Qle_bool_true in E.
           repeat apply conj; try assumption; try reflexivity;
             intros; simpl in *; try congruence.
           repeat apply conj; try assumption; reflexivity.
        -- repeat apply conj; try assumption; try reflexivity;
             intros; simpl in *; congruence.
      * eexists _, _, _. split; [ reflexivity | ].
        repeat apply conj; try assumption; try reflexivity;
          intros; simpl in *; congruence.
  - intros Hst Hfc Ht.
    destruct (record_failures_eq (Z.to_nat (threshold b)) b w Hl)
      as (b' & w' & Hrun & Hl' & _ & _ & Hfc' & Hst').
    exists b', w'. rewrite Z2Nat.id in * by lia.
    repeat split; try assumption.
    rewrite Hst', Z.geb_leb.
    destruct (Z.ltb_spec 0 (threshold b)); [ | lia ].
    destruct (Z.leb_spec (threshold b) (_failure_count b + threshold b));
      [ reflexivity | lia ].
  - intros Hst. rewrite state_eq by assumption. rewrite Hst. reflexivity.
  - intros Hst. rewrite record_success_eq by assumption. rewrite Hst.
    reflexivity.
Qed.

(** C10. A breaker with threshold at least 2 that a state read moved from
    OPEN to HALF_OPEN (failure_count back to 0) is still HALF_OPEN after one
    record_failure, with failure_count 1, and reads HALF_OPEN; after n
    failures in a row from there it is OPEN exactly when n has reached the
    threshold. *)
Theorem half_open_reopens_at_threshold (b : CircuitBreaker) (w : World) :
  _lock b = false ->
  2 <= threshold b ->
  _state b = OPEN ->
  (inject_Z (reset_timeout_ms b) <= time_since_failure b w)%Q ->
  exists b1,
    CircuitBreaker_.state (b, w) = (Ret HALF_OPEN, (b1, tick w)) /\
    _state b1 = HALF_OPEN /\ _failure_count b1 = 0 /\
    (forall w1, exists b2,
        CircuitBreaker_.record_failure (b1, w1) = (Ret tt, (b2, tick w1)) /\
        _state b2 = HALF_OPEN /\ _failure_count b2 = 1 /\
        forall w2, CircuitBreaker_.state (b2, w2) = (Ret HALF_OPEN, (b2, w2))) /\
    (forall n w1, exists bn wn,
        repeat_m n CircuitBreaker_.record_failure (b1, w1) = (Ret tt, (bn, wn)) /\
        _failure_count bn = Z.of_nat n /\
        (_state bn = OPEN <-> threshold b <= Z.of_nat n) /\
        (_state bn = HALF_OPEN <-> Z.of_nat n < threshold b)).
Proof.
  intros Hl Ht Hst Hel.
  exists (set__failure_count 0 (set__state HALF_OPEN b)).
  split; [ | split; [ | split; [ | split ] ] ].
  - rewrite state_eq by assumption. rewrite Hst. simpl.
    rewrite (Qle_bool_of_le _ _ Hel). reflexivity.
  - reflexivity.
  - reflexivity.
  - intros w1. eexists. rewrite record_failure_eq by (destruct b; assumption).
    split; [ reflexivity | ].
    destruct b as [t T st fc last lk]; simpl in *.
    rewrite Z.geb_leb.
    replace (t <=? 0 + 1) with false by (symmetry; apply Z.leb_gt; lia).
    repeat apply conj; try reflexivity.
    intros w2. rewrite state_eq by assumption. reflexivity.
  - intros n w1.
    destruct (record_failures_eq n (set__failure_count 0 (set__state HALF_OPEN b)) w1)
      as (bn & wn & Hrun & _ & _ & _ & Hfc & Hstn);
      [ destruct b; assumption | ].
    exists bn, wn. split; [ assumption | ].
    destruct b as [t T st fc last lk]; simpl in *.
    split; [ lia | ].
    rewrite Hstn, Z.geb_leb, Z.add_0_l.
    destruct (Z.ltb_spec 0 (Z.of_nat n)); destruct (Z.leb_spec t (Z.of_nat n));
      simpl; split; split; intros; try reflexivity; try discriminate; lia.
Qed.

(** ** The client's building blocks in closed form *)

Lemma update_metrics_locked_eq (f : ClientMetrics -> ClientMetrics)
    (c : LogTideClient) (w : World) :
  _metrics_lock c = false ->
  LogTideClient_.with_metrics_lock (LogTideClient_.update_metrics f) (c, w)
  = (Ret tt, (set__metrics (f (_metrics c)) c, w)).
Proof.
  intros H. destruct c; simpl in H; subst.
  unfold LogTideClient_.with_metrics_lock, LogTideClient_.update_metrics.
  run_m. reflexivity.
Qed.

Lemma breaker_state_eq (c : LogTideClient) (w : World) :
  _lock (_circuit_breaker c) = false ->
  on_breaker CircuitBreaker_.state (c, w) =
  if CircuitState_eqb (_state (_circuit_breaker c)) OPEN then
    if Qle_bool (inject_Z (reset_timeout_ms (_circuit_breaker c)))
                (time_since_failure (_circuit_breaker c) w)
    then (Ret HALF_OPEN,
          (set__circuit_breaker
             (set__failure_count 0 (set__state HALF_OPEN (_circuit_breaker c))) c,
           tick w))
    else (Ret OPEN, (c, tick w))
  else (Ret (_state (_circuit_breaker c)), (c, w)).
Proof.
  intros H. unfold on_breaker. cbn [fst snd]. rewrite state_eq by assumption.
  destruct c as [o bf tr bl ml m cb lw ft cl]; cbn [_circuit_breaker] in *.
  destruct (CircuitState_eqb _ _); [ destruct (Qle_bool _ _) | ]; reflexivity.
Qed.

Lemma breaker_record_failure_eq (c : LogTideClient) (w : World) :
  _lock (_circuit_breaker c) = false ->
  on_breaker CircuitBreaker_.record_failure (c, w) =
  (Ret tt,
   (set__circuit_breaker
      (set__state
         (if _failure_count (_circuit_breaker c) + 1 >=? threshold (_circuit_breaker c)
          then OPEN else _state (_circuit_breaker c))
         (set__last_failure_time (clock w (ticks w))
            (set__failure_count (_failure_count (_circuit_breaker c) + 1)
               (_circuit_breaker c)))) c,
    tick w)).
Proof.
  intros H. unfold on_breaker. cbn [fst snd].
  rewrite record_failure_eq by assumption. reflexivity.
Qed.

Lemma breaker_record_success_eq (c : LogTideClient) (w : World) :
  _lock (_circuit_breaker c) = false ->
  on_breaker CircuitBreaker_.record_success (c, w) =
  (Ret tt,
   (set__circuit_breaker
      (set__state
         (if CircuitState_eqb (_state (_circuit_breaker c)) HALF_OPEN
          then CLOSED else _state (_circuit_breaker c))
         (set__failure_count 0 (_circuit_breaker c))) c,
    w)).
Proof.
  intros H. unfold on_breaker. cbn [fst snd].
  rewrite record_success_eq by assumption. reflexivity.
Qed.

(** A delay that [time.sleep] accepts is slept. *)
Lemma time_sleep_eq {O} (d : Q) (s : O * World) :
  sleepable d = true ->
  time_sleep d s = (Ret tt, (fst s, add_sleep d (snd s))).
Proof.
  unfold sleepable, time_sleep. intros H.
  apply andb_true_iff in H as [-> ->]. reflexivity.
Qed.

(** A turn that finds the breaker reading OPEN: the batch is counted as
    dropped and the loop is left; nothing else happens. *)
Lemma attempt_once_open (logs : list LogEntry) (attempt : Z) (delay : Q)
    (c : LogTideClient) (w : World) :
  quiescent c ->
  reads_open c w ->
  LogTideClient_.attempt_once logs attempt delay (c, w) =
  (Ret Break_,
   (set__metrics (add_logs_dropped (Z.of_nat (length logs)) (_metrics c)) c,
    tick w)).
Proof.
  intros (Hb & Hm & Hl) (Hst & Hq).
  unfold LogTideClient_.attempt_once, try_except.
  unfold bind at 1. unfold bind at 1.
  rewrite breaker_state_eq by assumption. rewrite Hst, Hq. cbn [CircuitState_eqb].
  unfold bind at 1.
  rewrite update_metrics_locked_eq by assumption.
  reflexivity.
Qed.

(** A turn whose POST fails while the breaker is not OPEN and the failure
    does not reach the threshold. *)
Lemma attempt_once_fail (logs : list LogEntry) (attempt : Z) (delay : Q)
    (c : LogTideClient) (w : World) :
  quiescent c ->
  _state (_circuit_breaker c) <> OPEN ->
  post_ok w (length (posts w)) = false ->
  _failure_count (_circuit_breaker c) + 1 < threshold (_circuit_breaker c) ->
  (attempt + 1 <= max_retries (options c) -> sleepable delay = true) ->
  let cb' :=
    set__last_failure_time (clock w (S (ticks w)))
      (set__failure_count (_failure_count (_circuit_breaker c) + 1)
         (_circuit_breaker c)) in
  let w' := tick (add_post logs (tick w)) in
  LogTideClient_.attempt_once logs attempt delay (c, w) =
  if attempt + 1 <=? max_retries (options c) then
    (Ret (Continue_ (attempt + 1) (delay * 2)%Q),
     (set__metrics (add_retries 1 (add_errors 1 (_metrics c)))
        (set__circuit_breaker cb' c),
      add_sleep delay w'))
  else
    (Ret Break_,
     (set__metrics
        (add_logs_dropped (Z.of_nat (length logs)) (add_errors 1 (_metrics c)))
        (set__circuit_breaker cb' c),
      w')).
Proof.
  intros (Hb & Hm & Hl) Hst Hpost Hfc Hsl. cbn zeta.
  unfold LogTideClient_.attempt_once, try_except.
  unfold bind at 1. unfold bind at 1.
  rewrite breaker_state_eq by assumption.
  destruct c as [o bf tr bl ml m cb lw ft cl]; cbn [_circuit_breaker options
    _metrics _metrics_lock _buffer_lock] in *.
  destruct cb as [t T st fc last lk]; cbn [_state _failure_count threshold _lock] in *.
  subst bl ml lk.
  assert (Hge : (fc + 1 >=? t) = false)
    by (rewrite Z.geb_leb; apply Z.leb_gt; lia).
  destruct st; try congruence; cbn [CircuitState_eqb].
  all: unfold LogTideClient_._send_logs, LogTideClient_.with_metrics_lock,
         LogTideClient_.update_metrics, on_breaker,
         CircuitBreaker_.record_failure; run_m;
       rewrite Hpost; run_m; rewrite Hge; run_m;
       rewrite (Z.gtb_ltb (attempt + 1)), Z.ltb_antisym;
       destruct (Z.leb_spec (attempt + 1) (max_retries o)) as [Hle|Hgt];
       cbn [negb];
       [ rewrite time_sleep_eq by (apply Hsl; exact Hle) | ]; reflexivity.
Qed.

Lemma backoff_pow (delay : Q) (k : nat) :
  (backoff delay k == delay * inject_Z (2 ^ Z.of_nat k))%Q.
Proof.
  revert delay. induction k as [|k IH]; intros delay.
  - cbn [backoff]. change (2 ^ Z.of_nat 0) with 1. ring.
  - cbn [backoff]. rewrite IH.
    rewrite Nat2Z.inj_succ, Z.pow_succ_r by lia.
    rewrite inject_Z_mult. ring.
Qed.

Lemma map_backoff_succ (delay : Q) (n : nat) :
  map (backoff delay) (seq 0 (S n)) = delay :: map (backoff (delay * 2)%Q) (seq 0 n).
Proof.
  cbn [seq map backoff]. f_equal.
  rewrite <- seq_shift, map_map. reflexivity.
Qed.

(** The delays of a cycle that starts from [ms] milliseconds, [ms] not
    negative, are accepted by [time.sleep] as long as the largest of them
    fits its range. *)
Lemma delays_sleepable (ms : Z) (n k : nat) :
  0 <= ms ->
  ms * 1000000 * 2 ^ (Z.of_nat n - 1) <= PyTime_MAX ->
  (k < n)%nat ->
  sleepable (backoff (inject_Z ms / 1000) k) = true.
Proof.
  intros Hms Hmax Hk.
  assert (H2 : 0 <= 2 ^ Z.of_nat k) by (apply Z.pow_nonneg; lia).
  assert (Hpow : ms * 1000000 * 2 ^ Z.of_nat k <= PyTime_MAX).
  { etransitivity; [ | exact Hmax ].
    apply Z.mul_le_mono_nonneg_l; [ lia | ].
    apply Z.pow_le_mono_r; lia. }
  assert (E : (backoff (inject_Z ms / 1000) k * inject_Z 1000000000
               == inject_Z (ms * 1000000 * 2 ^ Z.of_nat k))%Q).
  { rewrite backoff_pow, !inject_Z_mult. field. }
  assert (En : (backoff (inject_Z ms / 1000) k
                == inject_Z (ms * 2 ^ Z.of_nat k) / 1000)%Q).
  { rewrite backoff_pow, inject_Z_mult. field. }
  unfold sleepable, fits_PyTime.
  rewrite !andb_true_iff, !Qle_bool_iff. rewrite E, En.
  repeat split.
  - rewrite <- Zle_Qle. unfold PyTime_MIN. nia.
  - rewrite <- Zle_Qle. exact Hpow.
  - apply Qle_shift_div_l; [ reflexivity | ].
    rewrite Qmult_0_l. rewrite <- (Zle_Qle 0). nia.
Qed.

Lemma retry_loop_S (n : nat) (logs : list LogEntry) (attempt : Z) (delay : Q)
    (s : LogTideClient * World) :
  LogTideClient_.retry_loop (S n) logs attempt delay s =
  if attempt <=? max_retries (options (fst s)) then
    match LogTideClient_.attempt_once logs attempt delay s with
    | (Ret Return_, s') => (Ret true, s')
    | (Ret Break_, s') => (Ret false, s')
    | (Ret (Continue_ attempt' delay'), s') =>
        LogTideClient_.retry_loop n logs attempt' delay' s'
    | (Raise e, s') => (Raise e, s')
    | (Hang, s') => (Hang, s')
    end
  else (Ret false, s).
Proof.
  cbn [LogTideClient_.retry_loop]. unfold bind, gets, ret. cbn [fst compose].
  destruct (attempt <=? _); [ | reflexivity ].
  destruct (LogTideClient_.attempt_once _ _ _ _) as [[[]| |] ?]; reflexivity.
Qed.

(** The loop when every POST fails and the breaker stays shut: [S n] turns
    are left, of which the last one drops the batch. *)
Lemma retry_loop_all_fail (logs : list LogEntry) (n : nat) :
  forall (attempt : Z) (delay : Q) (c : LogTideClient) (w : World),
    quiescent c ->
    _state (_circuit_breaker c) <> OPEN ->
    (forall k, post_ok w k = false) ->
    attempt + Z.of_nat n = max_retries (options c) ->
    _failure_count (_circuit_breaker c) + Z.of_nat (S n)
      < threshold (_circuit_breaker c) ->
    (forall k, (k < n)%nat -> sleepable (backoff delay k) = true) ->
    exists c' w',
      LogTideClient_.retry_loop (S n) logs attempt delay (c, w)
      = (Ret false, (c', w')) /\
      quiescent c' /\
      options c' = options c /\
      _buffer c' = _buffer c /\
      _closed c' = _closed c /\
      _state (_circuit_breaker c') = _state (_circuit_breaker c) /\
      posts w' = posts w ++ repeat logs (S n) /\
      sleeps w' = sleeps w ++ map (backoff delay) (seq 0 n) /\
      errors (_metrics c') = errors (_metrics c) + Z.of_nat (S n) /\
      retries (_metrics c') = retries (_metrics c) + Z.of_nat n /\
      logs_dropped (_metrics c')
        = logs_dropped (_metrics c) + Z.of_nat (length logs) /\
      logs_sent (_metrics c') = logs_sent (_metrics c) /\
      circuit_breaker_trips (_metrics c') = circuit_breaker_trips (_metrics c).
Proof.
  induction n as [|n IH]; intros attempt delay c w Hq Hst Hpost Hatt Hfc Hsl.
  - rewrite retry_loop_S. cbn [fst].
    replace (attempt <=? max_retries (options c)) with true
      by (symmetry; apply Z.leb_le; lia).
    rewrite attempt_once_fail
      by (try assumption; try apply Hpost; try lia; intros; exfalso; lia).
    replace (attempt + 1 <=? max_retries (options c)) with false
      by (symmetry; apply Z.leb_gt; lia).
    eexists _, _. split; [ reflexivity | ].
    destruct Hq as (Hb & Hm & Hl).
    destruct c as [o bf tr bl ml m cb lw ft cl].
    destruct cb as [t T st fc last lk]. unfold quiescent. project.
    repeat apply conj; try assumption; try reflexivity.
    + cbn [seq map]. rewrite app_nil_r. reflexivity.
    + cbn [Z.of_nat]. lia.
  - rewrite retry_loop_S. cbn [fst].
    replace (attempt <=? max_retries (options c)) with true
      by (symmetry; apply Z.leb_le; lia).
    rewrite attempt_once_fail
      by (try assumption; try apply Hpost; try lia;
          intros; apply (Hsl 0%nat); lia).
    replace (attempt + 1 <=? max_retries (options c)) with true
      by (symmetry; apply Z.leb_le; lia).
    match goal with
    | |- context [LogTideClient_.retry_loop (S n) logs ?a ?d (?c1, ?w1)] =>
        destruct (IH a d c1 w1)
          as (c' & w' & Hrun & Hq' & Ho & Hbuf & Hcl & Hst' & Hp & Hs & He
                & Hr & Hd & Hsent & Htr)
    end.
    + destruct Hq as (Hb & Hm & Hl).
      destruct c as [o bf tr bl ml m cb lw ft cl]. unfold quiescent. project.
      destruct cb; repeat apply conj; assumption.
    + destruct c as [o bf tr bl ml m cb lw ft cl]; destruct cb; assumption.
    + intros k. apply Hpost.
    + destruct c; project. lia.
    + destruct c as [o bf tr bl ml m cb lw ft cl]; destruct cb; project.
      project. lia.
    + intros k Hk. apply (Hsl (S k)). lia.
    + exists c', w'. split; [ exact Hrun | ].
      rewrite map_backoff_succ.
      destruct c as [o bf tr bl ml m cb lw ft cl].
      destruct cb as [t T st fc last lk]. project.
      rewrite Hp, Hs, He, Hr, Hd, Hsent, Htr.
      destruct Hq' as (Hb' & Hm' & Hl').
      repeat apply conj; try assumption; try reflexivity; try lia.
      * rewrite <- List.app_assoc. reflexivity.
      * rewrite <- List.app_assoc. reflexivity.
Qed.

(** ** The bound on the turns of the loop is never what stops it *)

Section Frame.

Context {A B : Type}.

Lemma keeps_ret (a : A) : keeps_options (ret a).
Proof. intros s. reflexivity. Qed.

Lemma keeps_raise (e : exn) : keeps_options (@raise LogTideClient A e).
Proof. intros s. reflexivity. Qed.

Lemma keeps_gets (f : LogTideClient -> A) : keeps_options (gets f).
Proof. intros s. reflexivity. Qed.

Lemma keeps_getsW (f : World -> A) : keeps_options (getsW f).
Proof. intros s. reflexivity. Qed.

Lemma keeps_bind (m : M LogTideClient A) (k : A -> M LogTideClient B) :
  keeps_options m -> (forall a, keeps_options (k a)) ->
  keeps_options (bind m k).
Proof.
  intros Hm Hk s. unfold bind. specialize (Hm s).
  destruct (m s) as [[a|e|] s1]; cbn [fst snd] in *;
    [ rewrite Hk | | ]; exact Hm.
Qed.

Lemma keeps_try_except (body : M LogTideClient A)
    (handler : exn -> M LogTideClient A) :
  keeps_options body -> (forall e, keeps_options (handler e)) ->
  keeps_options (try_except body handler).
Proof.
  intros Hb Hh s. unfold try_except. specialize (Hb s).
  destruct (body s) as [[a|e|] s1]; cbn [fst snd] in *;
    [ | rewrite Hh | ]; exact Hb.
Qed.

Lemma keeps_try_finally (body : M LogTideClient A) (fin : M LogTideClient unit) :
  keeps_options body -> keeps_options fin ->
  keeps_options (try_finally body fin).
Proof.
  intros Hb Hf s. unfold try_finally. specialize (Hb s).
  destruct (body s) as [[a|e|] s1]; cbn [fst snd] in *; try exact Hb.
  all: specialize (Hf s1); destruct (fin s1) as [[[]|e'|] s2];
    cbn [fst snd] in *; congruence.
Qed.

Lemma keeps_on_breaker (m : M CircuitBreaker A) : keeps_options (on_breaker m).
Proof. intros s. reflexivity. Qed.

End Frame.

Lemma keeps_modify (f : LogTideClient -> LogTideClient) :
  (forall c, options (f c) = options c) -> keeps_options (modify f).
Proof. intros Hf s. apply Hf. Qed.

Lemma keeps_modifyW (f : World -> World) : keeps_options (modifyW f).
Proof. intros s. reflexivity. Qed.

Lemma keeps_with_lock {A} (held : LogTideClient -> bool)
    (set_held : bool -> LogTideClient -> LogTideClient)
    (body : M LogTideClient A) :
  (forall v c, options (set_held v c) = options c) ->
  keeps_options body -> keeps_options (with_lock held set_held body).
Proof.
  intros Hset Hb s. unfold with_lock.
  destruct (held (fst s)); [ reflexivity | ].
  rewrite (keeps_try_finally body (modify (set_held false)) Hb
             (keeps_modify _ (Hset false))).
  apply Hset.
Qed.

Create HintDb keeps.
#[local] Hint Resolve keeps_ret keeps_raise keeps_gets keeps_getsW keeps_bind
  keeps_try_except keeps_try_finally keeps_on_breaker keeps_modify
  keeps_modifyW keeps_with_lock : keeps.

Ltac keeps :=
  repeat first
    [ progress intros
    | reflexivity
    | match goal with
      | |- keeps_options (if ?b then _ else _) => destruct b
      | |- keeps_options (match ?x with _ => _ end) => destruct x
      end
    | solve [ auto with keeps ]
    | apply keeps_bind
    | apply keeps_try_except
    | apply keeps_with_lock
    | apply keeps_modify ].

Lemma keeps_attempt_once (logs : list LogEntry) (attempt : Z) (delay : Q) :
  keeps_options (LogTideClient_.attempt_once logs attempt delay).
Proof.
  unfold LogTideClient_.attempt_once, LogTideClient_._send_logs,
    LogTideClient_._update_latency, LogTideClient_.with_metrics_lock,
    LogTideClient_.update_metrics, time_time, time_sleep.
  keeps.
Qed.

Section Returns.

Context {O A B : Type}.

Lemma returns_ret (P : A -> Prop) (a : A) : P a -> returns_only P (@ret O A a).
Proof. intros H s. exact H. Qed.

Lemma returns_bind (P : B -> Prop) (m : M O A) (k : A -> M O B) :
  (forall a, returns_only P (k a)) -> returns_only P (bind m k).
Proof.
  intros Hk s. unfold bind.
  destruct (m s) as [[a|e|] s1]; cbn [fst]; [ apply Hk | exact I | exact I ].
Qed.

Lemma returns_try_except (P : A -> Prop) (body : M O A) (handler : exn -> M O A) :
  returns_only P body -> (forall e, returns_only P (handler e)) ->
  returns_only P (try_except body handler).
Proof.
  intros Hb Hh s. unfold try_except. specialize (Hb s).
  destruct (body s) as [[a|e|] s1]; cbn [fst] in *;
    [ exact Hb | apply Hh | exact I ].
Qed.

End Returns.

(** A turn that continues does so with [attempt + 1]. *)
Lemma attempt_once_continues_next (logs : list LogEntry) (attempt : Z) (delay : Q) :
  returns_only
    (fun ctl => match ctl with
                | Continue_ attempt' _ => attempt' = attempt + 1
                | _ => True
                end)
    (LogTideClient_.attempt_once logs attempt delay).
Proof.
  unfold LogTideClient_.attempt_once.
  apply returns_try_except.
  - repeat (apply returns_bind; intros). apply returns_ret. exact I.
  - intros e. destruct (is_CircuitBreakerOpenError e).
    + apply returns_ret. exact I.
    + repeat (apply returns_bind; intros).
      destruct (_ >? _).
      * repeat (apply returns_bind; intros). apply returns_ret. exact I.
      * repeat (apply returns_bind; intros). apply returns_ret. reflexivity.
Qed.

(** Once [n] covers the turns the condition [attempt <= max_retries] still
    allows, the loop does not see the bound: one more turn changes
    nothing. *)
Lemma retry_loop_bound_unseen (logs : list LogEntry) (n : nat) :
  forall (attempt : Z) (delay : Q) (s : LogTideClient * World),
    (Z.to_nat (max_retries (options (fst s)) + 1 - attempt) <= n)%nat ->
    LogTideClient_.retry_loop (S n) logs attempt delay s
    = LogTideClient_.retry_loop n logs attempt delay s.
Proof.
  induction n as [|n IH]; intros attempt delay s Hn.
  - rewrite retry_loop_S.
    replace (attempt <=? max_retries (options (fst s))) with false
      by (symmetry; apply Z.leb_gt; lia).
    reflexivity.
  - rewrite (retry_loop_S (S n)), (retry_loop_S n).
    destruct (Z.leb_spec attempt (max_retries (options (fst s)))) as [Hle|Hgt];
      [ | reflexivity ].
    pose proof (keeps_attempt_once logs attempt delay s) as Hopt.
    pose proof (attempt_once_continues_next logs attempt delay s) as Hnext.
    destruct (LogTideClient_.attempt_once logs attempt delay s)
      as [[[| |attempt' delay']|e|] s1]; cbn [fst snd] in *; try reflexivity.
    apply IH. rewrite Hopt, Hnext. lia.
Qed.

(** So the bound [_send_logs_with_retry] starts from can be replaced by any
    larger one. *)
Lemma retry_loop_enough_turns (logs : list LogEntry) (k : nat) (delay : Q)
    (s : LogTideClient * World) :
  LogTideClient_.retry_loop
    (Z.to_nat (max_retries (options (fst s)) + 1) + k) logs 0 delay s
  = LogTideClient_.retry_loop
      (Z.to_nat (max_retries (options (fst s)) + 1)) logs 0 delay s.
Proof.
  induction k as [|k IH].
  - rewrite Nat.add_0_r. reflexivity.
  - rewrite Nat.add_succ_r, retry_loop_bound_unseen; [ exact IH | ].
    rewrite Z.sub_0_r. lia.
Qed.

Lemma send_logs_with_retry_eq (logs : list LogEntry) (s : LogTideClient * World) :
  LogTideClient_._send_logs_with_retry logs s =
  match
    LogTideClient_.retry_loop
      (Z.to_nat (max_retries (options (fst s)) + 1)) logs 0
      (inject_Z (retry_delay_ms (options (fst s))) / 1000)%Q s
  with
  | (Ret true, s') => (Ret tt, s')
  | (Ret false, s') =>
      (st <- on_breaker CircuitBreaker_.state ;;
       if CircuitState_eqb st OPEN then
         LogTideClient_.with_metrics_lock
           (LogTideClient_.update_metrics (add_circuit_breaker_trips 1))
       else ret tt) s'
  | (Raise e, s') => (Raise e, s')
  | (Hang, s') => (Hang, s')
  end.
Proof.
  unfold LogTideClient_._send_logs_with_retry.
  unfold bind at 1, gets at 1. unfold bind at 1, gets at 1.
  cbn [fst compose]. unfold bind at 1.
  destruct (LogTideClient_.retry_loop _ _ _ _ _) as [[[]| |] ?]; reflexivity.
Qed.

(** C3. A transport that fails at every attempt, a breaker that is not
    OPEN and cannot reach its threshold within the cycle, max_retries = r
    (at least 0) and base delay d = retry_delay_ms / 1000 seconds, where
    retry_delay_ms is not negative and the largest delay of the cycle,
    d * 2^(r-1), is within the range of [time.sleep] (its nanoseconds fit
    a signed 64-bit count): the pipeline returns after exactly r + 1
    transport calls with the same batch; it sleeps r times, the k-th time
    (from 0) for d * 2^k, and not after the last failure; errors grows by
    r + 1, retries by r, logs_dropped by the batch size; logs_sent and
    circuit_breaker_trips are unchanged. *)
Theorem failing_transport_retries_then_drops (logs : list LogEntry)
    (c : LogTideClient) (w : World) :
  quiescent c ->
  0 <= max_retries (options c) ->
  _state (_circuit_breaker c) <> OPEN ->
  _failure_count (_circuit_breaker c) + (max_retries (options c) + 1)
    < threshold (_circuit_breaker c) ->
  (forall k, post_ok w k = false) ->
  0 <= retry_delay_ms (options c) ->
  retry_delay_ms (options c) * 1000000 * 2 ^ (max_retries (options c) - 1)
    <= PyTime_MAX ->
  let r := Z.to_nat (max_retries (options c)) in
  let d := (inject_Z (retry_delay_ms (options c)) / 1000)%Q in
  exists c' w' ds,
    LogTideClient_._send_logs_with_retry logs (c, w) = (Ret tt, (c', w')) /\
    posts w' = posts w ++ repeat logs (S r) /\
    sleeps w' = sleeps w ++ ds /\
    Forall2 Qeq ds (map (fun k => d * inject_Z (2 ^ Z.of_nat k))%Q (seq 0 r)) /\
    errors (_metrics c') = errors (_metrics c) + (max_retries (options c) + 1) /\
    retries (_metrics c') = retries (_metrics c) + max_retries (options c) /\
    logs_dropped (_metrics c')
      = logs_dropped (_metrics c) + Z.of_nat (length logs) /\
    logs_sent (_metrics c') = logs_sent (_metrics c) /\
    circuit_breaker_trips (_metrics c') = circuit_breaker_trips (_metrics c) /\
    _buffer c' = _buffer c /\
    quiescent c'.
Proof.
  intros Hq Hmr Hst Hfc Hpost Hms Hfit r d.
  rewrite send_logs_with_retry_eq. cbn [fst].
  replace (Z.to_nat (max_retries (options c) + 1)) with (S r)
    by (subst r; lia).
  destruct (retry_loop_all_fail logs r 0 d c w Hq Hst Hpost)
    as (c' & w' & Hrun & Hq' & Ho & Hbuf & Hcl & Hst' & Hp & Hs & He & Hr
          & Hd & Hsent & Htr).
  { subst r. lia. }
  { subst r. lia. }
  { intros k Hk. subst d. apply (delays_sleepable _ r); [ exact Hms | | exact Hk ].
    subst r. rewrite Z2Nat.id by lia. exact Hfit. }
  fold d. rewrite Hrun. unfold bind at 1.
  rewrite breaker_state_eq by apply Hq'.
  rewrite Hst'.
  exists c', w', (map (backoff d) (seq 0 r)).
  split.
  { destruct (_state (_circuit_breaker c)); try congruence; reflexivity. }
  repeat apply conj; try assumption; try apply Hq'.
  - clear. induction (seq 0 r) as [|k l IH]; cbn [map]; constructor;
      [ apply backoff_pow | exact IH ].
  - rewrite He. subst r. lia.
  - rewrite Hr. subst r. lia.
Qed.

(** C2, amended.  A batch handed to the pipeline (max_retries at least 0)
    while the breaker reads OPEN at the loop's check is dropped at once:
    logs_dropped grows by the batch size, the transport is not called,
    nothing sleeps, errors, retries and logs_sent keep their values; and a
    turn of the loop that finds the breaker reading OPEN, at whatever
    attempt, leaves the loop the same way.  After the loop the state is read
    once more: circuit_breaker_trips grows by 1 when that second read still
    answers OPEN, and keeps its value when the reset timeout has elapsed by
    then, the read moving the breaker to HALF_OPEN. *)
Theorem open_breaker_drops_batch (logs : list LogEntry)
    (c : LogTideClient) (w : World) :
  quiescent c ->
  0 <= max_retries (options c) ->
  reads_open c w ->
  let dropped :=
    set__metrics (add_logs_dropped (Z.of_nat (length logs)) (_metrics c)) c in
  (forall n attempt delay,
      attempt <= max_retries (options c) ->
      LogTideClient_.retry_loop (S n) logs attempt delay (c, w)
      = (Ret false, (dropped, tick w))) /\
  LogTideClient_._send_logs_with_retry logs (c, w) =
  (Ret tt,
   (if Qle_bool (inject_Z (reset_timeout_ms (_circuit_breaker c)))
                (time_since_failure (_circuit_breaker c) (tick w))
    then set__circuit_breaker
           (set__failure_count 0 (set__state HALF_OPEN (_circuit_breaker c)))
           dropped
    else set__metrics (add_circuit_breaker_trips 1 (_metrics dropped)) dropped,
    tick (tick w))) /\
  (let s' := snd (LogTideClient_._send_logs_with_retry logs (c, w)) in
   posts (snd s') = posts w /\
   sleeps (snd s') = sleeps w /\
   logs_dropped (_metrics (fst s'))
     = logs_dropped (_metrics c) + Z.of_nat (length logs) /\
   errors (_metrics (fst s')) = errors (_metrics c) /\
   retries (_metrics (fst s')) = retries (_metrics c) /\
   logs_sent (_metrics (fst s')) = logs_sent (_metrics c) /\
   circuit_breaker_trips (_metrics (fst s'))
     = circuit_breaker_trips (_metrics c)
       + (if Qle_bool (inject_Z (reset_timeout_ms (_circuit_breaker c)))
                      (time_since_failure (_circuit_breaker c) (tick w))
          then 0 else 1)).
Proof.
  intros Hq Hmr Hopen dropped.
  cut (LogTideClient_._send_logs_with_retry logs (c, w) =
       (Ret tt,
        (if Qle_bool (inject_Z (reset_timeout_ms (_circuit_breaker c)))
                     (time_since_failure (_circuit_breaker c) (tick w))
         then set__circuit_breaker
                (set__failure_count 0 (set__state HALF_OPEN (_circuit_breaker c)))
                dropped
         else set__metrics (add_circuit_breaker_trips 1 (_metrics dropped)) dropped,
         tick (tick w))) /\
       forall n attempt delay,
         attempt <= max_retries (options c) ->
         LogTideClient_.retry_loop (S n) logs attempt delay (c, w)
         = (Ret false, (dropped, tick w))).
  { intros (Hrun & Hloop). split; [ exact Hloop | split; [ exact Hrun | ] ].
    rewrite Hrun. subst dropped. cbn [fst snd].
    destruct (Qle_bool _ (time_since_failure _ (tick w)));
      destruct c; cbn; repeat split; lia. }
  apply and_comm.
  assert (Hloop : forall n attempt delay,
             attempt <= max_retries (options c) ->
             LogTideClient_.retry_loop (S n) logs attempt delay (c, w)
             = (Ret false, (dropped, tick w))).
  { intros n attempt delay Hatt. rewrite retry_loop_S. cbn [fst].
    replace (attempt <=? max_retries (options c)) with true
      by (symmetry; apply Z.leb_le; lia).
    rewrite attempt_once_open by assumption. reflexivity. }
  split; [ exact Hloop | ].
  rewrite send_logs_with_retry_eq. cbn [fst].
  replace (Z.to_nat (max_retries (options c) + 1))
    with (S (Z.to_nat (max_retries (options c)))) by lia.
  rewrite Hloop by lia.
  destruct Hq as (Hb & Hm & Hl). destruct Hopen as (Hst & Hread).
  unfold bind at 1.
  rewrite breaker_state_eq by (destruct c; assumption).
  subst dropped.
  destruct c as [o bf tr bl ml m cb lw ft cl]. project.
  rewrite Hst. project.
  destruct (Qle_bool _ (time_since_failure _ (tick w))); [ reflexivity | ].
  project.
  rewrite update_metrics_locked_eq by assumption. reflexivity.
Qed.

(** ** Logging, flushing and closing in closed form *)

Lemma log_closed (e : LogEntry) (c : LogTideClient) (w : World) :
  _closed c = true -> LogTideClient_.log e (c, w) = (Ret tt, (c, w)).
Proof.
  intros H. unfold LogTideClient_.log. unfold bind at 1, gets at 1.
  cbn [fst]. rewrite H. reflexivity.
Qed.

Lemma flush_closed (c : LogTideClient) (w : World) :
  _closed c = true -> LogTideClient_.flush (c, w) = (Ret tt, (c, w)).
Proof.
  intros H. unfold LogTideClient_.flush. unfold bind at 1, gets at 1.
  cbn [fst]. rewrite H. reflexivity.
Qed.

(** [flush] called by a thread that holds the buffer lock never returns. *)
Lemma flush_blocks (c : LogTideClient) (w : World) :
  _closed c = false -> _buffer_lock c = true ->
  LogTideClient_.flush (c, w) = (Hang, (c, w)).
Proof.
  intros Hc Hb. unfold LogTideClient_.flush, LogTideClient_.with_buffer_lock.
  run_m. rewrite Hc. cbv beta iota. project. rewrite Hb. reflexivity.
Qed.

Lemma close_eq (c : LogTideClient) (w : World) :
  _closed c = false ->
  LogTideClient_.close (c, w) =
  (Ret tt,
   (set__flush_timer (option_map Timer_cancel (_flush_timer c))
      (set__closed true c), w)).
Proof.
  intros Hc. unfold LogTideClient_.close.
  unfold bind at 1, gets at 1. cbn [fst]. rewrite Hc.
  destruct c as [o bf tr bl ml m cb lw ft cl].
  destruct ft as [t|]; run_m; rewrite flush_closed by reflexivity; reflexivity.
Qed.

Lemma close_closed (c : LogTideClient) (w : World) :
  _closed c = true -> LogTideClient_.close (c, w) = (Ret tt, (c, w)).
Proof.
  intros Hc. unfold LogTideClient_.close.
  unfold bind at 1, gets at 1. cbn [fst]. rewrite Hc. reflexivity.
Qed.

Lemma dict_truthy_union (m g : gmap string pyval) :
  (if dict_truthy g then m ∪ g else m) = m ∪ g.
Proof.
  unfold dict_truthy. destruct (Nat.eqb_spec (size g) 0) as [E|E]; cbn [negb].
  - apply map_size_empty_iff in E. subst g. rewrite (right_id_L ∅ (∪)).
    reflexivity.
  - reflexivity.
Qed.

(** What an open client does to the entry before it takes the buffer
    lock, and the part of [log] under the lock. *)
Lemma log_open (e : LogEntry) (c : LogTideClient) (w : World) :
  _closed c = false ->
  exists e' w',
    service e' = service e /\ level e' = level e /\ message e' = message e /\
    time e' = time e /\
    metadata e' = metadata e ∪ global_metadata (options c) /\
    trace_id e' =
      match trace_id e with
      | Some t => Some t
      | None => if auto_trace_id (options c)
                then Some (uuid4 w (uuids w)) else _trace_id c
      end /\
    posts w' = posts w /\ sleeps w' = sleeps w /\ ticks w' = ticks w /\
    LogTideClient_.log e (c, w) =
    LogTideClient_.with_buffer_lock
      (buf <- gets _buffer ;;
       max_buffer_size <- gets (max_buffer_size ∘ options) ;;
       if Z.of_nat (length buf) >=? max_buffer_size then
         LogTideClient_.with_metrics_lock
           (LogTideClient_.update_metrics (add_logs_dropped 1)) ;;
         raise (BufferFullError "Log buffer is full")
       else
         modify (fun c => set__buffer (_buffer c ++ [e']) c) ;;
         buf <- gets _buffer ;;
         batch_size <- gets (batch_size ∘ options) ;;
         if Z.of_nat (length buf) >=? batch_size
         then LogTideClient_.flush else ret tt) (c, w').
Proof.
  intros Hc. unfold LogTideClient_.log.
  unfold bind at 1, gets at 1. cbn [fst]. rewrite Hc.
  destruct e as [sv lv msg tm md tid].
  pose proof (dict_truthy_union md (global_metadata (options c))) as Hu.
  assert (Hw : exists w', w' = if (match tid with None => auto_trace_id (options c) | _ => false end)
                               then next_uuid w else w) by eauto.
  destruct Hw as (w' & Hw).
  exists {| service := sv; level := lv; message := msg; time := tm;
            metadata := md ∪ global_metadata (options c);
            trace_id :=
              match tid with
              | Some t => Some t
              | None => if auto_trace_id (options c)
                        then Some (uuid4 w (uuids w)) else _trace_id c
              end |}, w'.
  cbn [service level message time metadata trace_id].
  repeat apply conj; try reflexivity.
  1-3: subst w'; destruct tid; [ | destruct (auto_trace_id _) ]; reflexivity.
  subst w'.
  destruct tid as [t|]; [ | destruct (auto_trace_id (options c)) eqn:Ha;
                            [ | destruct (_trace_id c) eqn:Ht ] ].
  all: unfold bind at 1; run_m;
    repeat progress (try rewrite Ha; try rewrite Ht; cbv beta iota; run_m).
  all: destruct (dict_truthy (global_metadata (options c)));
    try rewrite <- Hu; reflexivity.
Qed.

(** An append that reaches batch_size calls [flush] under the buffer lock,
    and [flush] blocks on that lock: the call never returns, the entry
    stays in the buffer and nothing reaches the transport. *)
Lemma log_auto_flush_blocks (e : LogEntry) (c : LogTideClient) (w : World) :
  _closed c = false ->
  _buffer_lock c = false ->
  Z.of_nat (length (_buffer c)) < max_buffer_size (options c) ->
  batch_size (options c) <= Z.of_nat (length (_buffer c)) + 1 ->
  exists e' w',
    LogTideClient_.log e (c, w) =
    (Hang, (set__buffer_lock true (set__buffer (_buffer c ++ [e']) c), w')) /\
    posts w' = posts w.
Proof.
  intros Hc Hb Hlt Hbs.
  destruct (log_open e c w Hc)
    as (e' & w' & _ & _ & _ & _ & _ & _ & Hp & _ & _ & Heq).
  exists e', w'. split; [ | exact Hp ].
  rewrite Heq. unfold LogTideClient_.with_buffer_lock. run_m. rewrite Hb.
  replace (Z.of_nat (length (_buffer c)) >=? max_buffer_size (options c))
    with false by (symmetry; rewrite Z.geb_leb; apply Z.leb_gt; lia).
  cbv beta iota. run_m.
  replace (Z.of_nat (length (_buffer c ++ [e'])) >=? batch_size (options c))
    with true
    by (symmetry; rewrite Z.geb_leb; apply Z.leb_le;
        rewrite length_app; cbn [length]; lia).
  rewrite flush_blocks by (destruct c; assumption || reflexivity).
  destruct c; reflexivity.
Qed.

(** C5, amended.  A client that has not been closed and whose buffer holds
    max_buffer_size entries or more rejects a logging call: it raises
    BufferFullError, the entry is not enqueued, the buffer is as it was, and
    logs_dropped grows by exactly 1 while nothing else in the client
    changes. *)
Theorem full_buffer_rejects_when_open (e : LogEntry) (c : LogTideClient)
    (w : World) :
  _closed c = false ->
  _buffer_lock c = false ->
  _metrics_lock c = false ->
  max_buffer_size (options c) <= Z.of_nat (length (_buffer c)) ->
  full_buffer_rejects e c w /\
  exists w',
    LogTideClient_.log e (c, w) =
    (Raise (BufferFullError "Log buffer is full"),
     (set__metrics (add_logs_dropped 1 (_metrics c)) c, w')) /\
    posts w' = posts w.
Proof.
  intros Hc Hb Hm Hfull.
  destruct (log_open e c w Hc)
    as (e' & w' & _ & _ & _ & _ & _ & _ & Hp & _ & _ & Heq).
  assert (Hrun : LogTideClient_.log e (c, w) =
                 (Raise (BufferFullError "Log buffer is full"),
                  (set__metrics (add_logs_dropped 1 (_metrics c)) c, w'))).
  { rewrite Heq.
    unfold LogTideClient_.with_buffer_lock, LogTideClient_.with_metrics_lock,
      LogTideClient_.update_metrics.
    run_m. rewrite Hb.
    replace (Z.of_nat (length (_buffer c)) >=? max_buffer_size (options c))
      with true by (symmetry; rewrite Z.geb_leb; apply Z.leb_le; lia).
    cbv beta iota. run_m. rewrite Hm. cbv beta iota. run_m.
    destruct c; cbn in *; subst; reflexivity. }
  split.
  - exists "Log buffer is full",
      (set__metrics (add_logs_dropped 1 (_metrics c)) c), w'.
    split; [ exact Hrun | ].
    destruct c; split; reflexivity.
  - exists w'. split; [ exact Hrun | exact Hp ].
Qed.

(** C8. The entry that [log] puts into the buffer carries the global
    metadata overlaid by its own: its metadata is the union that prefers
    the entry's values, so a key of the entry keeps the entry's value and
    any other key has the global value, if any. *)
Theorem logged_entry_merges_global_metadata (e : LogEntry)
    (c : LogTideClient) (w : World) :
  _closed c = false ->
  _buffer_lock c = false ->
  Z.of_nat (length (_buffer c)) < max_buffer_size (options c) ->
  exists e',
    _buffer (fst (snd (LogTideClient_.log e (c, w)))) = _buffer c ++ [e'] /\
    metadata e' = metadata e ∪ global_metadata (options c) /\
    (forall k v, metadata e !! k = Some v -> metadata e' !! k = Some v) /\
    (forall k, metadata e !! k = None ->
               metadata e' !! k = global_metadata (options c) !! k).
Proof.
  intros Hc Hb Hlt.
  destruct (log_open e c w Hc)
    as (e' & w' & _ & _ & _ & _ & Hmd & _ & _ & _ & _ & Heq).
  exists e'. split; [ | split; [ exact Hmd | split ] ].
  - rewrite Heq. unfold LogTideClient_.with_buffer_lock. run_m. rewrite Hb.
    replace (Z.of_nat (length (_buffer c)) >=? max_buffer_size (options c))
      with false by (symmetry; rewrite Z.geb_leb; apply Z.leb_gt; lia).
    cbv beta iota. run_m.
    destruct (Z.of_nat (length (_buffer c ++ [e'])) >=? batch_size (options c)).
    + rewrite flush_blocks by (destruct c; assumption || reflexivity).
      reflexivity.
    + reflexivity.
  - intros k v Hk. rewrite Hmd. apply lookup_union_Some_l. exact Hk.
  - intros k Hk. rewrite Hmd. apply lookup_union_r. exact Hk.
Qed.

Lemma LogEntry_init_eq (sv : string) (lv : LogLevel) (msg : string)
    (md : gmap string pyval) (c : LogTideClient) (w : World) :
  @LogEntry_init LogTideClient sv lv msg md (c, w) =
  (Ret {| service := sv; level := lv; message := msg;
          time := Some (utcnow w (utcnows w) +:+ "Z");
          metadata := md; trace_id := None |},
   (c, next_utcnow w)).
Proof. reflexivity. Qed.

(** C9. [close] returns with the client closed, and from then on each of
    log, debug, info, warn, error and critical returns without raising and
    leaves the client (its buffer and every metrics counter included)
    exactly as it was; the leveled calls only read the wall clock for the
    entry they build. *)
Theorem logging_after_close_is_silent (c : LogTideClient) (w : World) :
  exists c',
    LogTideClient_.close (c, w) = (Ret tt, (c', w)) /\
    _closed c' = true /\
    forall w',
      (forall e, LogTideClient_.log e (c', w') = (Ret tt, (c', w'))) /\
      (forall sv msg md,
          LogTideClient_.debug sv msg md (c', w') = (Ret tt, (c', next_utcnow w')) /\
          LogTideClient_.info sv msg md (c', w') = (Ret tt, (c', next_utcnow w')) /\
          LogTideClient_.warn sv msg md (c', w') = (Ret tt, (c', next_utcnow w'))) /\
      (forall sv msg moe,
          LogTideClient_.error sv msg moe (c', w') = (Ret tt, (c', next_utcnow w')) /\
          LogTideClient_.critical sv msg moe (c', w') = (Ret tt, (c', next_utcnow w'))).
Proof.
  assert (Hex : exists c', LogTideClient_.close (c, w) = (Ret tt, (c', w))
                           /\ _closed c' = true).
  { destruct (_closed c) eqn:Hc.
    - exists c. split; [ apply close_closed; exact Hc | exact Hc ].
    - eexists. split; [ apply close_eq; exact Hc | reflexivity ]. }
  destruct Hex as (c' & Hclose & Hc'). exists c'.
  split; [ exact Hclose | split; [ exact Hc' | ] ].
  intros w'. split; [ | split ].
  - intros e. apply log_closed. exact Hc'.
  - intros sv msg md.
    unfold LogTideClient_.debug, LogTideClient_.info, LogTideClient_.warn.
    unfold bind. rewrite !LogEntry_init_eq.
    rewrite !log_closed by exact Hc'. repeat split.
  - intros sv msg moe.
    unfold LogTideClient_.error, LogTideClient_.critical.
    unfold bind at 1 3.
    destruct moe; cbn [LogTideClient_._process_metadata_or_error];
      run_m; unfold bind; rewrite !LogEntry_init_eq;
      rewrite !log_closed by exact Hc'; repeat split.
Qed.

Lemma set__trace_id_same (c : LogTideClient) : set__trace_id (_trace_id c) c = c.
Proof. destruct c; reflexivity. Qed.

(** C7. [with_trace_id id body] runs the body from a client whose trace id
    is [id] and, when the body returns or raises, hands on that outcome
    with the trace id put back to what it was before; so a scope for X
    inside a scope for Y sees X inside and Y again after the inner scope,
    whether the inner body returned or raised, and the trace id from
    before is back after the outer scope. *)
Theorem with_trace_id_restores :
  (forall (A : Type) (id : string) (body : M LogTideClient A)
          (c : LogTideClient) (w : World),
      let inner := body (set__trace_id (Some id) c, w) in
      LogTideClient_.get_trace_id (set__trace_id (Some id) c, w)
      = (Ret (Some id), (set__trace_id (Some id) c, w)) /\
      LogTideClient_.with_trace_id id body (c, w) =
      match fst inner with
      | Hang => inner
      | r => (r, (set__trace_id (_trace_id c) (fst (snd inner)), snd (snd inner)))
      end) /\
  (forall (x y : string) (c : LogTideClient) (w : World),
      LogTideClient_.with_trace_id y
        (a <- LogTideClient_.with_trace_id x LogTideClient_.get_trace_id ;;
         b <- LogTideClient_.get_trace_id ;;
         ret (a, b)) (c, w)
      = (Ret (Some x, Some y), (c, w))) /\
  (forall (x y : string) (e : exn) (c : LogTideClient) (w : World),
      LogTideClient_.with_trace_id y
        (try_except
           (LogTideClient_.with_trace_id x
              (LogTideClient_.get_trace_id ;; raise e))
           (fun _ => LogTideClient_.get_trace_id)) (c, w)
      = (Ret (Some y), (c, w)) /\
      LogTideClient_.with_trace_id x (raise e) (c, w)
      = (@Raise unit e, (c, w))).
Proof.
  split; [ | split ].
  - intros A id body c w inner. split; [ reflexivity | ].
    unfold LogTideClient_.with_trace_id, LogTideClient_.set_trace_id,
      LogTideClient_._normalize_trace_id.
    run_m. subst inner.
    destruct (body (set__trace_id (Some id) c, w)) as [[a|e|] [c1 w1]];
      reflexivity.
  - intros x y c w.
    unfold LogTideClient_.with_trace_id, LogTideClient_.set_trace_id,
      LogTideClient_._normalize_trace_id, LogTideClient_.get_trace_id.
    run_m. destruct c; reflexivity.
  - intros x y e c w.
    unfold LogTideClient_.with_trace_id, LogTideClient_.set_trace_id,
      LogTideClient_._normalize_trace_id, LogTideClient_.get_trace_id.
    run_m. destruct c; split; reflexivity.
Qed.

(** [close] on an open client never reaches the transport: it marks the
    client closed and cancels the timer, then [flush] returns at once
    because the client is already marked closed. *)
Lemma close_never_flushes (c : LogTideClient) (w : World) :
  exists c',
    LogTideClient_.close (c, w) = (Ret tt, (c', w)) /\
    _buffer c' = _buffer c /\ _metrics c' = _metrics c.
Proof.
  destruct (_closed c) eqn:Hc.
  - exists c. rewrite close_closed by exact Hc. repeat split.
  - eexists. rewrite close_eq by exact Hc. split; [ reflexivity | ].
    destruct c; split; reflexivity.
Qed.

(** C1, at a client that is open and holds two buffered entries:
    [close()] returns with both entries still in the buffer, no batch
    handed to the transport and every counter at 0; the timer is
    cancelled, and a second [close()] changes nothing. *)
Theorem close_leaves_buffer_unsent :
  _closed (fst two_buffered) = false /\
  length (_buffer (fst two_buffered)) = 2%nat /\
  fst (LogTideClient_.close two_buffered) = Ret tt /\
  _closed (fst closed_full) = true /\
  _buffer (fst closed_full) = _buffer (fst two_buffered) /\
  posts (snd closed_full) = [] /\
  _metrics (fst closed_full) = ClientMetrics_init /\
  option_map cancelled (_flush_timer (fst closed_full)) = Some true /\
  LogTideClient_.close closed_full = (Ret tt, closed_full).
Proof. vm_compute. repeat split. Qed.

(** C6, at batch_size 3, max_buffer_size 10 and a transport that would
    succeed: the third append does not return; it blocks in the auto
    flush on the buffer lock it holds itself, with the three entries in the
    buffer, logs_sent 0 and nothing handed to the transport. *)
Theorem third_append_blocks_in_auto_flush :
  fst three_appends = Hang /\
  length (_buffer (fst (snd three_appends))) = 3%nat /\
  _buffer_lock (fst (snd three_appends)) = true /\
  logs_sent (_metrics (fst (snd three_appends))) = 0 /\
  posts (snd (snd three_appends)) = [].
Proof. vm_compute. repeat split. Qed.

(** Counterexample to C5 as stated: a closed client whose buffer holds
    max_buffer_size entries returns from [log] without raising and without
    counting a drop. *)
Lemma closed_full_buffer_not_rejected :
  Z.of_nat (length (_buffer (fst closed_full)))
    = max_buffer_size (options (fst closed_full)) /\
  ~ full_buffer_rejects example_entry (fst closed_full) (snd closed_full).
Proof.
  split; [ reflexivity | ].
  intros (msg & c' & w' & Hrun & _).
  rewrite log_closed in Hrun by reflexivity. discriminate Hrun.
Qed.

(** Counterexample to C2 as stated: the breaker reads OPEN at the loop's
    check, 29.9999 s after the last failure, and HALF_OPEN at the read
    after the loop, 30.0001 s after it; the batch is dropped and
    circuit_breaker_trips is not incremented. *)
Lemma open_breaker_trip_not_counted :
  quiescent (fst tripped) /\
  reads_open (fst tripped) (snd tripped) /\
  [example_entry] <> [] /\
  let c' := fst (snd (LogTideClient_._send_logs_with_retry [example_entry] tripped)) in
  logs_dropped (_metrics c') = logs_dropped (_metrics (fst tripped)) + 1 /\
  circuit_breaker_trips (_metrics c')
    <> circuit_breaker_trips (_metrics (fst tripped)) + 1.
Proof.
  vm_compute. repeat split; discriminate.
Qed.

(** ** The theorems at concrete inputs *)

Lemma breaker_state_machine_witness :
  exists b' w',
    repeat_m 5 CircuitBreaker_.record_failure
      (CircuitBreaker_.init 5 30000, world_with ms_clock (fun _ => true))
    = (Ret tt, (b', w')) /\
    _lock b' = false /\ _state b' = OPEN /\ _failure_count b' = 5.
Proof.
  destruct (breaker_state_machine (CircuitBreaker_.init 5 30000)
              (world_with ms_clock (fun _ => true)) eq_refl) as (_ & H & _).
  destruct H as (b' & w' & H1 & H2 & H3 & H4);
    [ reflexivity | cbn; lia | cbn; lia | ].
  exists b', w'. repeat apply conj; [ exact H1 | exact H2 | exact H3 | exact H4 ].
Defined.

Lemma half_open_reopens_at_threshold_witness :
  exists b1,
    CircuitBreaker_.state (open_breaker, late_world)
    = (Ret HALF_OPEN, (b1, tick late_world)) /\
    _state b1 = HALF_OPEN /\ _failure_count b1 = 0 /\
    exists b2,
      CircuitBreaker_.record_failure (b1, tick late_world)
      = (Ret tt, (b2, tick (tick late_world))) /\
      _state b2 = HALF_OPEN /\ _failure_count b2 = 1.
Proof.
  destruct (half_open_reopens_at_threshold open_breaker late_world)
    as (b1 & H1 & H2 & H3 & H4 & _);
    [ reflexivity | cbn; lia | reflexivity
    | apply Qle_bool_true; reflexivity | ].
  exists b1. repeat apply conj; [ exact H1 | exact H2 | exact H3 | ].
  destruct (H4 (tick late_world)) as (b2 & H5 & H6 & H7 & _).
  exists b2. repeat apply conj; [ exact H5 | exact H6 | exact H7 ].
Defined.

Lemma failing_transport_witness :
  exists c' w' ds,
    LogTideClient_._send_logs_with_retry [example_entry] always_failing
    = (Ret tt, (c', w')) /\
    posts w' = [[example_entry]; [example_entry]; [example_entry]] /\
    sleeps w' = ds /\
    Forall2 Qeq ds [(100 # 1000)%Q; (200 # 1000)%Q] /\
    errors (_metrics c') = 3 /\
    retries (_metrics c') = 2 /\
    logs_dropped (_metrics c') = 1 /\
    logs_sent (_metrics c') = 0.
Proof.
  destruct (failing_transport_retries_then_drops [example_entry]
              (fst always_failing) (snd always_failing))
    as (c' & w' & ds & Hrun & Hp & Hs & Hds & He & Hr & Hd & Hsent & _);
    [ repeat split | cbn; lia | discriminate | cbn; lia
    | intros k; reflexivity | vm_compute; discriminate
    | vm_compute; discriminate | ].
  exists c', w', ds.
  repeat apply conj;
    [ exact Hrun | exact Hp | exact Hs | exact Hds | exact He | exact Hr
    | exact Hd | exact Hsent ].
Defined.

Lemma open_breaker_drops_batch_witness :
  exists c' w',
    LogTideClient_._send_logs_with_retry [example_entry]
      (fst (tripped_with early_clock), snd (tripped_with early_clock))
    = (Ret tt, (c', w')) /\
    logs_dropped (_metrics c') = 1 /\
    circuit_breaker_trips (_metrics c') = 1 /\
    errors (_metrics c') = 0 /\ retries (_metrics c') = 0 /\
    posts w' = [] /\ sleeps w' = [].
Proof.
  assert (Hq : quiescent (fst (tripped_with early_clock)))
    by (vm_compute; repeat split).
  assert (Hmr : 0 <= max_retries (options (fst (tripped_with early_clock))))
    by (vm_compute; discriminate).
  assert (Hopen : reads_open (fst (tripped_with early_clock))
                             (snd (tripped_with early_clock)))
    by (vm_compute; split; reflexivity).
  eexists _, _. split.
  - exact (proj1 (proj2 (open_breaker_drops_batch [example_entry] _ _ Hq Hmr Hopen))).
  - vm_compute. repeat split.
Defined.

Lemma full_buffer_rejects_when_open_witness :
  full_buffer_rejects example_entry (fst two_buffered) (snd two_buffered).
Proof.
  assert (Hfull : max_buffer_size (options (fst two_buffered))
                  <= Z.of_nat (length (_buffer (fst two_buffered))))
    by (vm_compute; discriminate).
  exact (proj1 (full_buffer_rejects_when_open example_entry
                  (fst two_buffered) (snd two_buffered)
                  eq_refl eq_refl eq_refl Hfull)).
Defined.

Lemma logged_entry_merges_global_metadata_witness :
  exists e',
    _buffer (fst (snd (LogTideClient_.log meta_entry meta_client))) = [e'] /\
    metadata e' !! "env" = Some (PStr "dev") /\
    metadata e' !! "user" = Some (PStr "ann") /\
    metadata e' !! "region" = Some (PStr "eu").
Proof.
  destruct (logged_entry_merges_global_metadata meta_entry
              (fst meta_client) (snd meta_client))
    as (e' & Hbuf & _ & Hown & Hglobal);
    [ reflexivity | reflexivity | cbn; lia | ].
  exists e'. repeat apply conj.
  - exact Hbuf.
  - apply Hown. reflexivity.
  - apply Hown. reflexivity.
  - rewrite Hglobal by reflexivity. reflexivity.
Defined.

(** * Further properties of the code *)

(** ** The latency window *)

Lemma update_latency_eq (x : Q) (c : LogTideClient) (w : World) :
  _metrics_lock c = false ->
  LogTideClient_._update_latency x (c, w) =
  (Ret tt,
   (set__metrics
      (set_avg_latency_ms (mean (roll (_latency_window c ++ [x]))) (_metrics c))
      (set__latency_window (roll (_latency_window c ++ [x])) c),
    w)).
Proof.
  intros Hm. destruct c as [o bf tr bl ml m cb lw ft cl]. cbn in Hm. subst ml.
  unfold LogTideClient_._update_latency, LogTideClient_.with_metrics_lock,
    LogTideClient_.update_metrics.
  run_m. unfold roll, mean.
  destruct (100 <? length (lw ++ [x]))%nat eqn:E; run_m.
  - destruct (tl (lw ++ [x])) as [|y l] eqn:Etl; [ | reflexivity ].
    exfalso. apply Nat.ltb_lt in E.
    destruct (lw ++ [x]) as [|z l']; cbn in *; [ lia | subst l'; cbn in E; lia ].
  - destruct (lw ++ [x]) as [|y l] eqn:El; [ | reflexivity ].
    exfalso. destruct lw; discriminate El.
Qed.

Lemma roll_last100 (win : list Q) (x : Q) :
  (length win <= 100)%nat -> roll (win ++ [x]) = last100 (win ++ [x]).
Proof.
  intros H. unfold roll, last100. rewrite length_app. cbn [length].
  destruct (Nat.ltb_spec 100 (length win + 1)) as [Hlt|Hge].
  - replace (length win + 1 - 100)%nat with 1%nat by lia.
    destruct (win ++ [x]); reflexivity.
  - replace (length win + 1 - 100)%nat with 0%nat by lia. reflexivity.
Qed.

Lemma last100_length {A} (l : list A) : (length (last100 l) <= 100)%nat.
Proof. unfold last100. rewrite length_drop. lia. Qed.

Lemma last100_app {A} (a b : list A) : last100 (last100 a ++ b) = last100 (a ++ b).
Proof.
  unfold last100. rewrite !length_app, length_drop.
  destruct (Nat.le_gt_cases (length a) 100) as [Hle|Hgt].
  - replace (length a - 100)%nat with 0%nat by lia. cbn [drop].
    rewrite Nat.sub_0_r. reflexivity.
  - rewrite !drop_app, drop_drop, length_drop.
    f_equal; f_equal; lia.
Qed.

(** X1. Recording latencies one after the other into a window of at most
    100 entries leaves the window holding the last 100 of all latencies
    seen, oldest first, never more than 100; avg_latency_ms is then the
    mean of exactly that window, and nothing else in the client changes. *)
Theorem latency_window_is_last_100 (xs : list Q) (c : LogTideClient)
    (w : World) :
  _metrics_lock c = false ->
  (length (_latency_window c) <= 100)%nat ->
  exists c',
    each LogTideClient_._update_latency xs (c, w) = (Ret tt, (c', w)) /\
    _latency_window c' = last100 (_latency_window c ++ xs) /\
    (length (_latency_window c') <= 100)%nat /\
    avg_latency_ms (_metrics c')
      = match xs with
        | [] => avg_latency_ms (_metrics c)
        | _ :: _ => mean (_latency_window c')
        end /\
    c' = set__metrics
           (set_avg_latency_ms (avg_latency_ms (_metrics c')) (_metrics c))
           (set__latency_window (_latency_window c') c).
Proof.
  revert c. induction xs as [|x xs IH]; intros c Hm Hlen.
  - exists c. cbn [each]. unfold ret.
    rewrite app_nil_r. unfold last100.
    replace (length (_latency_window c) - 100)%nat with 0%nat by lia.
    repeat apply conj; try reflexivity; try assumption.
    destruct c as [o bf tr bl ml m cb lw ft cl]; destruct m; reflexivity.
  - cbn [each]. unfold bind at 1. rewrite update_latency_eq by assumption.
    rewrite roll_last100 by assumption.
    match goal with
    | |- context [each _ xs (?c1, w)] =>
        destruct (IH c1) as (c' & Hrun & Hwin & Hle & Havg & Hframe)
    end.
    { destruct c; assumption. }
    { destruct c; cbn. apply last100_length. }
    exists c'. rewrite Hrun.
    assert (Hwin' : _latency_window c' = last100 (_latency_window c ++ x :: xs)).
    { rewrite Hwin. destruct c; cbn [_latency_window set__metrics set__latency_window].
      rewrite last100_app, <- app_assoc. reflexivity. }
    repeat apply conj; try reflexivity; try assumption.
    + rewrite Havg. destruct xs; [ | reflexivity ].
      cbn [each] in Hrun. unfold ret in Hrun. injection Hrun as <-.
      destruct c; reflexivity.
Qed.

Lemma latency_window_is_last_100_witness :
  exists c',
    each LogTideClient_._update_latency [(3 # 1)%Q; (5 # 1)%Q]
      (fst always_failing, snd always_failing)
    = (Ret tt, (c', snd always_failing)) /\
    _latency_window c' = [(3 # 1)%Q; (5 # 1)%Q] /\
    (avg_latency_ms (_metrics c') == 4)%Q.
Proof.
  destruct (latency_window_is_last_100 [(3 # 1)%Q; (5 # 1)%Q]
              (fst always_failing) (snd always_failing))
    as (c' & Hrun & Hwin & _ & Havg & _);
    [ reflexivity | cbn; lia | ].
  exists c'. repeat apply conj; [ exact Hrun | exact Hwin | ].
  rewrite Havg, Hwin. reflexivity.
Defined.

(** ** One turn of the retry loop, whatever the transport answers *)

(** A turn that finds the breaker past its reset timeout goes on as from
    the HALF_OPEN breaker the state read leaves. *)
Lemma attempt_once_after_read (logs : list LogEntry) (attempt : Z) (delay : Q)
    (c : LogTideClient) (w : World) :
  quiescent c ->
  reads_not_open c w ->
  LogTideClient_.attempt_once logs attempt delay (c, w)
  = LogTideClient_.attempt_once logs attempt delay (after_state_read c w).
Proof.
  intros (Hb & Hm & Hl) Hread. unfold after_state_read.
  destruct (CircuitState_eqb (_state (_circuit_breaker c)) OPEN) eqn:Est;
    [ | reflexivity ].
  destruct Hread as [Hne|Hq];
    [ destruct (_state (_circuit_breaker c)); try discriminate Est; congruence | ].
  rewrite Hq.
  unfold LogTideClient_.attempt_once.
  match goal with
  | |- try_except (bind _ ?k) ?h _ = _ => set (K := k); set (H := h)
  end.
  unfold try_except, bind.
  rewrite (breaker_state_eq c w) by assumption.
  rewrite Est, Hq.
  rewrite breaker_state_eq by (destruct c; assumption).
  destruct c as [o bf tr bl ml m cb lw ft cl]. destruct cb. reflexivity.
Qed.

(** A turn taken with a breaker that is not OPEN, in closed form: the POST
    succeeds and the function returns, or it fails and the turn continues
    or, once the attempts are used up, drops the batch. *)
Lemma attempt_once_ready (logs : list LogEntry) (attempt : Z) (delay : Q)
    (c : LogTideClient) (w : World) :
  quiescent c ->
  _state (_circuit_breaker c) <> OPEN ->
  (post_ok w (length (posts w)) = false ->
   attempt + 1 <= max_retries (options c) -> sleepable delay = true) ->
  let cb := _circuit_breaker c in
  let w' := tick (add_post logs (tick w)) in
  LogTideClient_.attempt_once logs attempt delay (c, w) =
  if post_ok w (length (posts w)) then
    let win := roll (_latency_window c
                     ++ [(clock w (S (ticks w)) - clock w (ticks w)) * 1000])%Q in
    (Ret Return_,
     (set__metrics
        (add_logs_sent (Z.of_nat (length logs))
           (set_avg_latency_ms (mean win) (_metrics c)))
        (set__latency_window win
           (set__circuit_breaker
              (set__state
                 (if CircuitState_eqb (_state cb) HALF_OPEN then CLOSED
                  else _state cb)
                 (set__failure_count 0 cb)) c)),
      w'))
  else
    let cb' :=
      set__state
        (if _failure_count cb + 1 >=? threshold cb then OPEN else _state cb)
        (set__last_failure_time (clock w (S (ticks w)))
           (set__failure_count (_failure_count cb + 1) cb)) in
    if attempt + 1 <=? max_retries (options c) then
      (Ret (Continue_ (attempt + 1) (delay * 2)%Q),
       (set__metrics (add_retries 1 (add_errors 1 (_metrics c)))
          (set__circuit_breaker cb' c),
        add_sleep delay w'))
    else
      (Ret Break_,
       (set__metrics
          (add_logs_dropped (Z.of_nat (length logs)) (add_errors 1 (_metrics c)))
          (set__circuit_breaker cb' c),
        w')).
Proof.
  intros (Hb & Hm & Hl) Hst Hsl. cbn zeta.
  unfold LogTideClient_.attempt_once, try_except.
  unfold bind at 1. unfold bind at 1.
  rewrite breaker_state_eq by assumption.
  destruct (post_ok w (length (posts w))) eqn:Hpost.
  - (* the POST succeeds *)
    destruct c as [o bf tr bl ml m cb lw ft cl];
      cbn [_circuit_breaker options _metrics _metrics_lock _buffer_lock
           _latency_window] in *.
    destruct cb as [t T st fc last lk];
      cbn [_state _failure_count threshold _lock] in *.
    subst bl ml lk.
    destruct st; try congruence; cbn [CircuitState_eqb].
    all: unfold LogTideClient_._send_logs; run_m; rewrite Hpost; run_m.
    all: unfold CircuitBreaker_.record_success; run_m.
    all: rewrite update_latency_eq by reflexivity.
    all: rewrite update_metrics_locked_eq by reflexivity.
    all: reflexivity.
  - destruct c as [o bf tr bl ml m cb lw ft cl];
      cbn [_circuit_breaker options _metrics _metrics_lock _buffer_lock] in *.
    destruct cb as [t T st fc last lk];
      cbn [_state _failure_count threshold _lock] in *.
    subst bl ml lk.
    destruct st; try congruence; cbn [CircuitState_eqb].
    all: unfold LogTideClient_._send_logs, LogTideClient_.with_metrics_lock,
           LogTideClient_.update_metrics, on_breaker,
           CircuitBreaker_.record_failure; run_m;
         rewrite Hpost; run_m;
         rewrite (Z.gtb_ltb (attempt + 1)), Z.ltb_antisym;
         destruct (fc + 1 >=? t); run_m;
         destruct (Z.leb_spec (attempt + 1) (max_retries o)) as [Hle|Hgt];
         cbn [negb];
         try rewrite time_sleep_eq
           by (apply Hsl; first [ reflexivity | assumption ]);
         reflexivity.
Qed.

Lemma after_state_read_ready (c : LogTideClient) (w : World) :
  quiescent c ->
  reads_not_open c w ->
  quiescent (fst (after_state_read c w)) /\
  _state (_circuit_breaker (fst (after_state_read c w))) <> OPEN /\
  options (fst (after_state_read c w)) = options c /\
  _buffer (fst (after_state_read c w)) = _buffer c /\
  _closed (fst (after_state_read c w)) = _closed c /\
  _trace_id (fst (after_state_read c w)) = _trace_id c /\
  _flush_timer (fst (after_state_read c w)) = _flush_timer c /\
  _metrics (fst (after_state_read c w)) = _metrics c /\
  posts (snd (after_state_read c w)) = posts w /\
  sleeps (snd (after_state_read c w)) = sleeps w /\
  post_ok (snd (after_state_read c w)) = post_ok w.
Proof.
  intros (Hb & Hm & Hl) Hread. unfold after_state_read, quiescent.
  assert (Hcase : CircuitState_eqb (_state (_circuit_breaker c)) OPEN = false \/
                  Qle_bool (inject_Z (reset_timeout_ms (_circuit_breaker c)))
                    (time_since_failure (_circuit_breaker c) w) = true).
  { destruct Hread as [Hne|Hq]; [ left | right; exact Hq ].
    destruct (_state (_circuit_breaker c)); try reflexivity.
    exfalso. apply Hne. reflexivity. }
  destruct (CircuitState_eqb (_state (_circuit_breaker c)) OPEN) eqn:Est.
  - destruct Hcase as [Hf|Hq]; [ discriminate Hf | ]. rewrite Hq.
    destruct c as [o bf tr bl ml m cb lw ft cl].
    destruct cb as [t T st fc last lk]. cbn in Hb, Hm, Hl. subst. cbn.
    repeat apply conj; try reflexivity. discriminate.
  - destruct c as [o bf tr bl ml m cb lw ft cl].
    destruct cb as [t T st fc last lk]. cbn in Hb, Hm, Hl, Est. subst. cbn.
    repeat apply conj; try reflexivity.
    intros ->. discriminate Est.
Qed.

(** What one turn does, whatever the clock and the transport answer: it
    returns after a POST that succeeded, or leaves the loop with the batch
    counted as dropped, or continues after a failed POST and a sleep. *)
Lemma attempt_once_outcome (logs : list LogEntry) (attempt : Z) (delay : Q)
    (c : LogTideClient) (w : World) :
  quiescent c ->
  attempt <= max_retries (options c) ->
  (attempt + 1 <= max_retries (options c) -> sleepable delay = true) ->
  exists ctl c' w',
    LogTideClient_.attempt_once logs attempt delay (c, w) = (Ret ctl, (c', w')) /\
    quiescent c' /\
    options c' = options c /\ _buffer c' = _buffer c /\
    _closed c' = _closed c /\ _trace_id c' = _trace_id c /\
    _flush_timer c' = _flush_timer c /\
    post_ok w' = post_ok w /\
    circuit_breaker_trips (_metrics c') = circuit_breaker_trips (_metrics c) /\
    match ctl with
    | Return_ =>
        posts w' = posts w ++ [logs] /\ sleeps w' = sleeps w /\
        errors (_metrics c') = errors (_metrics c) /\
        retries (_metrics c') = retries (_metrics c) /\
        logs_sent (_metrics c') = logs_sent (_metrics c) + Z.of_nat (length logs) /\
        logs_dropped (_metrics c') = logs_dropped (_metrics c)
    | Break_ =>
        sleeps w' = sleeps w /\
        retries (_metrics c') = retries (_metrics c) /\
        logs_sent (_metrics c') = logs_sent (_metrics c) /\
        logs_dropped (_metrics c')
          = logs_dropped (_metrics c) + Z.of_nat (length logs) /\
        ((posts w' = posts w /\ errors (_metrics c') = errors (_metrics c)) \/
         (posts w' = posts w ++ [logs] /\
          errors (_metrics c') = errors (_metrics c) + 1 /\
          attempt = max_retries (options c)))
    | Continue_ attempt' delay' =>
        attempt' = attempt + 1 /\ attempt' <= max_retries (options c) /\
        delay' = (delay * 2)%Q /\
        posts w' = posts w ++ [logs] /\ sleeps w' = sleeps w ++ [delay] /\
        errors (_metrics c') = errors (_metrics c) + 1 /\
        retries (_metrics c') = retries (_metrics c) + 1 /\
        logs_sent (_metrics c') = logs_sent (_metrics c) /\
        logs_dropped (_metrics c') = logs_dropped (_metrics c)
    end.
Proof.
  intros Hq Hatt Hsl.
  assert (Hcase : reads_open c w \/ reads_not_open c w).
  { unfold reads_open, reads_not_open.
    destruct (_state (_circuit_breaker c)); try (right; left; congruence).
    destruct (Qle_bool _ _); [ right; right | left ]; auto. }
  destruct Hcase as [Hopen|Hread].
  - rewrite attempt_once_open by assumption.
    eexists _, _, _. split; [ reflexivity | ].
    destruct Hq as (Hb & Hm & Hl).
    destruct c as [o bf tr bl ml m cb lw ft cl]. unfold quiescent. cbn in *.
    repeat apply conj; try assumption; try reflexivity.
    left. split; reflexivity.
  - rewrite attempt_once_after_read by assumption.
    destruct (after_state_read_ready c w Hq Hread)
      as (Hq0 & Hst0 & Ho & Hbf & Hcl & Htr & Hft & Hmt & Hp0 & Hs0 & Hok0).
    destruct (after_state_read c w) as [c0 w0]. cbn [fst snd] in *.
    rewrite attempt_once_ready
      by (try assumption; intros _; rewrite Ho; exact Hsl).
    cbn zeta.
    rewrite <- Ho, <- Hbf, <- Hcl, <- Htr, <- Hft, <- Hmt, <- Hp0, <- Hs0, <- Hok0
      in *.
    clear Ho Hbf Hcl Htr Hft Hmt Hp0 Hs0 Hok0 Hq Hread.
    destruct Hq0 as (Hb & Hm & Hl).
    destruct c0 as [o bf tr bl ml m cb0 lw ft cl]. unfold quiescent.
    cbn in Hb, Hm, Hl, Hst0, Hatt. cbn.
    destruct (post_ok w0 (length (posts w0))).
    + eexists _, _, _. split; [ reflexivity | ]. cbn.
      destruct cb0; cbn in *.
      repeat apply conj; try assumption; try reflexivity.
    + destruct (Z.leb_spec (attempt + 1) (max_retries o)).
      * eexists _, _, _. split; [ reflexivity | ]. cbn.
        destruct cb0; cbn in *.
        repeat apply conj; try assumption; try reflexivity.
      * eexists _, _, _. split; [ reflexivity | ]. cbn.
        destruct cb0; cbn in *.
        repeat apply conj; try assumption; try reflexivity.
        right. repeat apply conj; try reflexivity. lia.
Qed.

(** The whole loop, whatever the clock and the transport answer: it ends
    through [return] after a successful POST or through [break] with the
    batch counted as dropped, after [k] POSTs and [j] sleeps. *)
Lemma retry_loop_outcome (logs : list LogEntry) (n : nat) :
  forall (attempt : Z) (delay : Q) (c : LogTideClient) (w : World),
    quiescent c ->
    attempt <= max_retries (options c) ->
    Z.of_nat n = max_retries (options c) + 1 - attempt ->
    (forall i, (S i < n)%nat -> sleepable (backoff delay i) = true) ->
    exists (b : bool) c' w' (k j : nat),
      LogTideClient_.retry_loop n logs attempt delay (c, w) = (Ret b, (c', w')) /\
      quiescent c' /\
      options c' = options c /\ _buffer c' = _buffer c /\
      _closed c' = _closed c /\ _trace_id c' = _trace_id c /\
      _flush_timer c' = _flush_timer c /\
      circuit_breaker_trips (_metrics c') = circuit_breaker_trips (_metrics c) /\
      posts w' = posts w ++ repeat logs k /\
      (k <= n)%nat /\
      sleeps w' = sleeps w ++ map (backoff delay) (seq 0 j) /\
      retries (_metrics c') = retries (_metrics c) + Z.of_nat j /\
      Z.of_nat j
        = Z.min (errors (_metrics c') - errors (_metrics c))
                (max_retries (options c) - attempt) /\
      if b then
        (1 <= k)%nat /\
        errors (_metrics c') = errors (_metrics c) + Z.of_nat k - 1 /\
        logs_sent (_metrics c') = logs_sent (_metrics c) + Z.of_nat (length logs) /\
        logs_dropped (_metrics c') = logs_dropped (_metrics c)
      else
        errors (_metrics c') = errors (_metrics c) + Z.of_nat k /\
        logs_sent (_metrics c') = logs_sent (_metrics c) /\
        logs_dropped (_metrics c')
          = logs_dropped (_metrics c) + Z.of_nat (length logs).
Proof.
  induction n as [|n IH]; intros attempt delay c w Hq Hatt Hn Hsl; [ lia | ].
  rewrite retry_loop_S. cbn [fst].
  replace (attempt <=? max_retries (options c)) with true
    by (symmetry; apply Z.leb_le; lia).
  destruct (attempt_once_outcome logs attempt delay c w Hq Hatt)
    as (ctl & c1 & w1 & Hrun & Hq1 & Ho & Hbf & Hcl & Htr & Hft & Hok & Htrips
          & Hctl).
  { intros Hnext. apply (Hsl 0%nat). lia. }
  rewrite Hrun. pose proof Hq1 as (Hq1b & Hq1m & Hq1l).
  destruct ctl as [| |attempt' delay'].
  - destruct Hctl as (Hp & Hs & He & Hr & Hsent & Hd).
    exists true, c1, w1, 1%nat, 0%nat.
    repeat apply conj; try assumption; try reflexivity; try lia.
    + cbn [seq map]. rewrite app_nil_r. exact Hs.
  - destruct Hctl as (Hs & Hr & Hsent & Hd & [(Hp & He)|(Hp & He & Hlast)]).
    + exists false, c1, w1, 0%nat, 0%nat.
      repeat apply conj; try assumption; try reflexivity; try lia.
      * cbn [repeat]. rewrite app_nil_r. exact Hp.
      * cbn [seq map]. rewrite app_nil_r. exact Hs.
    + exists false, c1, w1, 1%nat, 0%nat.
      repeat apply conj; try assumption; try reflexivity; try lia.
      * cbn [seq map]. rewrite app_nil_r. exact Hs.
  - destruct Hctl as (-> & Hle & -> & Hp & Hs & He & Hr & Hsent & Hd).
    destruct (IH (attempt + 1) (delay * 2)%Q c1 w1 Hq1)
      as (b & c' & w' & k & j & Hrun' & Hq' & Ho' & Hbf' & Hcl' & Htr' & Hft'
            & Htrips' & Hp' & Hk & Hs' & Hr' & Hj & Hb);
      [ rewrite Ho; exact Hle | rewrite Ho; lia
      | intros i Hi; apply (Hsl (S i)); lia | ].
    exists b, c', w', (S k), (S j). rewrite Hrun'.
    destruct Hq' as (Hqb' & Hqm' & Hql').
    rewrite Ho in *.
    repeat apply conj; try assumption; try congruence; try lia.
    + rewrite Hp', Hp, <- List.app_assoc. reflexivity.
    + rewrite map_backoff_succ, Hs', Hs, <- List.app_assoc. reflexivity.
    + destruct b.
      * destruct Hb as (Hk1 & He' & Hsent' & Hd').
        repeat apply conj; try lia; congruence.
      * destruct Hb as (He' & Hsent' & Hd').
        repeat apply conj; try lia; congruence.
Qed.

(** The check after the loop, in closed form. *)
Lemma trips_check_eq (c : LogTideClient) (w : World) :
  quiescent c ->
  (st <- on_breaker CircuitBreaker_.state ;;
   if CircuitState_eqb st OPEN then
     LogTideClient_.with_metrics_lock
       (LogTideClient_.update_metrics (add_circuit_breaker_trips 1))
   else ret tt) (c, w)
  = (Ret tt,
     if CircuitState_eqb (_state (_circuit_breaker c)) OPEN then
       (if Qle_bool (inject_Z (reset_timeout_ms (_circuit_breaker c)))
                    (time_since_failure (_circuit_breaker c) w)
        then set__circuit_breaker
               (set__failure_count 0
                  (set__state HALF_OPEN (_circuit_breaker c))) c
        else set__metrics (add_circuit_breaker_trips 1 (_metrics c)) c,
        tick w)
     else (c, w)).
Proof.
  intros (Hb & Hm & Hl). unfold bind at 1.
  rewrite breaker_state_eq by assumption.
  destruct (CircuitState_eqb (_state (_circuit_breaker c)) OPEN) eqn:Est.
  - destruct (Qle_bool _ _); cbn [CircuitState_eqb]; [ reflexivity | ].
    rewrite update_metrics_locked_eq by assumption. reflexivity.
  - destruct (_state (_circuit_breaker c)); try discriminate Est; reflexivity.
Qed.

(** The pipeline from a state in which no lock is held: it always returns,
    and the batch ends up counted exactly once, as sent or as dropped. *)
Lemma pipeline_outcome (logs : list LogEntry) (c : LogTideClient) (w : World) :
  quiescent c ->
  0 <= max_retries (options c) ->
  0 <= retry_delay_ms (options c) ->
  retry_delay_ms (options c) * 1000000 * 2 ^ (max_retries (options c) - 1)
    <= PyTime_MAX ->
  exists c' w' (k j : nat),
    LogTideClient_._send_logs_with_retry logs (c, w) = (Ret tt, (c', w')) /\
    quiescent c' /\
    options c' = options c /\ _buffer c' = _buffer c /\
    _closed c' = _closed c /\ _trace_id c' = _trace_id c /\
    _flush_timer c' = _flush_timer c /\
    posts w' = posts w ++ repeat logs k /\
    Z.of_nat k <= max_retries (options c) + 1 /\
    sleeps w' = sleeps w
                ++ map (backoff (inject_Z (retry_delay_ms (options c)) / 1000)%Q)
                       (seq 0 j) /\
    retries (_metrics c') = retries (_metrics c) + Z.of_nat j /\
    Z.of_nat j
      = Z.min (errors (_metrics c') - errors (_metrics c))
              (max_retries (options c)) /\
    ((logs_sent (_metrics c') = logs_sent (_metrics c) + Z.of_nat (length logs) /\
      logs_dropped (_metrics c') = logs_dropped (_metrics c) /\
      errors (_metrics c') = errors (_metrics c) + Z.of_nat k - 1 /\
      circuit_breaker_trips (_metrics c') = circuit_breaker_trips (_metrics c))
     \/
     (logs_sent (_metrics c') = logs_sent (_metrics c) /\
      logs_dropped (_metrics c')
        = logs_dropped (_metrics c) + Z.of_nat (length logs) /\
      errors (_metrics c') = errors (_metrics c) + Z.of_nat k /\
      (circuit_breaker_trips (_metrics c') = circuit_breaker_trips (_metrics c) \/
       circuit_breaker_trips (_metrics c')
         = circuit_breaker_trips (_metrics c) + 1))).
Proof.
  intros Hq Hmr Hms Hfit.
  rewrite send_logs_with_retry_eq. cbn [fst].
  destruct (retry_loop_outcome logs (Z.to_nat (max_retries (options c) + 1)) 0
              (inject_Z (retry_delay_ms (options c)) / 1000)%Q c w Hq)
    as (b & c1 & w1 & k & j & Hrun & Hq1 & Ho & Hbf & Hcl & Htr & Hft & Htrips
          & Hp & Hk & Hs & Hr & Hj & Hb);
    [ lia | lia
    | intros i Hi;
      apply (delays_sleepable _ (Z.to_nat (max_retries (options c))));
      [ exact Hms | rewrite Z2Nat.id by lia; exact Hfit | lia ]
    | ].
  rewrite Hrun. rewrite Z.sub_0_r in Hj.
  destruct b.
  - destruct Hb as (Hk1 & He & Hsent & Hd).
    exists c1, w1, k, j.
    repeat apply conj; try assumption; try reflexivity; try apply Hq1; try lia.
  - destruct Hb as (He & Hsent & Hd).
    rewrite trips_check_eq by assumption.
    pose proof Hq1 as (Hq1b & Hq1m & Hq1l).
    destruct c1 as [o1 bf1 tr1 bl1 ml1 m1 cb1 lw1 ft1 cl1].
    destruct cb1 as [t1 T1 st1 fc1 last1 lk1].
    cbn in Hq1b, Hq1m, Hq1l, Ho, Hbf, Hcl, Htr, Hft, Htrips, Hr, Hj, He, Hsent, Hd.
    unfold quiescent.
    cbn [_circuit_breaker _state reset_timeout_ms].
    destruct (CircuitState_eqb st1 OPEN);
      [ destruct (Qle_bool _ _) | ];
      eexists _, _, k, j; (split; [ reflexivity | ]); cbn;
      repeat apply conj; try assumption; try reflexivity; try lia;
      right; repeat apply conj; try assumption;
      first [ left; assumption | right; rewrite <- Htrips; reflexivity
            | left; reflexivity | right; reflexivity | idtac ].
    all: try (left; congruence). all: try (right; congruence).
Qed.

Lemma flush_open_eq (c : LogTideClient) (w : World) :
  _closed c = false ->
  _buffer_lock c = false ->
  LogTideClient_.flush (c, w) =
  match _buffer c with
  | [] => (Ret tt, (c, w))
  | _ :: _ => LogTideClient_._send_logs_with_retry (_buffer c) (set__buffer [] c, w)
  end.
Proof.
  intros Hc Hb. unfold LogTideClient_.flush, LogTideClient_.with_buffer_lock.
  run_m. rewrite Hc. cbv beta iota. project. rewrite Hb.
  destruct c as [o bf tr bl ml m cb lw ft cl]. cbn in Hc, Hb. subst.
  destruct bf; reflexivity.
Qed.

(** X2. [flush] on an open client with no lock held, with max_retries at
    least 0, retry_delay_ms not negative and the largest delay of a cycle,
    retry_delay_ms / 1000 * 2^(max_retries - 1) seconds, within the range
    of [time.sleep], always returns, whatever the transport and the clock
    do: the buffer is empty afterwards, every POST made carried the whole
    former buffer in its order, there were at most max_retries + 1 of them,
    and the entries are counted exactly once, all in logs_sent or all in
    logs_dropped.  On an empty buffer nothing at all changes. *)
Theorem flush_settles_the_buffer (c : LogTideClient) (w : World) :
  _closed c = false ->
  quiescent c ->
  0 <= max_retries (options c) ->
  0 <= retry_delay_ms (options c) ->
  retry_delay_ms (options c) * 1000000 * 2 ^ (max_retries (options c) - 1)
    <= PyTime_MAX ->
  exists c' w' (k : nat),
    LogTideClient_.flush (c, w) = (Ret tt, (c', w')) /\
    _buffer c' = [] /\
    quiescent c' /\ _closed c' = false /\
    posts w' = posts w ++ repeat (_buffer c) k /\
    Z.of_nat k <= max_retries (options c) + 1 /\
    (_buffer c = [] -> c' = c /\ w' = w) /\
    ((logs_sent (_metrics c')
        = logs_sent (_metrics c) + Z.of_nat (length (_buffer c)) /\
      logs_dropped (_metrics c') = logs_dropped (_metrics c)) \/
     (logs_sent (_metrics c') = logs_sent (_metrics c) /\
      logs_dropped (_metrics c')
        = logs_dropped (_metrics c) + Z.of_nat (length (_buffer c)))).
Proof.
  intros Hc Hq Hmr Hms Hfit. pose proof Hq as (Hb & Hm & Hl).
  rewrite flush_open_eq by assumption.
  destruct (_buffer c) as [|e es] eqn:Ebuf.
  - exists c, w, 0%nat. cbn [repeat length Z.of_nat].
    rewrite app_nil_r, !Z.add_0_r.
    repeat apply conj; try assumption; try reflexivity; try lia.
    all: try (intros _; split; reflexivity).
    all: try (left; split; reflexivity).
  - destruct (pipeline_outcome (e :: es) (set__buffer [] c) w)
      as (c' & w' & k & j & Hrun & Hq' & Ho & Hbf & Hcl & _ & _ & Hp & Hk & _
            & _ & _ & Hacc).
    { destruct c; exact Hq. }
    { destruct c; exact Hmr. }
    { destruct c; exact Hms. }
    { destruct c; exact Hfit. }
    exists c', w', k. rewrite Hrun.
    assert (Hm0 : _metrics (set__buffer [] c) = _metrics c) by (destruct c; reflexivity).
    assert (Ho0 : options (set__buffer [] c) = options c) by (destruct c; reflexivity).
    rewrite Hm0, Ho0 in *.
    repeat apply conj; try assumption; try reflexivity; try apply Hq'.
    all: try discriminate.
    all: try (rewrite Hbf; destruct c; reflexivity).
    all: try (rewrite Hcl; destruct c; exact Hc).
    all: destruct Hacc as [(Hs & Hd & _)|(Hs & Hd & _)]; [ left | right ];
      split; assumption.
Qed.

Lemma flush_settles_the_buffer_witness :
  exists c' w' (k : nat),
    LogTideClient_.flush (fst two_buffered, snd two_buffered) = (Ret tt, (c', w')) /\
    _buffer c' = [] /\
    posts w' = repeat (_buffer (fst two_buffered)) k.
Proof.
  assert (Hq : quiescent (fst two_buffered)) by (vm_compute; repeat split).
  assert (Hmr : 0 <= max_retries (options (fst two_buffered)))
    by (vm_compute; discriminate).
  assert (Hms : 0 <= retry_delay_ms (options (fst two_buffered)))
    by (vm_compute; discriminate).
  assert (Hfit : retry_delay_ms (options (fst two_buffered)) * 1000000
                 * 2 ^ (max_retries (options (fst two_buffered)) - 1)
                 <= PyTime_MAX)
    by (vm_compute; discriminate).
  destruct (flush_settles_the_buffer (fst two_buffered) (snd two_buffered)
              eq_refl Hq Hmr Hms Hfit)
    as (c' & w' & k & Hrun & Hbuf & _ & _ & Hp & _).
  exists c', w', k. repeat apply conj; [ exact Hrun | exact Hbuf | exact Hp ].
Defined.

(** X3. With a negative max_retries the pipeline makes no attempt: the
    transport is not called, nothing sleeps, and the batch is counted
    neither as sent nor as dropped; only the check after the loop runs. *)
Theorem negative_max_retries_loses_batch (logs : list LogEntry)
    (c : LogTideClient) (w : World) :
  quiescent c ->
  max_retries (options c) < 0 ->
  exists c' w',
    LogTideClient_._send_logs_with_retry logs (c, w) = (Ret tt, (c', w')) /\
    posts w' = posts w /\ sleeps w' = sleeps w /\
    logs_sent (_metrics c') = logs_sent (_metrics c) /\
    logs_dropped (_metrics c') = logs_dropped (_metrics c) /\
    errors (_metrics c') = errors (_metrics c) /\
    retries (_metrics c') = retries (_metrics c) /\
    _buffer c' = _buffer c.
Proof.
  intros Hq Hmr. rewrite send_logs_with_retry_eq. cbn [fst].
  replace (Z.to_nat (max_retries (options c) + 1)) with 0%nat by lia.
  cbn [LogTideClient_.retry_loop]. unfold ret at 1.
  rewrite trips_check_eq by assumption.
  destruct c as [o bf tr bl ml m cb lw ft cl]. cbn.
  destruct (CircuitState_eqb _ _); [ destruct (Qle_bool _ _) | ];
    eexists _, _; (split; [ reflexivity | ]); cbn; repeat split.
Qed.

Lemma negative_max_retries_loses_batch_witness :
  exists c' w',
    LogTideClient_._send_logs_with_retry [example_entry]
      (LogTideClient_.init (options_with 100 10000 (-1) 1000 ∅)
         (world_with ms_clock (fun _ => true)))
    = (Ret tt, (c', w')) /\
    posts w' = [] /\ logs_sent (_metrics c') = 0 /\ logs_dropped (_metrics c') = 0.
Proof.
  destruct (negative_max_retries_loses_batch [example_entry]
              (fst (LogTideClient_.init (options_with 100 10000 (-1) 1000 ∅)
                      (world_with ms_clock (fun _ => true))))
              (snd (LogTideClient_.init (options_with 100 10000 (-1) 1000 ∅)
                      (world_with ms_clock (fun _ => true)))))
    as (c' & w' & Hrun & Hp & _ & Hs & Hd & _);
    [ repeat split | reflexivity | ].
  exists c', w'. repeat apply conj; [ exact Hrun | exact Hp | exact Hs | exact Hd ].
Defined.

(** ** Scenarios of the retry loop *)

(** [j] turns in a row whose POST fails, none of which uses up the attempts
    or reaches the breaker's threshold: the loop goes on from attempt
    [attempt + j] with the delay doubled [j] times. *)
Lemma retry_loop_failures (logs : list LogEntry) (j : nat) :
  forall (n : nat) (attempt : Z) (delay : Q) (c : LogTideClient) (w : World),
    quiescent c ->
    _state (_circuit_breaker c) <> OPEN ->
    (forall i, (i < j)%nat -> post_ok w (length (posts w) + i) = false) ->
    attempt + Z.of_nat j <= max_retries (options c) ->
    _failure_count (_circuit_breaker c) + Z.of_nat j
      < threshold (_circuit_breaker c) ->
    (forall k, (k < j)%nat -> sleepable (backoff delay k) = true) ->
    exists c' w',
      LogTideClient_.retry_loop (j + n) logs attempt delay (c, w)
      = LogTideClient_.retry_loop n logs (attempt + Z.of_nat j) (backoff delay j)
          (c', w') /\
      quiescent c' /\
      options c' = options c /\ _buffer c' = _buffer c /\
      _closed c' = _closed c /\ _latency_window c' = _latency_window c /\
      _state (_circuit_breaker c') = _state (_circuit_breaker c) /\
      threshold (_circuit_breaker c') = threshold (_circuit_breaker c) /\
      reset_timeout_ms (_circuit_breaker c')
        = reset_timeout_ms (_circuit_breaker c) /\
      _failure_count (_circuit_breaker c')
        = _failure_count (_circuit_breaker c) + Z.of_nat j /\
      clock w' = clock w /\ post_ok w' = post_ok w /\
      ticks w' = (ticks w + 2 * j)%nat /\
      posts w' = posts w ++ repeat logs j /\
      sleeps w' = sleeps w ++ map (backoff delay) (seq 0 j) /\
      errors (_metrics c') = errors (_metrics c) + Z.of_nat j /\
      retries (_metrics c') = retries (_metrics c) + Z.of_nat j /\
      logs_sent (_metrics c') = logs_sent (_metrics c) /\
      logs_dropped (_metrics c') = logs_dropped (_metrics c) /\
      circuit_breaker_trips (_metrics c') = circuit_breaker_trips (_metrics c).
Proof.
  induction j as [|j IH]; intros n attempt delay c w Hq Hst Hpost Hatt Hfc Hsl.
  - exists c, w. cbn [Nat.add backoff seq map repeat Z.of_nat].
    rewrite !Z.add_0_r, !app_nil_r, Nat.mul_0_r, Nat.add_0_r.
    repeat apply conj; try reflexivity; apply Hq.
  - cbn [Nat.add]. rewrite retry_loop_S. cbn [fst].
    replace (attempt <=? max_retries (options c)) with true
      by (symmetry; apply Z.leb_le; lia).
    rewrite attempt_once_fail; try assumption; try lia;
      [ | rewrite <- (Nat.add_0_r (length (posts w))); apply Hpost; lia
        | intros _; apply (Hsl 0%nat); lia ].
    replace (attempt + 1 <=? max_retries (options c)) with true
      by (symmetry; apply Z.leb_le; lia).
    match goal with
    | |- context [LogTideClient_.retry_loop (j + n) logs ?a ?d (?c1, ?w1)] =>
        destruct (IH n a d c1 w1)
          as (c' & w' & Hrun & Hq' & Ho & Hbf & Hcl & Hlw & Hst' & Ht & HT & Hfc'
                & Hck & Hok & Htk & Hp & Hs & He & Hr & Hsent & Hd & Htr)
    end.
    + destruct Hq as (Hb & Hm & Hl).
      destruct c as [o bf tr bl ml m cb lw ft cl]. unfold quiescent.
      destruct cb; cbn in *. repeat apply conj; assumption.
    + destruct c as [o bf tr bl ml m cb lw ft cl]; destruct cb; exact Hst.
    + intros i Hi. cbn [posts add_sleep tick add_post post_ok].
      rewrite length_app. cbn [length].
      replace (length (posts w) + 1 + i)%nat with (length (posts w) + S i)%nat
        by lia.
      apply Hpost. lia.
    + destruct c; cbn in *. lia.
    + destruct c as [o bf tr bl ml m cb lw ft cl]; destruct cb; cbn in *. lia.
    + intros k Hk. apply (Hsl (S k)). lia.
    + exists c', w'. split.
      { rewrite Hrun. f_equal. lia. }
      destruct Hq' as (Hb' & Hm' & Hl').
      rewrite map_backoff_succ.
      destruct c as [o bf tr bl ml m cb lw ft cl].
      destruct cb as [t T st fc last lk].
      cbn in Ho, Hbf, Hcl, Hlw, Hst', Ht, HT, Hfc', Hck, Hok, Htk, Hp, Hs, He,
             Hr, Hsent, Hd, Htr.
      cbn. unfold quiescent.
      rewrite Hp, Hs, He, Hr, Hsent, Hd, Htr, Hfc', Htk.
      repeat apply conj; try assumption; try reflexivity; try lia.
      * rewrite <- List.app_assoc. reflexivity.
      * rewrite <- List.app_assoc. reflexivity.
Qed.

(** X4. A transport that fails j times and then succeeds, with j at most
    max_retries, a breaker that is not OPEN and stays below its threshold,
    retry_delay_ms not negative and the largest of the j delays within
    the range of [time.sleep]: the pipeline returns after j + 1 POSTs of
    the same batch,
    having slept d * 2^k before retry k + 1 (k < j, d = retry_delay_ms /
    1000 s); errors and retries grow by j, logs_sent by the batch size,
    logs_dropped and circuit_breaker_trips keep their values, and the
    breaker ends CLOSED with failure_count 0. *)
Theorem transient_failures_then_delivery (logs : list LogEntry) (j : nat)
    (c : LogTideClient) (w : World) :
  quiescent c ->
  _state (_circuit_breaker c) <> OPEN ->
  Z.of_nat j <= max_retries (options c) ->
  _failure_count (_circuit_breaker c) + Z.of_nat j
    < threshold (_circuit_breaker c) ->
  (forall i, (i < j)%nat -> post_ok w (length (posts w) + i) = false) ->
  post_ok w (length (posts w) + j) = true ->
  0 <= retry_delay_ms (options c) ->
  retry_delay_ms (options c) * 1000000 * 2 ^ (Z.of_nat j - 1) <= PyTime_MAX ->
  let d := (inject_Z (retry_delay_ms (options c)) / 1000)%Q in
  exists c' w' ds,
    LogTideClient_._send_logs_with_retry logs (c, w) = (Ret tt, (c', w')) /\
    posts w' = posts w ++ repeat logs (S j) /\
    sleeps w' = sleeps w ++ ds /\
    Forall2 Qeq ds (map (fun k => d * inject_Z (2 ^ Z.of_nat k))%Q (seq 0 j)) /\
    errors (_metrics c') = errors (_metrics c) + Z.of_nat j /\
    retries (_metrics c') = retries (_metrics c) + Z.of_nat j /\
    logs_sent (_metrics c') = logs_sent (_metrics c) + Z.of_nat (length logs) /\
    logs_dropped (_metrics c') = logs_dropped (_metrics c) /\
    circuit_breaker_trips (_metrics c') = circuit_breaker_trips (_metrics c) /\
    _state (_circuit_breaker c') = CLOSED /\
    _failure_count (_circuit_breaker c') = 0 /\
    _buffer c' = _buffer c /\
    quiescent c'.
Proof.
  intros Hq Hst Hj Hfc Hfail Hok Hms Hfit d.
  rewrite send_logs_with_retry_eq. cbn [fst]. fold d.
  replace (Z.to_nat (max_retries (options c) + 1))
    with (j + S (Z.to_nat (max_retries (options c)) - j))%nat by lia.
  destruct (retry_loop_failures logs j (S (Z.to_nat (max_retries (options c)) - j))
              0 d c w Hq Hst Hfail)
    as (c1 & w1 & Hrun & Hq1 & Ho & Hbf & Hcl & Hlw & Hst1 & Ht & HT & Hfc1
          & Hck & Hpok & Htk & Hp & Hs & He & Hr & Hsent & Hd & Htr);
    [ lia | lia
    | intros k Hk; subst d; apply (delays_sleepable _ j); assumption | ].
  assert (Hok1 : post_ok w1 (length (posts w1)) = true)
    by (rewrite Hpok, Hp, length_app, repeat_length; exact Hok).
  rewrite Hrun, retry_loop_S. cbn [fst]. rewrite Ho.
  replace (0 + Z.of_nat j <=? max_retries (options c)) with true
    by (symmetry; apply Z.leb_le; lia).
  rewrite attempt_once_ready by (try assumption; congruence). cbn zeta.
  rewrite Hok1.
  eexists _, _, (map (backoff d) (seq 0 j)). split; [ reflexivity | ].
  destruct Hq1 as (Hb1 & Hm1 & Hl1).
  destruct c1 as [o1 bf1 tr1 bl1 ml1 m1 cb1 lw1 ft1 cl1].
  destruct cb1 as [t1 T1 st1 fc1 last1 lk1].
  cbn in Hb1, Hm1, Hl1, Ho, Hbf, Hcl, Hlw, Hst1, Ht, HT, Hfc1, He, Hr, Hsent,
         Hd, Htr.
  cbn [posts tick add_post sleeps _metrics set__metrics add_logs_sent
       set_avg_latency_ms errors retries logs_sent logs_dropped
       circuit_breaker_trips _circuit_breaker set__latency_window
       set__circuit_breaker set__state set__failure_count _state
       _failure_count _buffer _buffer_lock _metrics_lock _lock quiescent].
  unfold quiescent. cbn.
  rewrite ?He, ?Hr, ?Hsent, ?Hd, ?Htr.
  repeat apply conj; try assumption; try reflexivity.
  - rewrite Hp, <- List.app_assoc. f_equal.
    symmetry. apply (repeat_cons j logs).
  - clear. induction (seq 0 j) as [|k l IH]; cbn [map]; constructor;
      [ apply backoff_pow | exact IH ].
  - destruct st1; try reflexivity.
    exfalso. apply Hst. symmetry. exact Hst1.
Qed.

(** X5. When the j-th failure of a cycle (j at most max_retries) brings
    failure_count to the threshold, the pipeline still counts a retry and
    sleeps the backoff after it; the next turn then finds the breaker OPEN
    and drops the batch without calling the transport.  With
    retry_delay_ms not negative, the largest of the j delays within the
    range of [time.sleep], and the breaker still reading OPEN at both
    reads after that failure: j POSTs, j sleeps,
    errors and retries grown by j, logs_dropped by the batch size,
    circuit_breaker_trips by 1, logs_sent unchanged. *)
Theorem breaker_opening_mid_cycle_refuses_retry (logs : list LogEntry) (j : nat)
    (c : LogTideClient) (w : World) :
  quiescent c ->
  _state (_circuit_breaker c) <> OPEN ->
  (1 <= j)%nat ->
  Z.of_nat j <= max_retries (options c) ->
  _failure_count (_circuit_breaker c) + Z.of_nat j
    = threshold (_circuit_breaker c) ->
  (forall i, (i < j)%nat -> post_ok w (length (posts w) + i) = false) ->
  let T := inject_Z (reset_timeout_ms (_circuit_breaker c)) in
  let opened := clock w (ticks w + 2 * j - 1)%nat in
  Qle_bool T ((clock w (ticks w + 2 * j)%nat - opened) * 1000)%Q = false ->
  Qle_bool T ((clock w (ticks w + 2 * j + 1)%nat - opened) * 1000)%Q = false ->
  0 <= retry_delay_ms (options c) ->
  retry_delay_ms (options c) * 1000000 * 2 ^ (Z.of_nat j - 1) <= PyTime_MAX ->
  let d := (inject_Z (retry_delay_ms (options c)) / 1000)%Q in
  exists c' w' ds,
    LogTideClient_._send_logs_with_retry logs (c, w) = (Ret tt, (c', w')) /\
    posts w' = posts w ++ repeat logs j /\
    sleeps w' = sleeps w ++ ds /\
    Forall2 Qeq ds (map (fun k => d * inject_Z (2 ^ Z.of_nat k))%Q (seq 0 j)) /\
    errors (_metrics c') = errors (_metrics c) + Z.of_nat j /\
    retries (_metrics c') = retries (_metrics c) + Z.of_nat j /\
    logs_sent (_metrics c') = logs_sent (_metrics c) /\
    logs_dropped (_metrics c')
      = logs_dropped (_metrics c) + Z.of_nat (length logs) /\
    circuit_breaker_trips (_metrics c')
      = circuit_breaker_trips (_metrics c) + 1 /\
    _state (_circuit_breaker c') = OPEN /\
    _buffer c' = _buffer c /\
    quiescent c'.
Proof.
  intros Hq Hst Hj1 Hj Hfc Hfail T opened Hread1 Hread2 Hms Hfit d.
  destruct j as [|j]; [ lia | ].
  assert (Hsl : forall k, (k < S j)%nat -> sleepable (backoff d k) = true)
    by (intros k Hk; subst d; apply (delays_sleepable _ (S j)); assumption).
  rewrite send_logs_with_retry_eq. cbn [fst]. fold d.
  replace (Z.to_nat (max_retries (options c) + 1))
    with (j + S (S (Z.to_nat (max_retries (options c)) - S j)))%nat by lia.
  destruct (retry_loop_failures logs j
              (S (S (Z.to_nat (max_retries (options c)) - S j))) 0 d c w Hq Hst)
    as (c1 & w1 & Hrun & Hq1 & Ho & Hbf & Hcl & Hlw & Hst1 & Ht & HT & Hfc1
          & Hck & Hpok & Htk & Hp & Hs & He & Hr & Hsent & Hd & Htr);
    [ intros i Hi; apply Hfail; lia | lia | lia
    | intros k Hk; apply Hsl; lia | ].
  rewrite Hrun. clear Hrun.
  (* the failure that opens the breaker *)
  rewrite retry_loop_S. cbn [fst]. rewrite Ho.
  replace (0 + Z.of_nat j <=? max_retries (options c)) with true
    by (symmetry; apply Z.leb_le; lia).
  rewrite attempt_once_ready
    by (try assumption; try congruence; intros _ _; apply Hsl; lia).
  cbn zeta.
  replace (post_ok w1 (length (posts w1))) with false
    by (rewrite Hpok, Hp, length_app, repeat_length; symmetry; apply Hfail; lia).
  rewrite Ho, Hfc1, Ht.
  replace (_failure_count (_circuit_breaker c) + Z.of_nat j + 1
           >=? threshold (_circuit_breaker c)) with true
    by (symmetry; rewrite Z.geb_leb; apply Z.leb_le; lia).
  replace (0 + Z.of_nat j + 1 <=? max_retries (options c)) with true
    by (symmetry; apply Z.leb_le; lia).
  (* the turn that finds it open *)
  rewrite retry_loop_S. cbn [fst].
  destruct Hq1 as (Hb1 & Hm1 & Hl1).
  destruct c1 as [o1 bf1 tr1 bl1 ml1 m1 cb1 lw1 ft1 cl1].
  destruct cb1 as [t1 T1 st1 fc1 last1 lk1].
  cbn in Hb1, Hm1, Hl1, Ho, Hbf, Hcl, Hlw, Hst1, Ht, HT, Hfc1, He, Hr, Hsent,
         Hd, Htr.
  subst bl1 ml1 lk1 o1 T1.
  cbn [options set__metrics set__circuit_breaker].
  replace (0 + Z.of_nat j + 1 <=? max_retries (options c)) with true
    by (symmetry; apply Z.leb_le; lia).
  assert (Hi1 : S (ticks w1) = (ticks w + 2 * S j - 1)%nat) by lia.
  assert (Hi2 : S (S (ticks w1)) = (ticks w + 2 * S j)%nat) by lia.
  assert (Hi3 : S (S (S (ticks w1))) = (ticks w + 2 * S j + 1)%nat) by lia.
  rewrite attempt_once_open;
    [ | repeat split
      | split; [ reflexivity | ];
        unfold time_since_failure; project; rewrite Hck, Hi2, Hi1;
        exact Hread1 ].
  rewrite trips_check_eq by (repeat split).
  cbn [_circuit_breaker set__metrics _state set__state CircuitState_eqb
       reset_timeout_ms set__last_failure_time set__failure_count].
  replace (Qle_bool _ _) with false
    by (symmetry; unfold time_since_failure; project; rewrite Hck, Hi3, Hi1;
        exact Hread2).
  eexists _, _, (map (backoff d) (seq 0 (S j))). split; [ reflexivity | ].
  unfold quiescent. project.
  rewrite ?He, ?Hr, ?Hsent, ?Hd, ?Htr, ?Hp, ?Hs.
  repeat apply conj; try assumption; try reflexivity; try lia.
  - rewrite <- List.app_assoc. f_equal. symmetry. apply (repeat_cons j logs).
  - rewrite seq_S, map_app, <- List.app_assoc. reflexivity.
  - clear. induction (seq 0 (S j)) as [|k l IH]; cbn [map]; constructor;
      [ apply backoff_pow | exact IH ].
Qed.

(** X6. Recovery.  A batch handed to the pipeline when the breaker is OPEN
    and its reset timeout has elapsed is not dropped: the state read moves
    the breaker to HALF_OPEN, the POST is made, and when it succeeds the
    breaker is CLOSED with failure_count 0, logs_sent has grown by the
    batch size, no other counter has moved, and the latency of that POST
    (between the second and the third reading of the clock) is in the
    window. *)
Theorem half_open_trial_success_closes (logs : list LogEntry)
    (c : LogTideClient) (w : World) :
  quiescent c ->
  0 <= max_retries (options c) ->
  _state (_circuit_breaker c) = OPEN ->
  Qle_bool (inject_Z (reset_timeout_ms (_circuit_breaker c)))
           (time_since_failure (_circuit_breaker c) w) = true ->
  post_ok w (length (posts w)) = true ->
  exists c' w',
    LogTideClient_._send_logs_with_retry logs (c, w) = (Ret tt, (c', w')) /\
    posts w' = posts w ++ [logs] /\ sleeps w' = sleeps w /\
    ticks w' = (ticks w + 3)%nat /\
    logs_sent (_metrics c') = logs_sent (_metrics c) + Z.of_nat (length logs) /\
    logs_dropped (_metrics c') = logs_dropped (_metrics c) /\
    errors (_metrics c') = errors (_metrics c) /\
    retries (_metrics c') = retries (_metrics c) /\
    circuit_breaker_trips (_metrics c') = circuit_breaker_trips (_metrics c) /\
    _state (_circuit_breaker c') = CLOSED /\
    _failure_count (_circuit_breaker c') = 0 /\
    _latency_window c'
      = roll (_latency_window c
              ++ [(clock w (ticks w + 2)%nat - clock w (ticks w + 1)%nat) * 1000])%Q /\
    quiescent c'.
Proof.
  intros Hq Hmr Hst Helapsed Hok.
  rewrite send_logs_with_retry_eq. cbn [fst].
  replace (Z.to_nat (max_retries (options c) + 1))
    with (S (Z.to_nat (max_retries (options c)))) by lia.
  rewrite retry_loop_S. cbn [fst].
  replace (0 <=? max_retries (options c)) with true
    by (symmetry; apply Z.leb_le; lia).
  rewrite attempt_once_after_read by (try assumption; right; assumption).
  unfold after_state_read. rewrite Hst, Helapsed. cbn [CircuitState_eqb].
  destruct Hq as (Hb & Hm & Hl).
  destruct c as [o bf tr bl ml m cb lw ft cl].
  destruct cb as [t T st fc last lk].
  cbn in Hb, Hm, Hl, Hst, Hmr. subst.
  rewrite attempt_once_ready
    by (first [ repeat split; discriminate
              | project; rewrite Hok; discriminate ]).
  cbn zeta.
  project. rewrite Hok.
  eexists _, _. split; [ reflexivity | ].
  unfold quiescent. project.
  replace (ticks w + 2)%nat with (S (S (ticks w))) by lia.
  replace (ticks w + 1)%nat with (S (ticks w)) by lia.
  replace (ticks w + 3)%nat with (S (S (S (ticks w)))) by lia.
  repeat apply conj; reflexivity.
Qed.

Lemma transient_failures_then_delivery_witness :
  exists c' w' ds,
    LogTideClient_._send_logs_with_retry [example_entry] (fst flaky, snd flaky)
    = (Ret tt, (c', w')) /\
    posts w' = [[example_entry]; [example_entry]; [example_entry]] /\
    sleeps w' = ds /\
    Forall2 Qeq ds [(100 # 1000)%Q; (200 # 1000)%Q] /\
    errors (_metrics c') = 2 /\ retries (_metrics c') = 2 /\
    logs_sent (_metrics c') = 1 /\ logs_dropped (_metrics c') = 0.
Proof.
  assert (Hq : quiescent (fst flaky)) by (vm_compute; repeat split).
  assert (Hst : _state (_circuit_breaker (fst flaky)) <> OPEN) by discriminate.
  assert (Hj : Z.of_nat 2 <= max_retries (options (fst flaky)))
    by (vm_compute; discriminate).
  assert (Hfc : _failure_count (_circuit_breaker (fst flaky)) + Z.of_nat 2
                < threshold (_circuit_breaker (fst flaky))) by reflexivity.
  assert (Hfail : forall i, (i < 2)%nat ->
                    post_ok (snd flaky) (length (posts (snd flaky)) + i) = false).
  { intros [|[|i]] Hi; [ reflexivity | reflexivity | lia ]. }
  assert (Hms : 0 <= retry_delay_ms (options (fst flaky)))
    by (vm_compute; discriminate).
  assert (Hfit : retry_delay_ms (options (fst flaky)) * 1000000
                 * 2 ^ (Z.of_nat 2 - 1) <= PyTime_MAX)
    by (vm_compute; discriminate).
  destruct (transient_failures_then_delivery [example_entry] 2
              (fst flaky) (snd flaky) Hq Hst Hj Hfc Hfail eq_refl Hms Hfit)
    as (c' & w' & ds & Hrun & Hp & Hs & Hds & He & Hr & Hsent & Hd & _).
  exists c', w', ds.
  repeat apply conj;
    [ exact Hrun | exact Hp | exact Hs | exact Hds | exact He | exact Hr
    | exact Hsent | exact Hd ].
Defined.

Lemma breaker_opening_mid_cycle_refuses_retry_witness :
  exists c' w',
    LogTideClient_._send_logs_with_retry [example_entry]
      (fst failing_to_threshold, snd failing_to_threshold)
    = (Ret tt, (c', w')) /\
    length (posts w') = 5%nat /\ length (sleeps w') = 5%nat /\
    errors (_metrics c') = 5 /\ retries (_metrics c') = 5 /\
    logs_dropped (_metrics c') = 1 /\ circuit_breaker_trips (_metrics c') = 1.
Proof.
  assert (Hq : quiescent (fst failing_to_threshold)) by (vm_compute; repeat split).
  assert (Hst : _state (_circuit_breaker (fst failing_to_threshold)) <> OPEN)
    by discriminate.
  assert (Hj : Z.of_nat 5 <= max_retries (options (fst failing_to_threshold)))
    by (vm_compute; discriminate).
  assert (Hfail : forall i, (i < 5)%nat ->
                    post_ok (snd failing_to_threshold)
                      (length (posts (snd failing_to_threshold)) + i) = false)
    by (intros; reflexivity).
  assert (Hms : 0 <= retry_delay_ms (options (fst failing_to_threshold)))
    by (vm_compute; discriminate).
  assert (Hfit : retry_delay_ms (options (fst failing_to_threshold)) * 1000000
                 * 2 ^ (Z.of_nat 5 - 1) <= PyTime_MAX)
    by (vm_compute; discriminate).
  destruct (breaker_opening_mid_cycle_refuses_retry [example_entry] 5
              (fst failing_to_threshold) (snd failing_to_threshold)
              Hq Hst ltac:(lia) Hj eq_refl Hfail eq_refl eq_refl Hms Hfit)
    as (c' & w' & ds & Hrun & Hp & Hs & Hds & He & Hr & _ & Hd & Htr & _).
  exists c', w'.
  repeat apply conj;
    [ exact Hrun | rewrite Hp; reflexivity
    | rewrite Hs, length_app, (Forall2_length _ _ _ Hds); reflexivity
    | exact He | exact Hr | exact Hd | exact Htr ].
Defined.

Lemma half_open_trial_success_closes_witness :
  exists c' w',
    LogTideClient_._send_logs_with_retry [example_entry]
      (fst (tripped_with late_clock), snd (tripped_with late_clock))
    = (Ret tt, (c', w')) /\
    posts w' = [[example_entry]] /\
    logs_sent (_metrics c') = 1 /\
    _state (_circuit_breaker c') = CLOSED /\
    _failure_count (_circuit_breaker c') = 0.
Proof.
  assert (Hq : quiescent (fst (tripped_with late_clock)))
    by (vm_compute; repeat split).
  assert (Hmr : 0 <= max_retries (options (fst (tripped_with late_clock))))
    by (vm_compute; discriminate).
  destruct (half_open_trial_success_closes [example_entry]
              (fst (tripped_with late_clock)) (snd (tripped_with late_clock))
              Hq Hmr eq_refl eq_refl eq_refl)
    as (c' & w' & Hrun & Hp & _ & _ & Hsent & _ & _ & _ & _ & Hst & Hfc & _).
  exists c', w'.
  repeat apply conj; [ exact Hrun | exact Hp | exact Hsent | exact Hst | exact Hfc ].
Defined.

(** ** Logging *)

Lemma log_open_exact (e : LogEntry) (c : LogTideClient) (w : World) :
  _closed c = false ->
  LogTideClient_.log e (c, w) =
  LogTideClient_.with_buffer_lock
    (buf <- gets _buffer ;;
     max_buffer_size <- gets (max_buffer_size ∘ options) ;;
     if Z.of_nat (length buf) >=? max_buffer_size then
       LogTideClient_.with_metrics_lock
         (LogTideClient_.update_metrics (add_logs_dropped 1)) ;;
       raise (BufferFullError "Log buffer is full")
     else
       modify (fun c0 => set__buffer (_buffer c0 ++ [stamped c w e]) c0) ;;
       buf <- gets _buffer ;;
       batch_size <- gets (batch_size ∘ options) ;;
       if Z.of_nat (length buf) >=? batch_size
       then LogTideClient_.flush else ret tt)
    (c, if needs_uuid c e then next_uuid w else w).
Proof.
  intros Hc. unfold LogTideClient_.log, stamped, needs_uuid.
  unfold bind at 1, gets at 1. cbn [fst]. rewrite Hc.
  destruct e as [sv lv msg tm md tid].
  pose proof (dict_truthy_union md (global_metadata (options c))) as Hu.
  cbn [service level message time metadata trace_id].
  destruct tid as [t|]; [ | destruct (auto_trace_id (options c)) eqn:Ha;
                            [ | destruct (_trace_id c) eqn:Ht ] ].
  all: unfold bind at 1; run_m;
    repeat progress (try rewrite Ha; try rewrite Ht; cbv beta iota; run_m).
  all: destruct (dict_truthy (global_metadata (options c)));
    try rewrite <- Hu; reflexivity.
Qed.

(** An append that fills neither the buffer nor a batch. *)
Lemma log_appends (e : LogEntry) (c : LogTideClient) (w : World) :
  _closed c = false ->
  _buffer_lock c = false ->
  Z.of_nat (length (_buffer c)) < max_buffer_size (options c) ->
  Z.of_nat (length (_buffer c)) + 1 < batch_size (options c) ->
  LogTideClient_.log e (c, w) =
  (Ret tt,
   (set__buffer (_buffer c ++ [stamped c w e]) c,
    if needs_uuid c e then next_uuid w else w)).
Proof.
  intros Hc Hb Hmax Hbatch. rewrite log_open_exact by assumption.
  unfold LogTideClient_.with_buffer_lock. run_m. rewrite Hb.
  replace (Z.of_nat (length (_buffer c)) >=? max_buffer_size (options c))
    with false by (symmetry; rewrite Z.geb_leb; apply Z.leb_gt; lia).
  cbv beta iota. run_m.
  replace (Z.of_nat (length (_buffer c ++ [stamped c w e])) >=? batch_size (options c))
    with false
    by (symmetry; rewrite Z.geb_leb; apply Z.leb_gt;
        rewrite length_app; cbn [length]; lia).
  destruct c as [o bf tr bl ml m cb lw ft cl]. cbn in Hb. subst. reflexivity.
Qed.

Lemma stamped_stored_like (c : LogTideClient) (w : World) (e : LogEntry) :
  stored_like c w e (stamped c w e).
Proof.
  unfold stored_like, stamped. cbn.
  repeat apply conj; try reflexivity.
  destruct (trace_id e); [ reflexivity | ].
  destruct (auto_trace_id (options c)); [ eexists; reflexivity | reflexivity ].
Qed.

Lemma stored_like_ext (c c' : LogTideClient) (w w' : World) (e e' : LogEntry) :
  options c' = options c -> _trace_id c' = _trace_id c -> uuid4 w' = uuid4 w ->
  stored_like c' w' e e' -> stored_like c w e e'.
Proof.
  unfold stored_like. intros -> -> ->. tauto.
Qed.

(** X7. Logging a sequence of entries on an open client, as long as the
    buffer stays within max_buffer_size and below batch_size: every call
    returns, the entries are appended in the order of the calls without
    loss, each with its service, level, message and time, its metadata over
    the global metadata, and its trace id (its own, else a drawn uuid under
    auto_trace_id, else the client's); nothing else in the client changes
    and nothing is sent. *)
Theorem logging_appends_in_order (es : list LogEntry) (c : LogTideClient)
    (w : World) :
  _closed c = false ->
  _buffer_lock c = false ->
  Z.of_nat (length (_buffer c) + length es) <= max_buffer_size (options c) ->
  Z.of_nat (length (_buffer c) + length es) < batch_size (options c) ->
  exists es' w',
    each LogTideClient_.log es (c, w)
    = (Ret tt, (set__buffer (_buffer c ++ es') c, w')) /\
    Forall2 (stored_like c w) es es' /\
    length es' = length es /\
    posts w' = posts w /\ sleeps w' = sleeps w /\ uuid4 w' = uuid4 w.
Proof.
  revert c w. induction es as [|e es IH]; intros c w Hc Hb Hmax Hbatch.
  - exists [], w. cbn [each]. unfold ret. rewrite app_nil_r.
    repeat apply conj; try reflexivity; [ | constructor ].
    destruct c; reflexivity.
  - cbn [each length] in *. unfold bind at 1.
    rewrite log_appends by (try assumption; lia).
    match goal with
    | |- context [each _ es (?c1, ?w1)] =>
        destruct (IH c1 w1) as (es' & w' & Hrun & Hall & Hlen & Hp & Hs & Hu)
    end.
    + destruct c; exact Hc.
    + destruct c; exact Hb.
    + destruct c; cbn in *. rewrite length_app. cbn [length]. lia.
    + destruct c; cbn in *. rewrite length_app. cbn [length]. lia.
    + exists (stamped c w e :: es'), w'. rewrite Hrun.
      repeat apply conj.
      * destruct c; cbn. rewrite <- List.app_assoc. reflexivity.
      * constructor; [ apply stamped_stored_like | ].
        eapply Forall2_impl; [ exact Hall | ].
        intros x y Hxy. eapply stored_like_ext; [ | | | exact Hxy ].
        -- destruct c; reflexivity.
        -- destruct c; reflexivity.
        -- destruct (needs_uuid c e); reflexivity.
      * cbn [length]. rewrite Hlen. reflexivity.
      * rewrite Hp. destruct (needs_uuid c e); reflexivity.
      * rewrite Hs. destruct (needs_uuid c e); reflexivity.
      * rewrite Hu. destruct (needs_uuid c e); reflexivity.
Qed.

(** X8. No logging call ever reaches the transport: whatever the state of
    the client and of its locks, and whether [log] returns, raises or
    blocks, no batch is handed to the transport, nothing sleeps, and
    logs_sent, errors and retries keep their values; the buffer grows by at
    most the one entry and logs_dropped by at most 1. *)
Theorem log_never_reaches_transport (e : LogEntry) (c : LogTideClient)
    (w : World) :
  let s' := snd (LogTideClient_.log e (c, w)) in
  posts (snd s') = posts w /\
  sleeps (snd s') = sleeps w /\
  logs_sent (_metrics (fst s')) = logs_sent (_metrics c) /\
  errors (_metrics (fst s')) = errors (_metrics c) /\
  retries (_metrics (fst s')) = retries (_metrics c) /\
  (logs_dropped (_metrics (fst s')) = logs_dropped (_metrics c) \/
   logs_dropped (_metrics (fst s')) = logs_dropped (_metrics c) + 1) /\
  (_buffer (fst s') = _buffer c \/
   exists e', _buffer (fst s') = _buffer c ++ [e']).
Proof.
  cbn zeta. destruct (_closed c) eqn:Hc.
  - rewrite log_closed by assumption. cbn [fst snd].
    repeat apply conj; try reflexivity; left; reflexivity.
  - rewrite log_open_exact by assumption.
    assert (Hw : posts (if needs_uuid c e then next_uuid w else w) = posts w /\
                 sleeps (if needs_uuid c e then next_uuid w else w) = sleeps w)
      by (destruct (needs_uuid c e); split; reflexivity).
    destruct Hw as (Hp & Hs).
    set (w1 := if needs_uuid c e then next_uuid w else w) in *.
    unfold LogTideClient_.with_buffer_lock, LogTideClient_.with_metrics_lock,
      LogTideClient_.update_metrics.
    run_m.
    destruct c as [o bf tr bl ml m cb lw ft cl]. cbn in Hc. subst cl.
    project.
    destruct bl; project.
    { repeat apply conj; try assumption; try reflexivity; left; reflexivity. }
    destruct (Z.of_nat (length bf) >=? max_buffer_size o); project.
    { destruct ml; project;
        repeat apply conj; try assumption; try reflexivity;
        first [ left; reflexivity | right; reflexivity ]. }
    destruct (Z.of_nat (length (bf ++ [_])) >=? batch_size o); project.
    + rewrite flush_blocks by reflexivity. project.
      repeat apply conj; try assumption; try reflexivity;
        first [ left; reflexivity | right; eexists; reflexivity ].
    + repeat apply conj; try assumption; try reflexivity;
        first [ left; reflexivity | right; eexists; reflexivity ].
Qed.

Lemma logging_appends_in_order_witness :
  exists es' w',
    each LogTideClient_.log [example_entry; meta_entry]
      (fst meta_client, snd meta_client)
    = (Ret tt, (set__buffer es' (fst meta_client), w')) /\
    length es' = 2%nat /\
    Forall2 (stored_like (fst meta_client) (snd meta_client))
      [example_entry; meta_entry] es'.
Proof.
  assert (Hmax : Z.of_nat (length (_buffer (fst meta_client))
                           + length [example_entry; meta_entry])
                 <= max_buffer_size (options (fst meta_client)))
    by (vm_compute; discriminate).
  destruct (logging_appends_in_order [example_entry; meta_entry]
              (fst meta_client) (snd meta_client) eq_refl eq_refl Hmax eq_refl)
    as (es' & w' & Hrun & Hall & Hlen & _).
  exists es', w'. repeat apply conj; [ exact Hrun | exact Hlen | exact Hall ].
Defined.

Lemma or_empty_eq (md : option (gmap string pyval)) :
  LogTideClient_.or_empty md = match md with Some d => d | None => ∅ end.
Proof.
  unfold LogTideClient_.or_empty, dict_truthy. destruct md as [d|]; [ | reflexivity ].
  destruct (Nat.eqb_spec (size d) 0) as [E|E]; cbn [negb]; [ | reflexivity ].
  apply map_size_empty_iff in E. congruence.
Qed.

(** A leveled call builds its entry and hands it to [log]. *)
Lemma run_call_eq (k : leveled_call) (sv msg : string) (c : LogTideClient)
    (w : World) :
  run_call k sv msg (c, w) =
  LogTideClient_.log
    {| service := sv; level := call_level k; message := msg;
       time := Some (utcnow w (utcnows w) +:+ "Z");
       metadata := call_metadata w k; trace_id := None |}
    (c, next_utcnow w).
Proof.
  destruct k as [md|md|md|moe|moe]; cbn [run_call call_level call_metadata].
  1-3: unfold LogTideClient_.debug, LogTideClient_.info, LogTideClient_.warn;
    unfold bind; rewrite LogEntry_init_eq, or_empty_eq; reflexivity.
  all: unfold LogTideClient_.error, LogTideClient_.critical;
    unfold bind at 1;
    destruct moe; cbn [LogTideClient_._process_metadata_or_error];
    run_m; unfold bind; rewrite LogEntry_init_eq; reflexivity.
Qed.



(** ** Trace scopes and logging *)

(** X10. With auto_trace_id off, an entry without a trace id logged inside
    [with_trace_id(id)] is stored with trace id [id], and one logged after
    the scope is stored with the trace id the client had before it; the
    client's trace id is the same before and after. *)
Theorem entries_carry_the_scoped_trace_id (id : string) (e1 e2 : LogEntry)
    (c : LogTideClient) (w : World) :
  _closed c = false ->
  _buffer_lock c = false ->
  auto_trace_id (options c) = false ->
  trace_id e1 = None -> trace_id e2 = None ->
  Z.of_nat (length (_buffer c)) + 2 <= max_buffer_size (options c) ->
  Z.of_nat (length (_buffer c)) + 2 < batch_size (options c) ->
  exists e1' e2',
    (LogTideClient_.with_trace_id id (LogTideClient_.log e1) ;;
     LogTideClient_.log e2) (c, w)
    = (Ret tt, (set__buffer (_buffer c ++ [e1'; e2']) c, w)) /\
    trace_id e1' = Some id /\
    trace_id e2' = _trace_id c /\
    message e1' = message e1 /\ message e2' = message e2.
Proof.
  intros Hc Hb Hauto H1 H2 Hmax Hbatch.
  unfold bind at 1.
  unfold LogTideClient_.with_trace_id, LogTideClient_.set_trace_id,
    LogTideClient_._normalize_trace_id.
  unfold bind at 1, gets at 1. unfold bind at 1, modify at 1.
  cbn [fst snd]. unfold try_finally.
  rewrite log_appends;
    [ | destruct c; assumption | destruct c; assumption
      | destruct c; cbn in *; lia | destruct c; cbn in *; lia ].
  unfold modify. cbn [fst snd].
  rewrite log_appends;
    [ | destruct c; assumption | destruct c; assumption
      | destruct c; cbn in *; rewrite length_app; cbn [length]; lia
      | destruct c; cbn in *; rewrite length_app; cbn [length]; lia ].
  unfold needs_uuid. rewrite H1, H2.
  destruct c as [o bf tr bl ml m cb lw ft cl]. cbn in Hauto. cbn.
  rewrite Hauto.
  eexists _, _. split.
  - rewrite <- List.app_assoc. reflexivity.
  - unfold stamped. cbn. rewrite H1, H2, Hauto. repeat split.
Qed.

Lemma entries_carry_the_scoped_trace_id_witness :
  exists e1' e2',
    (LogTideClient_.with_trace_id "trace-456" (LogTideClient_.log example_entry) ;;
     LogTideClient_.log meta_entry) (fst meta_client, snd meta_client)
    = (Ret tt, (set__buffer [e1'; e2'] (fst meta_client), snd meta_client)) /\
    trace_id e1' = Some "trace-456" /\ trace_id e2' = None.
Proof.
  assert (Hmax : Z.of_nat (length (_buffer (fst meta_client))) + 2
                 <= max_buffer_size (options (fst meta_client)))
    by (vm_compute; discriminate).
  destruct (entries_carry_the_scoped_trace_id "trace-456" example_entry meta_entry
              (fst meta_client) (snd meta_client)
              eq_refl eq_refl eq_refl eq_refl eq_refl Hmax eq_refl)
    as (e1' & e2' & Hrun & H1 & H2 & _).
  exists e1', e2'. repeat apply conj; [ exact Hrun | exact H1 | exact H2 ].
Defined.

(** X11. [with_new_trace_id] draws exactly one uuid, runs the body with it
    as the trace id, and puts the former trace id back when the body
    returns or raises; a scope nested inside another sees the next uuid,
    and the outer uuid is the trace id again once the inner scope is
    left. *)
Theorem with_new_trace_id_scopes :
  (forall (A : Type) (body : M LogTideClient A) (c : LogTideClient) (w : World),
      let inner := body (set__trace_id (Some (uuid4 w (uuids w))) c, next_uuid w) in
      LogTideClient_.with_new_trace_id body (c, w) =
      match fst inner with
      | Hang => inner
      | r => (r, (set__trace_id (_trace_id c) (fst (snd inner)), snd (snd inner)))
      end) /\
  (forall (c : LogTideClient) (w : World),
      LogTideClient_.with_new_trace_id
        (a <- LogTideClient_.with_new_trace_id LogTideClient_.get_trace_id ;;
         b <- LogTideClient_.get_trace_id ;;
         ret (a, b)) (c, w)
      = (Ret (Some (uuid4 w (S (uuids w))), Some (uuid4 w (uuids w))),
         (c, next_uuid (next_uuid w)))).
Proof.
  split.
  - intros A body c w inner.
    unfold LogTideClient_.with_new_trace_id, LogTideClient_.with_trace_id,
      LogTideClient_.set_trace_id, LogTideClient_._normalize_trace_id.
    run_m. subst inner.
    destruct (body (set__trace_id (Some (uuid4 w (uuids w))) c, next_uuid w))
      as [[a|e|] [c1 w1]]; reflexivity.
  - intros c w.
    unfold LogTideClient_.with_new_trace_id, LogTideClient_.with_trace_id,
      LogTideClient_.set_trace_id, LogTideClient_._normalize_trace_id,
      LogTideClient_.get_trace_id.
    run_m. destruct c; reflexivity.
Qed.

(** ** The circuit breaker: [call] and [reset] *)

Lemma reset_eq (b : CircuitBreaker) (w : World) :
  _lock b = false ->
  CircuitBreaker_.reset (b, w) =
  (Ret tt,
   (set__last_failure_time 0%Q (set__failure_count 0 (set__state CLOSED b)), w)).
Proof.
  intros H. destruct b as [t T st fc last lk]. simpl in H. subst lk.
  unfold CircuitBreaker_.reset. run_m. reflexivity.
Qed.

Lemma call_eq {T} (func : M CircuitBreaker T) (b : CircuitBreaker) (w : World) :
  _lock b = false ->
  CircuitBreaker_.call func (b, w) =
  if CircuitState_eqb (_state b) OPEN
     && negb (Qle_bool (inject_Z (reset_timeout_ms b)) (time_since_failure b w))
  then (Raise (CircuitBreakerOpenError "Circuit breaker is open"), (b, tick w))
  else
    match func (breaker_after_read b w) with
    | (Ret a, s1) =>
        match CircuitBreaker_.record_success s1 with
        | (Ret _, s2) => (Ret a, s2)
        | (Raise e, s2) =>
            match CircuitBreaker_.record_failure s2 with
            | (Ret _, s3) => (Raise e, s3)
            | (Raise e', s3) => (Raise e', s3)
            | (Hang, s3) => (Hang, s3)
            end
        | (Hang, s2) => (Hang, s2)
        end
    | (Raise e, s1) =>
        match CircuitBreaker_.record_failure s1 with
        | (Ret _, s2) => (Raise e, s2)
        | (Raise e', s2) => (Raise e', s2)
        | (Hang, s2) => (Hang, s2)
        end
    | (Hang, s1) => (Hang, s1)
    end.
Proof.
  intros H. destruct b as [t T0 st fc last lk]. simpl in H. subst lk.
  unfold CircuitBreaker_.call, CircuitBreaker_._check_half_open,
    breaker_after_read, time_since_failure.
  unfold bind at 1. unfold with_lock at 1. cbn [fst snd _lock].
  unfold try_finally at 1.
  destruct st; cbn [_state CircuitState_eqb andb]; run_m;
    try (destruct (Qle_bool _ _); cbn [negb]; run_m);
    try reflexivity;
    destruct (func _) as [[a|e|] s1]; try reflexivity;
    first [ destruct (CircuitBreaker_.record_success s1) as [[[]|e'|] s2]
          | destruct (CircuitBreaker_.record_failure s1) as [[[]|e'|] s2] ];
    reflexivity.
Qed.

(** X12. [call] on a breaker that reads OPEN raises CircuitBreakerOpenError
    without running the function and leaves the breaker as it is.
    Otherwise it runs the function from the breaker as the state read
    leaves it (HALF_OPEN after the reset timeout): when the function
    returns, [call] returns its value with failure_count 0 and a HALF_OPEN
    breaker CLOSED; when it raises, [call] raises the same exception after
    counting the failure, which opens the breaker once failure_count
    reaches the threshold. *)
Theorem call_guards_the_function {T} (func : M CircuitBreaker T)
    (b : CircuitBreaker) (w : World) :
  _lock b = false ->
  (_state b = OPEN ->
   Qle_bool (inject_Z (reset_timeout_ms b)) (time_since_failure b w) = false ->
   CircuitBreaker_.call func (b, w)
   = (Raise (CircuitBreakerOpenError "Circuit breaker is open"), (b, tick w))) /\
  (_state b <> OPEN \/
   Qle_bool (inject_Z (reset_timeout_ms b)) (time_since_failure b w) = true ->
   forall r b1 w1,
     func (breaker_after_read b w) = (r, (b1, w1)) ->
     _lock b1 = false ->
     CircuitBreaker_.call func (b, w) =
     match r with
     | Ret a =>
         (Ret a,
          (set__state
             (if CircuitState_eqb (_state b1) HALF_OPEN then CLOSED else _state b1)
             (set__failure_count 0 b1), w1))
     | Raise e =>
         (Raise e,
          (set__state
             (if _failure_count b1 + 1 >=? threshold b1 then OPEN else _state b1)
             (set__last_failure_time (clock w1 (ticks w1))
                (set__failure_count (_failure_count b1 + 1) b1)), tick w1))
     | Hang => (Hang, (b1, w1))
     end).
Proof.
  intros Hl. split.
  - intros Hst Hq. rewrite call_eq by assumption. rewrite Hst, Hq. reflexivity.
  - intros Hread r b1 w1 Hfunc Hl1. rewrite call_eq by assumption.
    replace (CircuitState_eqb (_state b) OPEN
             && negb (Qle_bool (inject_Z (reset_timeout_ms b))
                               (time_since_failure b w))) with false.
    + rewrite Hfunc. destruct r as [a|e|].
      * rewrite record_success_eq by assumption. reflexivity.
      * rewrite record_failure_eq by assumption. reflexivity.
      * reflexivity.
    + destruct Hread as [Hne|Hq].
      * destruct (_state b); try reflexivity. congruence.
      * rewrite Hq. cbn [negb]. rewrite andb_false_r. reflexivity.
Qed.

Lemma call_guards_the_function_witness :
  CircuitBreaker_.call (@ret CircuitBreaker nat 7%nat)
    (open_breaker, world_with ms_clock (fun _ => true))
  = (Raise (CircuitBreakerOpenError "Circuit breaker is open"),
     (open_breaker, tick (world_with ms_clock (fun _ => true)))) /\
  CircuitBreaker_.call (@ret CircuitBreaker nat 7%nat) (open_breaker, late_world)
  = (Ret 7%nat, (CircuitBreaker_.init 5 30000, tick late_world)).
Proof.
  split.
  - exact (proj1 (call_guards_the_function (@ret CircuitBreaker nat 7%nat)
                    open_breaker (world_with ms_clock (fun _ => true)) eq_refl)
                 eq_refl eq_refl).
  - exact (proj2 (call_guards_the_function (@ret CircuitBreaker nat 7%nat)
                    open_breaker late_world eq_refl)
                 (or_intror eq_refl) (Ret 7%nat) _ _ eq_refl eq_refl).
Defined.

(** What every action keeps: the configuration, the free lock, a
    failure_count that is not negative, and fewer than threshold failures
    counted whenever the breaker is not OPEN. *)
Lemma cb_act_keeps (a : cb_action) (b : CircuitBreaker) (w : World) :
  1 <= threshold b ->
  _lock b = false ->
  0 <= _failure_count b ->
  (_state b <> OPEN -> _failure_count b < threshold b) ->
  exists b' w',
    cb_act a (b, w) = (Ret tt, (b', w')) /\
    threshold b' = threshold b /\ reset_timeout_ms b' = reset_timeout_ms b /\
    _lock b' = false /\
    0 <= _failure_count b' /\
    (_state b' <> OPEN -> _failure_count b' < threshold b').
Proof.
  intros Ht Hl Hfc Hinv.
  assert (Hfail : exists b' w',
             CircuitBreaker_.record_failure (b, w) = (Ret tt, (b', w')) /\
             threshold b' = threshold b /\
             reset_timeout_ms b' = reset_timeout_ms b /\
             _lock b' = false /\ 0 <= _failure_count b' /\
             (_state b' <> OPEN -> _failure_count b' < threshold b')).
  { rewrite record_failure_eq by assumption. eexists _, _.
    split; [ reflexivity | ].
    destruct b as [t T st fc last lk]; cbn in *.
    rewrite Z.geb_leb. destruct (Z.leb_spec t (fc + 1));
      repeat apply conj; try reflexivity; try assumption; try lia;
      intros; try congruence; lia. }
  assert (Hsucc : exists b' w',
             CircuitBreaker_.record_success (b, w) = (Ret tt, (b', w')) /\
             threshold b' = threshold b /\
             reset_timeout_ms b' = reset_timeout_ms b /\
             _lock b' = false /\ 0 <= _failure_count b' /\
             (_state b' <> OPEN -> _failure_count b' < threshold b')).
  { rewrite record_success_eq by assumption. eexists _, _.
    split; [ reflexivity | ].
    destruct b as [t T st fc last lk]; cbn in *.
    repeat apply conj; try reflexivity; try assumption; try lia. }
  destruct a as [ | | | |ok].
  - exact Hsucc.
  - exact Hfail.
  - cbn [cb_act]. unfold bind. rewrite state_eq by assumption.
    destruct b as [t T st fc last lk]; cbn in *.
    destruct (CircuitState_eqb st OPEN) eqn:Est;
      [ destruct (Qle_bool _ _) | ];
      (eexists _, _; split; [ reflexivity | ]); cbn;
      repeat apply conj; try reflexivity; try assumption; try lia.
  - cbn [cb_act]. rewrite reset_eq by assumption. eexists _, _.
    split; [ reflexivity | ].
    destruct b as [t T st fc last lk]; cbn in *.
    repeat apply conj; try reflexivity; try assumption; try lia.
  - cbn [cb_act]. unfold try_except. rewrite call_eq by assumption.
    destruct (CircuitState_eqb (_state b) OPEN
              && negb (Qle_bool (inject_Z (reset_timeout_ms b))
                                (time_since_failure b w))) eqn:Eref.
    + exists b, (tick w). repeat apply conj; try reflexivity; assumption.
    + assert (Hread : exists b0 w0,
                 breaker_after_read b w = (b0, w0) /\
                 threshold b0 = threshold b /\
                 reset_timeout_ms b0 = reset_timeout_ms b /\
                 _lock b0 = false /\ 0 <= _failure_count b0 /\
                 (_state b0 <> OPEN -> _failure_count b0 < threshold b0) /\
                 _state b0 <> OPEN).
      { unfold breaker_after_read.
        destruct b as [t T st fc last lk]; cbn in *.
        destruct (CircuitState_eqb st OPEN) eqn:Est;
          [ destruct (Qle_bool _ _); [ | discriminate Eref ] | ];
          (eexists _, _; split; [ reflexivity | ]); cbn;
          repeat apply conj; try reflexivity; try assumption; try lia;
          try discriminate.
        intros ->. discriminate Est. }
      destruct Hread as (b0 & w0 & -> & Ht0 & HT0 & Hl0 & Hfc0 & Hinv0 & Hst0).
      destruct ok; unfold ret, raise.
      * rewrite record_success_eq by assumption. eexists _, _.
        split; [ reflexivity | ].
        destruct b0 as [t T st fc last lk]; cbn in *.
        repeat apply conj; try reflexivity; try assumption; try lia.
      * rewrite record_failure_eq by assumption. eexists _, _.
        split; [ reflexivity | ].
        destruct b0 as [t T st fc last lk]; cbn in *.
        rewrite Z.geb_leb. destruct (Z.leb_spec t (fc + 1));
          repeat apply conj; try reflexivity; try assumption; try lia;
          intros; try congruence.
Qed.

(** X13. Along every sequence of record_success, record_failure, state
    reads, reset and guarded calls on a breaker created with a threshold of
    at least 1, every operation returns with the lock free and the
    configuration untouched, failure_count is never negative, and a breaker
    that is not OPEN has counted fewer failures than its threshold. *)
Theorem breaker_counts_below_threshold_unless_open (acts : list cb_action)
    (t T : Z) (w : World) :
  1 <= t ->
  exists b' w',
    each cb_act acts (CircuitBreaker_.init t T, w) = (Ret tt, (b', w')) /\
    threshold b' = t /\ reset_timeout_ms b' = T /\
    _lock b' = false /\
    0 <= _failure_count b' /\
    (_state b' <> OPEN -> _failure_count b' < t).
Proof.
  intros Ht.
  assert (Hgen : forall acts b w,
             1 <= threshold b -> _lock b = false -> 0 <= _failure_count b ->
             (_state b <> OPEN -> _failure_count b < threshold b) ->
             exists b' w',
               each cb_act acts (b, w) = (Ret tt, (b', w')) /\
               threshold b' = threshold b /\
               reset_timeout_ms b' = reset_timeout_ms b /\
               _lock b' = false /\ 0 <= _failure_count b' /\
               (_state b' <> OPEN -> _failure_count b' < threshold b')).
  { clear. induction acts as [|a acts IH]; intros b w Ht Hl Hfc Hinv.
    - exists b, w. repeat apply conj; try reflexivity; assumption.
    - cbn [each]. unfold bind at 1.
      destruct (cb_act_keeps a b w Ht Hl Hfc Hinv)
        as (b1 & w1 & Hrun & Ht1 & HT1 & Hl1 & Hfc1 & Hinv1).
      rewrite Hrun.
      destruct (IH b1 w1) as (b' & w' & Hrun' & Ht' & HT' & Hl' & Hfc' & Hinv');
        try assumption; [ lia | ].
      exists b', w'. rewrite Hrun'.
      repeat apply conj; try reflexivity; try assumption; congruence. }
  destruct (Hgen acts (CircuitBreaker_.init t T) w)
    as (b' & w' & Hrun & Ht' & HT' & Hl' & Hfc' & Hinv');
    cbn; try reflexivity; try lia.
  exists b', w'. cbn in Ht', HT'. rewrite Ht' in Hinv'.
  repeat apply conj; assumption.
Qed.

Lemma breaker_counts_below_threshold_unless_open_witness :
  exists b' w',
    each cb_act [ActFailure; ActFailure; ActCall false; ActState; ActSuccess]
      (CircuitBreaker_.init 3 1000, world_with ms_clock (fun _ => true))
    = (Ret tt, (b', w')) /\
    _lock b' = false /\ 0 <= _failure_count b' /\
    (_state b' <> OPEN -> _failure_count b' < 3).
Proof.
  destruct (breaker_counts_below_threshold_unless_open
              [ActFailure; ActFailure; ActCall false; ActState; ActSuccess]
              3 1000 (world_with ms_clock (fun _ => true)))
    as (b' & w' & Hrun & _ & _ & Hl & Hfc & Hinv); [ lia | ].
  exists b', w'. repeat apply conj; assumption.
Defined.

(** ** The flush timer *)

(** X14. The timer's callback [_auto_flush].  On a closed client it
    returns without flushing and without arming a new timer, and so do
    [_schedule_flush] and [flush]: the client is left exactly as it was.
    On an open client with no lock held (max_retries at least 0,
    retry_delay_ms not negative, the largest delay of a cycle within the
    range of [time.sleep]) it flushes, which empties the buffer, and arms
    a fresh timer of flush_interval / 1000 seconds, started and not
    cancelled. *)
Theorem auto_flush_rearms_only_while_open (c : LogTideClient) (w : World) :
  (_closed c = true ->
   LogTideClient_._auto_flush (c, w) = (Ret tt, (c, w)) /\
   LogTideClient_._schedule_flush (c, w) = (Ret tt, (c, w)) /\
   LogTideClient_.flush (c, w) = (Ret tt, (c, w))) /\
  (_closed c = false -> quiescent c -> 0 <= max_retries (options c) ->
   0 <= retry_delay_ms (options c) ->
   retry_delay_ms (options c) * 1000000 * 2 ^ (max_retries (options c) - 1)
     <= PyTime_MAX ->
   exists c' w',
     LogTideClient_._auto_flush (c, w) = (Ret tt, (c', w')) /\
     _buffer c' = [] /\ _closed c' = false /\
     _flush_timer c'
       = Some {| interval := (inject_Z (flush_interval (options c)) / 1000)%Q;
                 daemon := true; started := true; cancelled := false |}).
Proof.
  split.
  - intros Hc. repeat apply conj.
    + unfold LogTideClient_._auto_flush. unfold bind at 1, gets at 1.
      cbn [fst]. rewrite Hc. reflexivity.
    + unfold LogTideClient_._schedule_flush. unfold bind at 1, gets at 1.
      cbn [fst]. rewrite Hc. reflexivity.
    + apply flush_closed. exact Hc.
  - intros Hc Hq Hmr Hms Hfit. pose proof Hq as (Hb & Hm & Hl).
    unfold LogTideClient_._auto_flush. unfold bind at 1, gets at 1.
    cbn [fst]. rewrite Hc. cbn [negb]. unfold bind at 1.
    rewrite flush_open_eq by assumption.
    assert (Hflush : exists c1 w1,
               match _buffer c with
               | [] => (Ret tt, (c, w))
               | _ :: _ =>
                   LogTideClient_._send_logs_with_retry (_buffer c)
                     (set__buffer [] c, w)
               end = (Ret tt, (c1, w1)) /\
               _buffer c1 = [] /\ _closed c1 = false /\
               options c1 = options c).
    { destruct (_buffer c) as [|e es] eqn:Ebuf.
      - exists c, w. repeat apply conj; try reflexivity; assumption.
      - destruct (pipeline_outcome (e :: es) (set__buffer [] c) w)
          as (c1 & w1 & k & j & Hrun & _ & Ho & Hbf & Hcl & _);
          [ destruct c; exact Hq | destruct c; exact Hmr
          | destruct c; exact Hms | destruct c; exact Hfit | ].
        exists c1, w1. rewrite Hrun, Hbf, Hcl, Ho.
        destruct c; repeat apply conj; try reflexivity; assumption. }
    destruct Hflush as (c1 & w1 & -> & Hbf1 & Hcl1 & Ho1).
    unfold LogTideClient_._schedule_flush. run_m. rewrite Hcl1. run_m.
    eexists _, _. split; [ reflexivity | ].
    destruct c1; cbn in *. subst. repeat split.
Qed.

Lemma auto_flush_rearms_only_while_open_witness :
  LogTideClient_._auto_flush closed_full = (Ret tt, closed_full) /\
  exists c' w',
    LogTideClient_._auto_flush (fst two_buffered, snd two_buffered)
    = (Ret tt, (c', w')) /\
    _buffer c' = [] /\
    option_map cancelled (_flush_timer c') = Some false.
Proof.
  split.
  - exact (proj1 (proj1 (auto_flush_rearms_only_while_open
                           (fst closed_full) (snd closed_full)) eq_refl)).
  - assert (Hq : quiescent (fst two_buffered)) by (vm_compute; repeat split).
    assert (Hmr : 0 <= max_retries (options (fst two_buffered)))
      by (vm_compute; discriminate).
    assert (Hms : 0 <= retry_delay_ms (options (fst two_buffered)))
      by (vm_compute; discriminate).
    assert (Hfit : retry_delay_ms (options (fst two_buffered)) * 1000000
                   * 2 ^ (max_retries (options (fst two_buffered)) - 1)
                   <= PyTime_MAX)
      by (vm_compute; discriminate).
    destruct (proj2 (auto_flush_rearms_only_while_open
                       (fst two_buffered) (snd two_buffered))
                eq_refl Hq Hmr Hms Hfit)
      as (c' & w' & Hrun & Hbf & _ & Ht).
    exists c', w'. repeat apply conj; [ exact Hrun | exact Hbf | ].
    rewrite Ht. reflexivity.
Defined.

(** ** Metrics *)

Lemma get_metrics_eq (c : LogTideClient) (w : World) :
  _metrics_lock c = false ->
  LogTideClient_.get_metrics (c, w) = (Ret (_metrics c), (c, w)).
Proof.
  intros Hm. destruct c as [o bf tr bl ml m cb lw ft cl]. cbn in Hm. subst ml.
  unfold LogTideClient_.get_metrics, LogTideClient_.with_metrics_lock.
  run_m. reflexivity.
Qed.

Lemma reset_metrics_eq (c : LogTideClient) (w : World) :
  _metrics_lock c = false ->
  LogTideClient_.reset_metrics (c, w)
  = (Ret tt, (set__latency_window [] (set__metrics ClientMetrics_init c), w)).
Proof.
  intros Hm. destruct c as [o bf tr bl ml m cb lw ft cl]. cbn in Hm. subst ml.
  unfold LogTideClient_.reset_metrics, LogTideClient_.with_metrics_lock.
  run_m. reflexivity.
Qed.

(** X15. [get_metrics] returns the counters and leaves the client as it
    is.  After [reset_metrics] every counter reads 0 and the latency window
    is empty, so the average after the next recorded latency is that
    latency alone, whatever had been measured before. *)
Theorem reset_metrics_forgets_history (x : Q) (c : LogTideClient) (w : World) :
  _metrics_lock c = false ->
  LogTideClient_.get_metrics (c, w) = (Ret (_metrics c), (c, w)) /\
  (LogTideClient_.reset_metrics ;; LogTideClient_.get_metrics) (c, w)
  = (Ret ClientMetrics_init,
     (set__latency_window [] (set__metrics ClientMetrics_init c), w)) /\
  exists m c',
    (LogTideClient_.reset_metrics ;;
     LogTideClient_._update_latency x ;;
     LogTideClient_.get_metrics) (c, w) = (Ret m, (c', w)) /\
    (avg_latency_ms m == x)%Q /\
    _latency_window c' = [x] /\
    logs_sent m = 0 /\ logs_dropped m = 0 /\ errors m = 0 /\
    retries m = 0 /\ circuit_breaker_trips m = 0.
Proof.
  intros Hm. repeat apply conj.
  - apply get_metrics_eq. exact Hm.
  - unfold bind. rewrite reset_metrics_eq by assumption.
    rewrite get_metrics_eq by (destruct c; assumption).
    destruct c; reflexivity.
  - unfold bind at 1. rewrite reset_metrics_eq by assumption.
    unfold bind at 1. rewrite update_latency_eq by (destruct c; assumption).
    rewrite get_metrics_eq by (destruct c; assumption).
    eexists _, _. split; [ reflexivity | ].
    destruct c as [o bf tr bl ml m cb lw ft cl]. cbn.
    repeat apply conj; try reflexivity.
    change ((0 + x) / 1 == x)%Q. field.
Qed.

Lemma reset_metrics_forgets_history_witness :
  exists m c',
    (LogTideClient_.reset_metrics ;;
     LogTideClient_._update_latency (7 # 2)%Q ;;
     LogTideClient_.get_metrics) (fst always_failing, snd always_failing)
    = (Ret m, (c', snd always_failing)) /\
    (avg_latency_ms m == 7 # 2)%Q.
Proof.
  destruct (proj2 (proj2 (reset_metrics_forgets_history (7 # 2)%Q
                            (fst always_failing) (snd always_failing) eq_refl)))
    as (m & c' & Hrun & Havg & _).
  exists m, c'. split; [ exact Hrun | exact Havg ].
Defined.

(** ** Streaming *)

Lemma stream_eq {S J} (self : LogTideClient) (http : Http J)
    (on_log : J -> M S unit) (on_error : option (exn -> M S unit))
    (filters : option (gmap string string)) (resp : Response) (s : S * World) :
  stream_request self http filters = inr resp ->
  raise_for_status resp = None ->
  stream self http on_log on_error filters s =
  try_except
    (for_line_in http on_log on_error (iter_lines_error resp) (iter_lines resp))
    (fun e => match on_error with Some h => h e | None => raise e end) s.
Proof.
  unfold stream_request, stream. intros Hget Hst.
  replace (match filters with Some d => d | None => ∅ end)
    with (default ∅ filters) by (destruct filters; reflexivity).
  cbv zeta. unfold try_except, bind. rewrite Hget. cbn [of_sum].
  unfold ret at 1. cbv beta iota. rewrite Hst. reflexivity.
Qed.

Lemma for_line_in_app {S J} (http : Http J) (on_log : J -> M S unit)
    (on_error : option (exn -> M S unit)) (stop : option exn)
    (pre rest : list string) (s s1 : S * World) :
  each (stream_line http on_log on_error) pre s = (Ret tt, s1) ->
  for_line_in http on_log on_error stop (pre ++ rest) s =
  for_line_in http on_log on_error stop rest s1.
Proof.
  revert s. induction pre as [|l pre IH]; intros s H; cbn [each app for_line_in] in *.
  - unfold ret in H. injection H as <-. reflexivity.
  - unfold bind in *.
    destruct (stream_line http on_log on_error l s) as [[[]|e|] s'];
      try discriminate.
    apply IH, H.
Qed.

Lemma each_ignoring_errors_no_raise {S A} (f : A -> M S unit) (xs : list A)
    (s : S * World) (e : exn) :
  fst (each (ignoring_errors f) xs s) <> Raise e.
Proof.
  revert s. induction xs as [|x xs IH]; intros s; cbn [each].
  - discriminate.
  - unfold bind, ignoring_errors at 1, try_except.
    destruct (f x s) as [[[]|e'|] s']; cbn; try discriminate; apply IH.
Qed.

Lemma for_line_in_payloads {S J} (http : Http J) (on_log : J -> M S unit)
    (lines : list string) (s : S * World) :
  Forall (readable http) lines ->
  for_line_in http on_log None None lines s =
  each (ignoring_errors on_log) (payloads http lines) s.
Proof.
  intros H. revert s. induction H as [|l lines Hl _ IH]; intros s.
  - reflexivity.
  - cbn [for_line_in payloads]. unfold bind at 1.
    destruct l as [|a l]; [ apply IH | ].
    destruct Hl as [Hl|[line_str Hl]]; [ discriminate | ].
    cbn [stream_line]. rewrite Hl. unfold bind at 1. cbn [of_sum]. unfold ret at 1.
    destruct (String.prefix "data: " line_str); [ | apply IH ].
    unfold try_except, bind at 1.
    destruct (json_loads http (str_drop 6 line_str)) as [e|d]; cbn [of_sum].
    + unfold raise at 1, ret at 1. apply IH.
    + unfold ret at 1. cbn [each]. unfold bind, ignoring_errors at 1, try_except.
      destruct (on_log d s) as [[[]|e|] s']; try reflexivity; apply IH.
Qed.

(** X16. Without an error callback, on a connection that answers with a
    good status, does not break, and sends only lines that are empty or
    valid UTF-8, [stream] calls [on_log] on the payloads of the data lines
    in order and ignores what [on_log] raises; empty lines, lines that do
    not start with data: and payloads that are not JSON have no effect,
    and [stream] does not raise. *)
Theorem stream_without_callback_skips_failures {S J} (self : LogTideClient)
    (http : Http J) (on_log : J -> M S unit)
    (filters : option (gmap string string)) (resp : Response) (s : S * World) :
  stream_request self http filters = inr resp ->
  raise_for_status resp = None ->
  iter_lines_error resp = None ->
  Forall (readable http) (iter_lines resp) ->
  stream self http on_log None filters s =
    each (ignoring_errors on_log) (payloads http (iter_lines resp)) s /\
  forall e, fst (stream self http on_log None filters s) <> Raise e.
Proof.
  intros Hget Hst Hend Hall.
  assert (E : stream self http on_log None filters s =
              each (ignoring_errors on_log) (payloads http (iter_lines resp)) s).
  { rewrite (stream_eq _ _ _ _ _ resp) by assumption.
    rewrite Hend. unfold try_except.
    rewrite for_line_in_payloads by assumption.
    destruct (each (ignoring_errors on_log) (payloads http (iter_lines resp)) s)
      as [[[]|e|] s']; reflexivity. }
  split; [ exact E | ].
  intros e. rewrite E. apply each_ignoring_errors_no_raise.
Qed.

Lemma stream_without_callback_skips_failures_witness :
  stream (fst meta_client) (sse_http_with sse_lines) collect None None
    ([], quiet_world) = (Ret tt, ([1; 3], quiet_world)).
Proof.
  assert (Hall : Forall (readable (sse_http_with sse_lines)) sse_lines)
    by (unfold sse_lines;
        repeat (apply List.Forall_cons;
                [ first [ left; reflexivity | right; eexists; reflexivity ] | ]);
        apply List.Forall_nil).
  rewrite (proj1 (stream_without_callback_skips_failures (fst meta_client)
                    (sse_http_with sse_lines) collect None
                    {| raise_for_status := None; iter_lines := sse_lines;
                       iter_lines_error := None |}
                    ([], quiet_world) eq_refl eq_refl eq_refl Hall)).
  reflexivity.
Defined.





(** X18. When the error callback itself raises while it handles the
    failure of a data line (a payload that is not JSON, or an exception of
    [on_log]), the stream ends there, the lines that follow are not read,
    and the callback is called a second time, now with its own exception;
    what that second call does is the outcome of [stream]. *)
Theorem raising_error_callback_is_called_again {S J} (self : LogTideClient)
    (http : Http J) (on_log : J -> M S unit) (h : exn -> M S unit)
    (filters : option (gmap string string)) (resp : Response)
    (pre post : list string) (line line_str : string) (e1 e2 : exn)
    (s s1 s2 s3 : S * World) :
  stream_request self http filters = inr resp ->
  raise_for_status resp = None ->
  iter_lines resp = pre ++ line :: post ->
  each (stream_line http on_log (Some h)) pre s = (Ret tt, s1) ->
  line <> EmptyString ->
  decode_utf8 http line = inr line_str ->
  String.prefix "data: " line_str = true ->
  (log_data <- of_sum (json_loads http (str_drop 6 line_str)) ;;
   on_log log_data) s1 = (Raise e1, s2) ->
  h e1 s2 = (Raise e2, s3) ->
  stream self http on_log (Some h) filters s = h e2 s3.
Proof.
  intros Hget Hst Hlines Hpre Hne Hdec Hpfx Hbody Hh.
  rewrite (stream_eq _ _ _ _ _ resp) by assumption.
  unfold try_except. rewrite Hlines.
  rewrite (for_line_in_app _ _ _ _ pre (line :: post) s s1) by assumption.
  cbn [for_line_in]. unfold bind at 1.
  destruct line as [|a l]; [ congruence | ].
  cbn [stream_line]. unfold bind at 1. rewrite Hdec. cbn [of_sum].
  unfold ret at 1. rewrite Hpfx. unfold try_except. rewrite Hbody, Hh.
  reflexivity.
Qed.

Lemma raising_error_callback_is_called_again_witness :
  stream (fst meta_client) (sse_http_with ["data: 1"; "data: oops"; "data: 3"])
    collect_left (Some (fun e => collect_right e ;; raise e)) None
    (([], []), quiet_world)
  = (Raise (RequestException "JSONDecodeError"),
     (([1], [RequestException "JSONDecodeError";
             RequestException "JSONDecodeError"]), quiet_world)).
Proof.
  rewrite (raising_error_callback_is_called_again (fst meta_client)
             (sse_http_with ["data: 1"; "data: oops"; "data: 3"])
             collect_left (fun e => collect_right e ;; raise e) None
             {| raise_for_status := None;
                iter_lines := ["data: 1"; "data: oops"; "data: 3"];
                iter_lines_error := None |}
             ["data: 1"] ["data: 3"] "data: oops" "data: oops"
             (RequestException "JSONDecodeError")
             (RequestException "JSONDecodeError")
             (([], []), quiet_world)
             (([1], []), quiet_world)
             (([1], []), quiet_world)
             (([1], [RequestException "JSONDecodeError"]), quiet_world)
             eq_refl eq_refl eq_refl eq_refl);
    [ reflexivity | discriminate | reflexivity | reflexivity | reflexivity
    | reflexivity ].
Defined.

(** X19. A non-empty line that is not valid UTF-8 ends the stream, whether
    or not it is a data line: the lines before it have been handled, the
    lines after it are never read, and the decoding error goes to the error
    callback, or to the caller when there is none. *)
Theorem undecodable_line_ends_the_stream {S J} (self : LogTideClient)
    (http : Http J) (on_log : J -> M S unit)
    (on_error : option (exn -> M S unit))
    (filters : option (gmap string string)) (resp : Response)
    (pre post : list string) (line : string) (e : exn) (s s1 : S * World) :
  stream_request self http filters = inr resp ->
  raise_for_status resp = None ->
  iter_lines resp = pre ++ line :: post ->
  each (stream_line http on_log on_error) pre s = (Ret tt, s1) ->
  line <> EmptyString ->
  decode_utf8 http line = inl e ->
  stream self http on_log on_error filters s =
  match on_error with
  | Some h => h e s1
  | None => (Raise e, s1)
  end.
Proof.
  intros Hget Hst Hlines Hpre Hne Hdec.
  rewrite (stream_eq _ _ _ _ _ resp) by assumption.
  unfold try_except. rewrite Hlines.
  rewrite (for_line_in_app _ _ _ _ pre (line :: post) s s1) by assumption.
  cbn [for_line_in]. unfold bind at 1.
  destruct line as [|a l]; [ congruence | ].
  cbn [stream_line]. unfold bind at 1. rewrite Hdec. cbn [of_sum].
  unfold raise at 1. destruct on_error; reflexivity.
Qed.

Lemma undecodable_line_ends_the_stream_witness :
  stream (fst meta_client)
    (sse_http_with ["data: 1"; bad_line; "data: 3"])
    collect None None ([], quiet_world)
  = (Raise (RequestException "UnicodeDecodeError"), ([1], quiet_world)).
Proof.
  apply (undecodable_line_ends_the_stream (fst meta_client)
           (sse_http_with ["data: 1"; bad_line; "data: 3"])
           collect None None
           {| raise_for_status := None;
              iter_lines := ["data: 1"; bad_line; "data: 3"];
              iter_lines_error := None |}
           ["data: 1"] ["data: 3"] (bad_line)
           (RequestException "UnicodeDecodeError")
           ([], quiet_world) ([1], quiet_world)
           eq_refl eq_refl eq_refl eq_refl);
    [ discriminate | reflexivity ].
Defined.

(** ** The request hook of the Flask middleware *)

Lemma log_keeps_trace_id (e : LogEntry) (c : LogTideClient) (w : World) :
  _trace_id (fst (snd (LogTideClient_.log e (c, w)))) = _trace_id c.
Proof.
  destruct (_closed c) eqn:Hc.
  - rewrite log_closed by assumption. reflexivity.
  - rewrite log_open_exact by assumption.
    set (w1 := if needs_uuid c e then next_uuid w else w).
    unfold LogTideClient_.with_buffer_lock, LogTideClient_.with_metrics_lock,
      LogTideClient_.update_metrics.
    run_m.
    destruct c as [o bf tr bl ml m cb lw ft cl]. cbn in Hc. subst cl.
    project.
    destruct bl; project; [ reflexivity | ].
    destruct (Z.of_nat (length bf) >=? max_buffer_size o); project.
    { destruct ml; project; reflexivity. }
    destruct (Z.of_nat (length (bf ++ [_])) >=? batch_size o); project.
    + rewrite flush_blocks by reflexivity. project. reflexivity.
    + reflexivity.
Qed.

Lemma info_keeps_trace_id (sv msg : string) (md : option (gmap string pyval))
    (c : LogTideClient) (w : World) :
  _trace_id (fst (snd (LogTideClient_.info sv msg md (c, w)))) = _trace_id c.
Proof.
  change (LogTideClient_.info sv msg md) with (run_call (CallInfo md) sv msg).
  rewrite run_call_eq. apply log_keeps_trace_id.
Qed.

(** The client as the hook leaves it before it logs. *)
Lemma before_request_eq (self : Flask.LogTideFlaskMiddleware)
    (r : Flask.Request) (x : Flask.Ctx) (w : World) :
  hook_logs self r = true ->
  exists md,
    Flask._before_request self r (x, w) =
    Flask.on_client
      (LogTideClient_.info (Flask.service_name self)
         (Flask.method r +:+ " " +:+ Flask.path r) (Some md))
      ({| Flask.client :=
            match adopted_trace_id r with
            | Some t => set__trace_id (Some t) (Flask.client x)
            | None => Flask.client x
            end;
          Flask.logtide_start_time := Some (clock w (ticks w)) |}, tick w) /\
    md !! "method" = Some (PStr (Flask.method r)) /\
    md !! "path" = Some (PStr (Flask.path r)) /\
    md !! "ip" = Some (Flask.remote_addr r).
Proof.
  unfold hook_logs. intros H. apply andb_true_iff in H as [Hskip Hlog].
  apply negb_true_iff in Hskip.
  unfold Flask._before_request. rewrite Hskip, Hlog. cbn [negb]. cbv zeta.
  eexists. split.
  - unfold adopted_trace_id.
    unfold bind at 1, time_time, bind at 1, getsW at 1. cbn [fst snd].
    unfold bind at 1, modifyW at 1, ret at 1. cbn [fst snd].
    unfold bind at 1, modify at 1. cbn [fst snd].
    unfold bind at 1.
    destruct (Flask.X_Trace_ID r) as [t|]; [ destruct (String.eqb t EmptyString) | ];
      cbn [negb]; reflexivity.
  - destruct (Flask.include_headers self),
      (Flask.include_body self && Flask.is_json r);
      repeat apply conj; simplify_map_eq; reflexivity.
Qed.

Lemma on_client_info_appends (sv msg : string) (md : gmap string pyval)
    (x : Flask.Ctx) (w : World) :
  _closed (Flask.client x) = false ->
  _buffer_lock (Flask.client x) = false ->
  Z.of_nat (length (_buffer (Flask.client x))) < max_buffer_size (options (Flask.client x)) ->
  Z.of_nat (length (_buffer (Flask.client x))) + 1 < batch_size (options (Flask.client x)) ->
  exists e,
    Flask.on_client (LogTideClient_.info sv msg (Some md)) (x, w) =
    (Ret tt,
     (Flask.set_client
        (set__buffer (_buffer (Flask.client x) ++ [e]) (Flask.client x)) x,
      if auto_trace_id (options (Flask.client x))
      then next_uuid (next_utcnow w) else next_utcnow w)) /\
    service e = sv /\ level e = INFO /\ message e = msg /\
    metadata e = md ∪ global_metadata (options (Flask.client x)) /\
    trace_id e = (if auto_trace_id (options (Flask.client x))
                  then Some (uuid4 w (uuids w))
                  else _trace_id (Flask.client x)).
Proof.
  intros Hc Hb Hmax Hbatch.
  unfold Flask.on_client. cbn [fst snd].
  change (LogTideClient_.info sv msg (Some md))
    with (run_call (CallInfo (Some md)) sv msg).
  rewrite run_call_eq, log_appends by assumption.
  unfold needs_uuid, stamped. cbn [trace_id]. cbn [fst snd].
  eexists. split; [ reflexivity | ].
  cbn. repeat apply conj; reflexivity.
Qed.

(** One logged request, in closed form. *)
Lemma before_request_logs (self : Flask.LogTideFlaskMiddleware)
    (r : Flask.Request) (c : LogTideClient) (g : option Q) (w : World) :
  hook_logs self r = true ->
  _closed c = false ->
  _buffer_lock c = false ->
  Z.of_nat (length (_buffer c)) < max_buffer_size (options c) ->
  Z.of_nat (length (_buffer c)) + 1 < batch_size (options c) ->
  exists e,
    Flask._before_request self r
      ({| Flask.client := c; Flask.logtide_start_time := g |}, w) =
    (Ret tt,
     ({| Flask.client :=
           set__buffer (_buffer c ++ [e])
             (set__trace_id
                (match adopted_trace_id r with
                 | Some t => Some t
                 | None => _trace_id c
                 end) c);
         Flask.logtide_start_time := Some (clock w (ticks w)) |},
      if auto_trace_id (options c)
      then next_uuid (next_utcnow (tick w)) else next_utcnow (tick w))) /\
    service e = Flask.service_name self /\
    level e = INFO /\
    message e = Flask.method r +:+ " " +:+ Flask.path r /\
    trace_id e = (if auto_trace_id (options c)
                  then Some (uuid4 w (uuids w))
                  else match adopted_trace_id r with
                       | Some t => Some t
                       | None => _trace_id c
                       end) /\
    metadata e !! "method" = Some (PStr (Flask.method r)) /\
    metadata e !! "path" = Some (PStr (Flask.path r)) /\
    metadata e !! "ip" = Some (Flask.remote_addr r).
Proof.
  intros Hl Hc Hb Hmax Hbatch.
  destruct (before_request_eq self r
              {| Flask.client := c; Flask.logtide_start_time := g |} w Hl)
    as (md & E & Hm & Hp & Hi).
  cbn [Flask.client] in E.
  match type of E with _ = Flask.on_client _ (?x1, ?w1) =>
    destruct (on_client_info_appends (Flask.service_name self)
                (Flask.method r +:+ " " +:+ Flask.path r) md x1 w1)
      as (e & R & Hs & Hlv & Hmsg & Hmd & Ht)
  end.
  1-4: cbn [Flask.client]; destruct (adopted_trace_id r);
    destruct c; cbn in *; assumption.
  rewrite R in E. exists e. split.
  - rewrite E. unfold Flask.set_client. cbn [Flask.client Flask.logtide_start_time].
    destruct (adopted_trace_id r); destruct c; reflexivity.
  - repeat apply conj; try assumption.
    + rewrite Ht. cbn [Flask.client].
      destruct (adopted_trace_id r); destruct c; reflexivity.
    + rewrite Hmd. apply lookup_union_Some_l. exact Hm.
    + rewrite Hmd. apply lookup_union_Some_l. exact Hp.
    + rewrite Hmd. apply lookup_union_Some_l. exact Hi.
Qed.



(** X21. Under auto_trace_id the X-Trace-ID header of a request does not
    reach its entry: the hook makes the header the trace id of the client,
    but the entry it logs is stored under a freshly drawn uuid. *)
Theorem auto_trace_id_overrides_the_request_header
    (self : Flask.LogTideFlaskMiddleware) (r : Flask.Request)
    (id : string) (c : LogTideClient) (g : option Q) (w : World) :
  hook_logs self r = true ->
  adopted_trace_id r = Some id ->
  auto_trace_id (options c) = true ->
  _closed c = false ->
  _buffer_lock c = false ->
  Z.of_nat (length (_buffer c)) < max_buffer_size (options c) ->
  Z.of_nat (length (_buffer c)) + 1 < batch_size (options c) ->
  exists c' g' w' e,
    Flask._before_request self r
      ({| Flask.client := c; Flask.logtide_start_time := g |}, w)
      = (Ret tt, ({| Flask.client := c'; Flask.logtide_start_time := g' |}, w')) /\
    _buffer c' = _buffer c ++ [e] /\
    trace_id e = Some (uuid4 w (uuids w)) /\
    _trace_id c' = Some id /\
    uuids w' = S (uuids w).
Proof.
  intros Hl Hid Ha Hc Hb Hmax Hbatch.
  destruct (before_request_logs self r c g w Hl Hc Hb Hmax Hbatch)
    as (e & E & _ & _ & _ & T & _).
  rewrite Hid in E. rewrite Ha in E, T.
  eexists _, _, _, e. split; [ exact E | ].
  repeat apply conj; [ reflexivity | exact T | reflexivity | reflexivity ].
Qed.

Lemma auto_trace_id_overrides_the_request_header_witness :
  exists c' g' w' e,
    Flask._before_request flask_mw traced_request
      ({| Flask.client := fst auto_client; Flask.logtide_start_time := None |},
       snd auto_client)
      = (Ret tt, ({| Flask.client := c'; Flask.logtide_start_time := g' |}, w')) /\
    _buffer c' = [e] /\
    trace_id e = Some "6f1c1e0e-0000-4000-8000-000000000000" /\
    _trace_id c' = Some "trace-1".
Proof.
  assert (Hmax : Z.of_nat (length (_buffer (fst auto_client)))
                 < max_buffer_size (options (fst auto_client))) by reflexivity.
  assert (Hbatch : Z.of_nat (length (_buffer (fst auto_client))) + 1
                   < batch_size (options (fst auto_client))) by reflexivity.
  destruct (auto_trace_id_overrides_the_request_header flask_mw traced_request
              "trace-1" (fst auto_client) None (snd auto_client)
              eq_refl eq_refl eq_refl eq_refl eq_refl Hmax Hbatch)
    as (c' & g' & w' & e & E & B & T & I & _).
  exists c', g', w', e.
  repeat apply conj; [ exact E | exact B | exact T | exact I ].
Defined.

Lemma log_full_eq (e : LogEntry) (c : LogTideClient) (w : World) :
  _closed c = false ->
  _buffer_lock c = false ->
  _metrics_lock c = false ->
  max_buffer_size (options c) <= Z.of_nat (length (_buffer c)) ->
  LogTideClient_.log e (c, w) =
  (Raise (BufferFullError "Log buffer is full"),
   (set__metrics (add_logs_dropped 1 (_metrics c)) c,
    if needs_uuid c e then next_uuid w else w)).
Proof.
  intros Hc Hb Hm Hfull. rewrite log_open_exact by assumption.
  unfold LogTideClient_.with_buffer_lock, LogTideClient_.with_metrics_lock,
    LogTideClient_.update_metrics.
  run_m. rewrite Hb.
  replace (Z.of_nat (length (_buffer c)) >=? max_buffer_size (options c))
    with true by (symmetry; rewrite Z.geb_leb; apply Z.leb_le; lia).
  cbv beta iota. run_m. rewrite Hm. cbv beta iota. run_m.
  destruct c; cbn in *; subst; reflexivity.
Qed.

(** X22. What logging does to the request. For a request the hook logs,
    on a client whose locks are free: when the buffer is full the hook
    raises BufferFullError into the request, after counting the entry as
    dropped; when the entry completes a batch the hook never returns, the
    buffer lock held; on a closed client the hook returns and nothing is
    buffered or counted. In all three cases the start time is recorded. *)
Theorem logging_failure_fails_the_request
    (self : Flask.LogTideFlaskMiddleware) (r : Flask.Request)
    (c : LogTideClient) (g : option Q) (w : World) :
  hook_logs self r = true ->
  _buffer_lock c = false ->
  _metrics_lock c = false ->
  let hook :=
    Flask._before_request self r
      ({| Flask.client := c; Flask.logtide_start_time := g |}, w) in
  (_closed c = false ->
   max_buffer_size (options c) <= Z.of_nat (length (_buffer c)) ->
   exists c' w',
     hook = (Raise (BufferFullError "Log buffer is full"),
             ({| Flask.client := c';
                 Flask.logtide_start_time := Some (clock w (ticks w)) |}, w')) /\
     _buffer c' = _buffer c /\
     logs_dropped (_metrics c') = logs_dropped (_metrics c) + 1) /\
  (_closed c = false ->
   Z.of_nat (length (_buffer c)) < max_buffer_size (options c) ->
   batch_size (options c) <= Z.of_nat (length (_buffer c)) + 1 ->
   exists c' w',
     hook = (Hang,
             ({| Flask.client := c';
                 Flask.logtide_start_time := Some (clock w (ticks w)) |}, w')) /\
     _buffer_lock c' = true /\
     length (_buffer c') = S (length (_buffer c))) /\
  (_closed c = true ->
   exists c' w',
     hook = (Ret tt,
             ({| Flask.client := c';
                 Flask.logtide_start_time := Some (clock w (ticks w)) |}, w')) /\
     _buffer c' = _buffer c /\ _metrics c' = _metrics c).
Proof.
  intros Hl Hb Hm hook. subst hook.
  destruct (before_request_eq self r
              {| Flask.client := c; Flask.logtide_start_time := g |} w Hl)
    as (md & E & _).
  rewrite E. clear E. unfold Flask.on_client.
  cbn [fst snd Flask.client Flask.set_client Flask.logtide_start_time].
  change (LogTideClient_.info (Flask.service_name self)
            (Flask.method r +:+ " " +:+ Flask.path r) (Some md))
    with (run_call (CallInfo (Some md)) (Flask.service_name self)
            (Flask.method r +:+ " " +:+ Flask.path r)).
  rewrite run_call_eq.
  set (c1 := match adopted_trace_id r with
             | Some t => set__trace_id (Some t) c
             | None => c
             end).
  assert (Hc1 : options c1 = options c /\ _buffer c1 = _buffer c /\
                _buffer_lock c1 = _buffer_lock c /\
                _metrics_lock c1 = _metrics_lock c /\
                _closed c1 = _closed c /\ _metrics c1 = _metrics c)
    by (subst c1; destruct (adopted_trace_id r); destruct c;
        repeat apply conj; reflexivity).
  destruct Hc1 as (Ho & Hbf & Hbl & Hml & Hcl & Hmt).
  repeat apply conj.
  - intros Hc Hfull.
    rewrite log_full_eq by congruence.
    eexists _, _. split; [ reflexivity | ].
    destruct c1; cbn in *; subst. split; reflexivity.
  - intros Hc Hlt Hbs.
    destruct (log_auto_flush_blocks
                {| service := Flask.service_name self;
                   level := call_level (CallInfo (Some md));
                   message := Flask.method r +:+ " " +:+ Flask.path r;
                   time := Some (utcnow (tick w) (utcnows (tick w)) +:+ "Z");
                   metadata := call_metadata (tick w) (CallInfo (Some md));
                   trace_id := None |} c1 (next_utcnow (tick w)))
      as (e' & w' & R & _); try congruence.
    rewrite R. cbn [fst snd].
    eexists _, _. split; [ reflexivity | ].
    destruct c1; cbn in *; subst. split; [ reflexivity | ].
    rewrite length_app. cbn. lia.
  - intros Hc. rewrite log_closed by congruence.
    eexists _, _. split; [ reflexivity | ]. split; assumption.
Qed.

Lemma logging_failure_fails_the_request_witness :
  exists c' w',
    Flask._before_request flask_mw traced_request
      ({| Flask.client := fst two_buffered; Flask.logtide_start_time := None |},
       snd two_buffered)
    = (Raise (BufferFullError "Log buffer is full"),
       ({| Flask.client := c';
           Flask.logtide_start_time :=
             Some (clock (snd two_buffered) (ticks (snd two_buffered))) |}, w')) /\
    _buffer c' = _buffer (fst two_buffered).
Proof.
  assert (Hfull : max_buffer_size (options (fst two_buffered))
                  <= Z.of_nat (length (_buffer (fst two_buffered))))
    by (vm_compute; discriminate).
  destruct (proj1 (logging_failure_fails_the_request flask_mw traced_request
                     (fst two_buffered) None (snd two_buffered)
                     eq_refl eq_refl eq_refl) eq_refl Hfull)
    as (c' & w' & E & B & _).
  exists c', w'. split; [ exact E | exact B ].
Defined.

(** X23. The request hook takes over a trace id only from a request it
    logs: for a request it logs, the trace id of the client afterwards is
    the X-Trace-ID header when that is present and not empty, and whether
    the logging call returns, raises or blocks; in every other case, and
    when the request is skipped or requests are not logged, it is the
    trace id the client had. The hook never clears it. A request that is
    not skipped while requests are not logged only has its start time
    recorded in [g]. *)
Theorem request_hook_keeps_or_adopts_trace_id
    (self : Flask.LogTideFlaskMiddleware) (r : Flask.Request)
    (x : Flask.Ctx) (w : World) :
  _trace_id (Flask.client (fst (snd (Flask._before_request self r (x, w))))) =
    (if hook_logs self r
     then match adopted_trace_id r with
          | Some t => Some t
          | None => _trace_id (Flask.client x)
          end
     else _trace_id (Flask.client x)) /\
  (Flask._should_skip self (Flask.path r) = false ->
   Flask.log_requests self = false ->
   Flask._before_request self r (x, w) =
   (Ret tt,
    (Flask.set_logtide_start_time (Some (clock w (ticks w))) x, tick w))).
Proof.
  destruct (hook_logs self r) eqn:Hl.
  - split.
    + destruct (before_request_eq self r x w Hl) as (md & E & _).
      rewrite E. unfold Flask.on_client.
      cbn [fst snd Flask.client Flask.set_client].
      rewrite info_keeps_trace_id.
      destruct (adopted_trace_id r); destruct (Flask.client x); reflexivity.
    + intros Hs Hr. unfold hook_logs in Hl. rewrite Hs, Hr in Hl. discriminate.
  - unfold hook_logs in Hl. unfold Flask._before_request.
    destruct (Flask._should_skip self (Flask.path r)).
    + split; [ reflexivity | discriminate ].
    + cbn [negb andb] in Hl. rewrite Hl. cbn [negb].
      split; [ reflexivity | ]. intros _ _. reflexivity.
Qed.

(** X24. The paths the middleware skips are the paths it was given and,
    with skip_health_check, /health and /healthz, and no others; for a
    request to a skipped path the hook does nothing at all: it reads no
    clock, sets nothing in [g], and leaves the client and its trace id
    alone, even when the request carries an X-Trace-ID header. *)
Theorem skipped_paths_are_invisible
    (sv : string) (lr lp le ih ib hc : bool) (sp : option (list string))
    (p : string) :
  (Flask._should_skip (Flask.init sv lr lp le ih ib hc sp) p = true <->
   p ∈ default [] sp \/ (hc = true /\ (p = "/health" \/ p = "/healthz"))) /\
  forall (r : Flask.Request) (s : Flask.Ctx * World),
    Flask._should_skip (Flask.init sv lr lp le ih ib hc sp) (Flask.path r) = true ->
    Flask._before_request (Flask.init sv lr lp le ih ib hc sp) r s = (Ret tt, s).
Proof.
  split.
  - unfold Flask._should_skip, Flask.init. cbn [Flask.skip_paths].
    rewrite bool_decide_eq_true.
    assert (E : match sp with Some (q :: l) => q :: l | _ => [] end = default [] sp)
      by (destruct sp as [[|q l]|]; reflexivity).
    rewrite E. destruct hc.
    + rewrite elem_of_app, !elem_of_cons, elem_of_nil. intuition congruence.
    + intuition congruence.
  - intros r s H. unfold Flask._before_request. rewrite H. reflexivity.
Qed.

(** ** A delay that [time.sleep] refuses *)

(** A negative delay within the range of [_PyTime_t] is refused. *)
Lemma time_sleep_negative {O} (ms : Z) (s : O * World) :
  ms < 0 ->
  PyTime_MIN <= ms * 1000000 ->
  time_sleep (inject_Z ms / 1000) s
  = (Raise (ValueError "sleep length must be non-negative"), s).
Proof.
  intros Hneg Hmin.
  assert (E : (inject_Z ms / 1000 * inject_Z 1000000000
               == inject_Z (ms * 1000000))%Q)
    by (rewrite inject_Z_mult; field).
  assert (Hfit : fits_PyTime (inject_Z ms / 1000) = true).
  { unfold fits_PyTime. rewrite andb_true_iff, !Qle_bool_iff, E.
    split; rewrite <- Zle_Qle; [ exact Hmin | unfold PyTime_MAX; lia ]. }
  assert (Hnn : Qle_bool 0 (inject_Z ms / 1000) = false).
  { destruct (Qle_bool 0 (inject_Z ms / 1000)) eqn:Hle; [ | reflexivity ].
    apply Qle_bool_iff in Hle.
    apply (Qmult_le_compat_r _ _ 1000) in Hle; [ | discriminate ].
    assert (E2 : (inject_Z ms / 1000 * 1000 == inject_Z ms)%Q) by field.
    rewrite E2, Qmult_0_l in Hle. rewrite <- (Zle_Qle 0) in Hle. lia. }
  unfold time_sleep. rewrite Hfit, Hnn. reflexivity.
Qed.

(** A turn whose POST fails and whose sleep is refused: the exception of
    [time.sleep] leaves the handler, after the failure and the retry have
    been counted. *)
Lemma attempt_once_sleep_raises (logs : list LogEntry) (attempt : Z) (delay : Q)
    (e : exn) (c : LogTideClient) (w : World) :
  quiescent c ->
  _state (_circuit_breaker c) <> OPEN ->
  post_ok w (length (posts w)) = false ->
  attempt + 1 <= max_retries (options c) ->
  (forall s : LogTideClient * World, time_sleep delay s = (Raise e, s)) ->
  let cb := _circuit_breaker c in
  LogTideClient_.attempt_once logs attempt delay (c, w) =
  (Raise e,
   (set__metrics (add_retries 1 (add_errors 1 (_metrics c)))
      (set__circuit_breaker
         (set__state
            (if _failure_count cb + 1 >=? threshold cb then OPEN else _state cb)
            (set__last_failure_time (clock w (S (ticks w)))
               (set__failure_count (_failure_count cb + 1) cb))) c),
    tick (add_post logs (tick w)))).
Proof.
  intros (Hb & Hm & Hl) Hst Hpost Hatt Hraise. cbn zeta.
  unfold LogTideClient_.attempt_once, try_except.
  unfold bind at 1. unfold bind at 1.
  rewrite breaker_state_eq by assumption.
  destruct c as [o bf tr bl ml m cb lw ft cl];
    cbn [_circuit_breaker options _metrics _metrics_lock _buffer_lock] in *.
  destruct cb as [t T st fc last lk];
    cbn [_state _failure_count threshold _lock] in *.
  subst bl ml lk.
  destruct st; try congruence; cbn [CircuitState_eqb].
  all: unfold LogTideClient_._send_logs, LogTideClient_.with_metrics_lock,
         LogTideClient_.update_metrics, on_breaker,
         CircuitBreaker_.record_failure; run_m;
       rewrite Hpost; run_m;
       rewrite (Z.gtb_ltb (attempt + 1)), Z.ltb_antisym;
       replace (attempt + 1 <=? max_retries o) with true
         by (symmetry; apply Z.leb_le; exact Hatt);
       destruct (fc + 1 >=? t); run_m; cbn [negb];
       rewrite Hraise; reflexivity.
Qed.

(** X25. A negative retry_delay_ms loses the batch and breaks [flush].
    On an open client with no lock held, a non-empty buffer, max_retries
    at least 1, a breaker that is not OPEN and a first POST that fails,
    when retry_delay_ms is negative (and its nanoseconds fit a signed
    64-bit count): [flush], and with it the timer's [_auto_flush], raises
    the ValueError of [time.sleep] after that single POST.  The buffer has
    been emptied, the failure and a retry have been counted, nothing has
    slept, the batch is counted neither as sent nor as dropped, and no new
    timer is armed. *)
Theorem negative_retry_delay_raises_out_of_flush (c : LogTideClient) (w : World) :
  _closed c = false ->
  quiescent c ->
  _buffer c <> [] ->
  1 <= max_retries (options c) ->
  retry_delay_ms (options c) < 0 ->
  PyTime_MIN <= retry_delay_ms (options c) * 1000000 ->
  _state (_circuit_breaker c) <> OPEN ->
  post_ok w (length (posts w)) = false ->
  exists c' w',
    LogTideClient_.flush (c, w)
      = (Raise (ValueError "sleep length must be non-negative"), (c', w')) /\
    LogTideClient_._auto_flush (c, w)
      = (Raise (ValueError "sleep length must be non-negative"), (c', w')) /\
    _buffer c' = [] /\
    posts w' = posts w ++ [_buffer c] /\
    sleeps w' = sleeps w /\
    errors (_metrics c') = errors (_metrics c) + 1 /\
    retries (_metrics c') = retries (_metrics c) + 1 /\
    logs_sent (_metrics c') = logs_sent (_metrics c) /\
    logs_dropped (_metrics c') = logs_dropped (_metrics c) /\
    _flush_timer c' = _flush_timer c.
Proof.
  intros Hc Hq Hbuf Hmr Hneg Hmin Hst Hpost.
  pose proof Hq as (Hb & Hm & Hl).
  assert (Hflush : exists c' w',
            LogTideClient_.flush (c, w)
              = (Raise (ValueError "sleep length must be non-negative"), (c', w')) /\
            _buffer c' = [] /\
            posts w' = posts w ++ [_buffer c] /\
            sleeps w' = sleeps w /\
            errors (_metrics c') = errors (_metrics c) + 1 /\
            retries (_metrics c') = retries (_metrics c) + 1 /\
            logs_sent (_metrics c') = logs_sent (_metrics c) /\
            logs_dropped (_metrics c') = logs_dropped (_metrics c) /\
            _flush_timer c' = _flush_timer c).
  { rewrite flush_open_eq by assumption.
    destruct (_buffer c) as [|e es] eqn:Ebuf; [ congruence | ].
    rewrite send_logs_with_retry_eq. cbn [fst].
    replace (Z.to_nat (max_retries (options (set__buffer [] c)) + 1))
      with (S (Z.to_nat (max_retries (options c))))
      by (destruct c; cbn in *; lia).
    rewrite retry_loop_S. cbn [fst].
    replace (0 <=? max_retries (options (set__buffer [] c))) with true
      by (symmetry; apply Z.leb_le; destruct c; cbn in *; lia).
    rewrite (attempt_once_sleep_raises _ _ _
               (ValueError "sleep length must be non-negative")).
    - eexists _, _. split; [ reflexivity | ].
      destruct c as [o bf tr bl ml m cb lw ft cl]. cbn in *. subst bf.
      repeat apply conj; reflexivity.
    - destruct c; exact Hq.
    - destruct c; exact Hst.
    - exact Hpost.
    - destruct c; cbn in *; lia.
    - intros s. destruct c; cbn in *.
      apply time_sleep_negative; assumption. }
  destruct Hflush as (c' & w' & Hrun & Hrest).
  exists c', w'. split; [ exact Hrun | ]. split; [ | exact Hrest ].
  unfold LogTideClient_._auto_flush. unfold bind at 1, gets at 1.
  cbn [fst]. rewrite Hc. cbn [negb]. unfold bind at 1. rewrite Hrun. reflexivity.
Qed.

Lemma negative_retry_delay_raises_out_of_flush_witness :
  exists c' w',
    LogTideClient_.flush (fst negative_delay, snd negative_delay)
      = (Raise (ValueError "sleep length must be non-negative"), (c', w')) /\
    _buffer c' = [] /\
    length (posts w') = 1%nat /\
    logs_sent (_metrics c') = 0 /\ logs_dropped (_metrics c') = 0.
Proof.
  assert (Hq : quiescent (fst negative_delay)) by (vm_compute; repeat split).
  assert (Hbuf : _buffer (fst negative_delay) <> []) by discriminate.
  assert (Hmr : 1 <= max_retries (options (fst negative_delay)))
    by (vm_compute; discriminate).
  assert (Hmin : PyTime_MIN <= retry_delay_ms (options (fst negative_delay)) * 1000000)
    by (vm_compute; discriminate).
  assert (Hst : _state (_circuit_breaker (fst negative_delay)) <> OPEN)
    by discriminate.
  destruct (negative_retry_delay_raises_out_of_flush
              (fst negative_delay) (snd negative_delay)
              eq_refl Hq Hbuf Hmr eq_refl Hmin Hst eq_refl)
    as (c' & w' & Hrun & _ & Hbf & Hp & _ & _ & _ & Hsent & Hd & _).
  exists c', w'.
  repeat apply conj;
    [ exact Hrun | exact Hbf | rewrite Hp; reflexivity | exact Hsent | exact Hd ].
Defined.
